(** * Runtime coordination core of the kitchen monitoring rig

    A shallow embedding of the scheduling, service-lifecycle, detection-gate
    and vibration-logging code and of the Modbus sensor the vibration
    detector reads, with the properties the specification states about it
    and further properties read off the code.

    Conventions used throughout:
    - Python [int] is [Z]; a Python [bool] is [bool]; [None]-able values are
      [option].
    - A Python exception that the code catches is an explicit [Raised] result;
      the small state-and-exception monad [Py.M] below keeps the mutations a
      statement made before it raised, as Python does.
    - Collaborators that are not part of the repository (the YOLO model, the
      registered service objects, the scheduler callbacks, the clocks) are
      inputs: each call's outcome is supplied by the caller of the model. *)

From Stdlib Require Import ZArith List Bool String Ascii Lia QArith Qabs Qround Qminmax.
From Stdlib Require Strings.Byte.
Import ListNotations.
Open Scope Z_scope.

(** ** A small monad for Python statements: state, exceptions *)

Module Py.

Inductive result (A : Type) : Type :=
| Returned (a : A)
| Raised (msg : string).

Arguments Returned {A} a.

Arguments Raised {A} msg.

Definition M (S A : Type) : Type := S -> result A * S.

Definition ret {S A} (a : A) : M S A := fun s => (Returned a, s).

Definition bind {S A B} (m : M S A) (k : A -> M S B) : M S B :=
  fun s =>
    match m s with
    | (Returned a, s') => k a s'
    | (Raised e, s') => (Raised e, s')
    end.

Definition raise {S A} (e : string) : M S A := fun s => (Raised e, s).

(** [try: body / except Exception as e: handler e] *)
Definition try_except {S A} (body : M S A) (handler : string -> M S A) : M S A :=
  fun s =>
    match body s with
    | (Returned a, s') => (Returned a, s')
    | (Raised e, s') => handler e s'
    end.

Definition get {S} : M S S := fun s => (Returned s, s).

Definition modify {S} (f : S -> S) : M S unit := fun s => (Returned tt, f s).

(** The outcome of a call into a collaborator, lifted into the monad. *)
Definition call {S A} (outcome : result A) : M S A := fun s => (outcome, s).

Definition exec {S A} (m : M S A) (s : S) : S := snd (m s).

End Py.

Declare Scope py_scope.
Delimit Scope py_scope with py.
Notation "x <- m ;; k" := (Py.bind m (fun x => k))
  (at level 61, m at next level, right associativity) : py_scope.
Notation "m ;;; k" := (Py.bind m (fun _ => k))
  (at level 61, right associativity) : py_scope.

(** ** WorkScheduler (src/scheduler/work_scheduler.py) *)

Module WorkScheduler.

(** [datetime.time]: compared as the tuple (hour, minute, second, microsecond). *)
Record time := dt_time_full {
  hour : Z; minute : Z; second : Z; microsecond : Z
}.

(** The time of day [h:m:00.000000]. *)
Definition time_hm (h m : Z) : time := dt_time_full h m 0 0.

(** The exception [datetime.time] raises, named by its class. *)
Definition ValueError : string := "ValueError".

(** [dt_time(h, m)]: seconds and microseconds default to 0; an hour outside
    0..23 or a minute outside 0..59 is a [ValueError]. *)
Definition dt_time (h m : Z) : Py.result time :=
  if negb ((0 <=? h) && (h <=? 23)) then Py.Raised ValueError
  else if negb ((0 <=? m) && (m <=? 59)) then Py.Raised ValueError
  else Py.Returned (dt_time_full h m 0 0).

Definition time_compare (a b : time) : comparison :=
  match hour a ?= hour b with
  | Eq => match minute a ?= minute b with
          | Eq => match second a ?= second b with
                  | Eq => microsecond a ?= microsecond b
                  | c => c
                  end
          | c => c
          end
  | c => c
  end.

Definition time_leb (a b : time) : bool :=
  match time_compare a b with Gt => false | _ => true end.

(** What the scheduler reads of [datetime.now()]: [now.weekday()]
    (0 = Monday .. 6 = Sunday) and [now.time()]. *)
Record datetime := mk_datetime {
  weekday : Z;
  time_of : time
}.

Record WorkSchedule := mk_schedule {
  start_hour : Z;
  start_minute : Z;
  end_hour : Z;
  end_minute : Z;
  enabled_days : list Z;
  timezone : string
}.

(** [x in xs] on a list of ints. *)
Definition py_in (x : Z) (xs : list Z) : bool := existsb (Z.eqb x) xs.

(** [is_work_time]: the two [dt_time] values are built only on an enabled
    weekday, the start first; a [ValueError] of either propagates. *)
Definition is_work_time (sch : WorkSchedule) (now : datetime) : Py.result bool :=
  let current_time := time_of now in
  let current_day := weekday now in
  if negb (py_in current_day (enabled_days sch)) then Py.Returned false
  else
    match dt_time (start_hour sch) (start_minute sch) with
    | Py.Raised e => Py.Raised e
    | Py.Returned start_time =>
        match dt_time (end_hour sch) (end_minute sch) with
        | Py.Raised e => Py.Raised e
        | Py.Returned end_time =>
            Py.Returned
              (if time_leb start_time end_time
               then time_leb start_time current_time && time_leb current_time end_time
               else time_leb start_time current_time || time_leb current_time end_time)
        end
    end.

(** [minutes_until_work_start] reads the clock twice: once inside
    [is_work_time] ([now_check]) and once for the minute arithmetic ([now]). *)
Definition minutes_until_work_start (sch : WorkSchedule) (now_check now : datetime)
  : Py.result (option Z) :=
  match is_work_time sch now_check with
  | Py.Raised e => Py.Raised e
  | Py.Returned true => Py.Returned None
  | Py.Returned false =>
      let current_minutes := hour (time_of now) * 60 + minute (time_of now) in
      let start_minutes := start_hour sch * 60 + start_minute sch in
      if start_minutes >? current_minutes
      then Py.Returned (Some (start_minutes - current_minutes))
      else Py.Returned (Some ((24 * 60 - current_minutes) + start_minutes))
  end.

(** The scheduler object: configuration, state, and a log of the callback
    invocations it made (the log is ghost state, newest last). *)
Inductive callback := StartCallback | StopCallback.

Record scheduler := mk_scheduler {
  schedule : WorkSchedule;
  auto_start_enabled : bool;
  auto_stop_enabled : bool;
  manual_override : bool;
  services_started : bool;
  invoked : list callback
}.

Definition set_services_started (b : bool) (w : scheduler) : scheduler :=
  mk_scheduler (schedule w) (auto_start_enabled w) (auto_stop_enabled w)
    (manual_override w) b (invoked w).

Definition log_call (c : callback) (w : scheduler) : scheduler :=
  mk_scheduler (schedule w) (auto_start_enabled w) (auto_stop_enabled w)
    (manual_override w) (services_started w) (invoked w ++ [c]).

(** The outcomes of the two callbacks, should the tick invoke them:
    [start_callback()] returns a value tested for truth, or raises;
    [stop_callback()] returns, or raises. *)
Record callbacks := mk_callbacks {
  start_outcome : Py.result bool;
  stop_outcome : Py.result unit
}.

Local Open Scope py_scope.

Definition start_callback (cb : callbacks) : Py.M scheduler bool :=
  Py.modify (log_call StartCallback) ;;; Py.call (start_outcome cb).

Definition stop_callback (cb : callbacks) : Py.M scheduler unit :=
  Py.modify (log_call StopCallback) ;;; Py.call (stop_outcome cb).

(** One iteration of the [while self.is_running] loop of [_scheduler_loop],
    up to the [time.sleep]. *)
Definition scheduler_tick (now : datetime) (cb : callbacks) : Py.M scheduler unit :=
  Py.try_except
    (w <- Py.get ;;
     if negb (manual_override w) then
       current_work_time <- Py.call (is_work_time (schedule w) now) ;;
       if current_work_time && negb (services_started w) && auto_start_enabled w then
         ok <- start_callback cb ;;
         if ok then Py.modify (set_services_started true)
         else Py.ret tt
       else if negb current_work_time && services_started w && auto_stop_enabled w then
         stop_callback cb ;;;
         Py.modify (set_services_started false)
       else Py.ret tt
     else Py.ret tt)
    (fun _ => Py.ret tt).

Local Close Scope py_scope.

(** The callbacks a tick invoked: what it appended to the log. *)
Definition tick_calls (now : datetime) (cb : callbacks) (w : scheduler) : list callback :=
  skipn (List.length (invoked w)) (invoked (Py.exec (scheduler_tick now cb) w)).

Definition tick_state (now : datetime) (cb : callbacks) (w : scheduler) : scheduler :=
  Py.exec (scheduler_tick now cb) w.

Definition time_le (a b : time) : Prop := time_leb a b = true.

Definition in_window (sch : WorkSchedule) (t : time) : Prop :=
  let start_time := time_hm (start_hour sch) (start_minute sch) in
  let end_time := time_hm (end_hour sch) (end_minute sch) in
  (time_le start_time end_time -> time_le start_time t /\ time_le t end_time) /\
  (~ time_le start_time end_time -> time_le start_time t \/ time_le t end_time).

(** Weekday schedules used in the examples. *)
Definition all_days : list Z := [0; 1; 2; 3; 4; 5; 6].

Definition day_shift : WorkSchedule := mk_schedule 8 30 19 0 all_days "Asia/Seoul".

Definition night_shift : WorkSchedule := mk_schedule 22 0 6 0 all_days "Asia/Seoul".

Definition at_time (d h m : Z) : datetime := mk_datetime d (time_hm h m).

(** The tuple order on times is the order of the microsecond of the day. *)
Definition micro_of_day (t : time) : Z :=
  ((hour t * 60 + minute t) * 60 + second t) * 1000000 + microsecond t.

Definition valid_time (t : time) : Prop :=
  0 <= hour t <= 23 /\ 0 <= minute t <= 59 /\
  0 <= second t <= 59 /\ 0 <= microsecond t <= 999999.

(** What one tick does, by cases on the guard it takes. *)
(** [is_work_time] returned [b] (it did not raise). *)
Definition work_time_is (b : bool) (sch : WorkSchedule) (now : datetime) : bool :=
  match is_work_time sch now with
  | Py.Returned b' => Bool.eqb b b'
  | Py.Raised _ => false
  end.

Definition start_guard (now : datetime) (w : scheduler) : bool :=
  work_time_is true (schedule w) now && negb (services_started w) && auto_start_enabled w.

Definition stop_guard (now : datetime) (w : scheduler) : bool :=
  work_time_is false (schedule w) now && services_started w && auto_stop_enabled w.

(** A schedule whose start and end are times of day. *)
Definition valid_schedule (sch : WorkSchedule) : Prop :=
  0 <= start_hour sch <= 23 /\ 0 <= start_minute sch <= 59 /\
  0 <= end_hour sch <= 23 /\ 0 <= end_minute sch <= 59.

(** What [is_work_time] returns for a valid schedule. *)
Definition in_work_hours (sch : WorkSchedule) (now : datetime) : bool :=
  py_in (weekday now) (enabled_days sch) &&
  (let start_time := time_hm (start_hour sch) (start_minute sch) in
   let end_time := time_hm (end_hour sch) (end_minute sch) in
   if time_leb start_time end_time
   then time_leb start_time (time_of now) && time_leb (time_of now) end_time
   else time_leb start_time (time_of now) || time_leb (time_of now) end_time).

(** A schedule the configuration accepts as "08:30" to "24:00": its end is
    no time of day. *)
Definition until_midnight : WorkSchedule := mk_schedule 8 30 24 0 all_days "Asia/Seoul".

Definition with_enabled_days (sch : WorkSchedule) (days : list Z) : WorkSchedule :=
  mk_schedule (start_hour sch) (start_minute sch) (end_hour sch) (end_minute sch)
    days (timezone sch).

Definition start_minutes (sch : WorkSchedule) : Z :=
  start_hour sch * 60 + start_minute sch.

Definition current_minutes (now : datetime) : Z :=
  hour (time_of now) * 60 + minute (time_of now).

(** [minutes_until_work_end]; the clock is read twice, as in
    [minutes_until_work_start]. *)
Definition minutes_until_work_end (sch : WorkSchedule) (now_check now : datetime)
  : Py.result (option Z) :=
  match is_work_time sch now_check with
  | Py.Raised e => Py.Raised e
  | Py.Returned false => Py.Returned None
  | Py.Returned true =>
      let current_minutes := hour (time_of now) * 60 + minute (time_of now) in
      let end_minutes := end_hour sch * 60 + end_minute sch in
      if end_minutes >? current_minutes
      then Py.Returned (Some (end_minutes - current_minutes))
      else Py.Returned (Some ((24 * 60 - current_minutes) + end_minutes))
  end.

Definition end_minutes (sch : WorkSchedule) : Z :=
  end_hour sch * 60 + end_minute sch.

Definition set_manual_override (b : bool) (w : scheduler) : scheduler :=
  mk_scheduler (schedule w) (auto_start_enabled w) (auto_stop_enabled w)
    b (services_started w) (invoked w).

Local Open Scope py_scope.

Definition enable_manual_override : Py.M scheduler unit :=
  Py.modify (set_manual_override true).

Definition disable_manual_override : Py.M scheduler unit :=
  Py.modify (set_manual_override false).

(** [force_start]; [start_cb] is [self.start_callback]: [None] when no
    callback is set, else the outcome of calling it. The truth value of what
    the callback returned is what the method returns. *)
Definition force_start (start_cb : option (Py.result bool)) : Py.M scheduler bool :=
  match start_cb with
  | None => Py.ret false
  | Some o =>
      enable_manual_override ;;;
      result <- (Py.modify (log_call StartCallback) ;;; Py.call o) ;;
      (if result then Py.modify (set_services_started true) else Py.ret tt) ;;;
      Py.ret result
  end.

(** [force_stop]; [stop_cb] is [self.stop_callback]. *)
Definition force_stop (stop_cb : option (Py.result unit)) : Py.M scheduler unit :=
  match stop_cb with
  | None => Py.ret tt
  | Some o =>
      enable_manual_override ;;;
      (Py.modify (log_call StopCallback) ;;; Py.call o) ;;;
      Py.modify (set_services_started false)
  end.

Local Close Scope py_scope.

(** Successive iterations of the loop of [_scheduler_loop]: the clock reading
    and the callbacks' outcomes of each iteration, oldest first. *)
Fixpoint scheduler_loop (ticks : list (datetime * callbacks)) (w : scheduler) : scheduler :=
  match ticks with
  | [] => w
  | (now, cb) :: rest => scheduler_loop rest (Py.exec (scheduler_tick now cb) w)
  end.

(** Callbacks that succeed: the start callback returns [True], the stop
    callback returns. *)
Definition succeeds (cb : callbacks) : Prop :=
  start_outcome cb = Py.Returned true /\ stop_outcome cb = Py.Returned tt.

Definition working : callbacks := mk_callbacks (Py.Returned true) (Py.Returned tt).

Definition failing : callbacks := mk_callbacks (Py.Returned false) (Py.Returned tt).

(** A scheduler as [__init__] leaves it for the given schedule, with the
    default flags. *)
Definition new_scheduler (sch : WorkSchedule) : scheduler :=
  mk_scheduler sch true true false false [].

(** The iterations at which [is_work_time] returns [True]. *)
Definition work_ticks (sch : WorkSchedule) (ticks : list (datetime * callbacks))
  : list (datetime * callbacks) :=
  filter (fun t => work_time_is true sch (fst t)) ticks.

End WorkScheduler.

(** ** ServiceManager (src/scheduler/service_manager.py) *)

Module ServiceManager.

Inductive ServiceStatus := STOPPED | STARTING | RUNNING | STOPPING | ERROR.

Definition status_eqb (a b : ServiceStatus) : bool :=
  match a, b with
  | STOPPED, STOPPED | STARTING, STARTING | RUNNING, RUNNING
  | STOPPING, STOPPING | ERROR, ERROR => true
  | _, _ => false
  end.

(** A registered service object, as the manager sees it: which of the probed
    attributes it has ([hasattr]) and what a call to each does. [Some o] is a
    method whose call has outcome [o] (for a start method, the truth value of
    what it returns); [None] is a missing attribute. A service that behaves
    differently later on is described by registering its next description. *)
Record instance := mk_instance {
  start_monitoring : option (Py.result bool);
  start : option (Py.result bool);
  start_session : option (Py.result bool);
  stop_monitoring : option (Py.result unit);
  stop : option (Py.result unit);
  stop_session : option (Py.result unit);
  cleanup : option (Py.result unit)
}.

Record service := mk_service {
  name : string;
  status : ServiceStatus;
  service_instance : option instance;
  error_message : option string
}.

(** [self.services]: a dict, kept in insertion order, and the log of every
    assignment to a ['status'] entry as (service id, old value, new value),
    newest last (ghost state). *)
Record manager := mk_manager {
  services : list (string * service);
  transitions : list (string * ServiceStatus * ServiceStatus)
}.

Fixpoint lookup (k : string) (d : list (string * service)) : option service :=
  match d with
  | [] => None
  | (k', v) :: d' => if String.eqb k k' then Some v else lookup k d'
  end.

Fixpoint update (k : string) (f : service -> service) (d : list (string * service))
  : list (string * service) :=
  match d with
  | [] => []
  | (k', v) :: d' =>
      if String.eqb k k' then (k', f v) :: d' else (k', v) :: update k f d'
  end.

Definition keys (d : list (string * service)) : list string := map fst d.

Definition with_status (st : ServiceStatus) (v : service) : service :=
  mk_service (name v) st (service_instance v) (error_message v).

Definition with_error (e : option string) (v : service) : service :=
  mk_service (name v) (status v) (service_instance v) e.

Definition with_instance (i : option instance) (v : service) : service :=
  mk_service (name v) (status v) i (error_message v).

(** [__init__] *)
Definition init : manager :=
  mk_manager
    [ ("camera"%string, mk_service "Camera Monitoring" STOPPED None None);
      ("vibration"%string, mk_service "Vibration Monitoring" STOPPED None None);
      ("frying"%string, mk_service "Frying AI Monitoring" STOPPED None None) ]
    [].

(** [service['status'] = st] *)
Definition set_status (k : string) (st : ServiceStatus) (m : manager) : manager :=
  match lookup k (services m) with
  | Some v =>
      mk_manager (update k (with_status st) (services m))
        (transitions m ++ [(k, status v, st)])
  | None => m
  end.

(** [service['error_message'] = e] *)
Definition set_error (k : string) (e : option string) (m : manager) : manager :=
  mk_manager (update k (with_error e) (services m)) (transitions m).

(** [register_service]; [service_instance] may be [None]. *)
Definition register_service (service_id : string) (i : option instance) (m : manager)
  : manager :=
  match lookup service_id (services m) with
  | Some _ => mk_manager (update service_id (with_instance i) (services m)) (transitions m)
  | None => m
  end.

Local Open Scope py_scope.

Local Open Scope string_scope.

Definition _start_camera_service (i : instance) : Py.M manager bool :=
  match start_monitoring i with
  | Some o => Py.call o
  | None =>
      match start i with
      | Some o => Py.call o
      | None => Py.ret false
      end
  end.

Definition _stop_camera_service (i : instance) : Py.M manager unit :=
  match stop_monitoring i with
  | Some o => Py.call o
  | None =>
      match stop i with
      | Some o => Py.call o
      | None =>
          match cleanup i with
          | Some o => Py.call o
          | None => Py.ret tt
          end
      end
  end.

Definition _start_vibration_service (i : instance) : Py.M manager bool :=
  match start_monitoring i with
  | Some o => Py.call o
  | None => Py.ret false
  end.

Definition _stop_vibration_service (i : instance) : Py.M manager unit :=
  match stop_monitoring i with
  | Some o => Py.call o
  | None => Py.ret tt
  end.

Definition _start_frying_service (i : instance) : Py.M manager bool :=
  match start_session i with
  | Some o => Py.call o
  | None =>
      match start i with
      | Some o => Py.call o
      | None => Py.ret false
      end
  end.

Definition _stop_frying_service (i : instance) : Py.M manager unit :=
  match stop_session i with
  | Some o => Py.call o
  | None =>
      match stop i with
      | Some o => Py.call o
      | None => Py.ret tt
      end
  end.

Definition start_service (service_id : string) : Py.M manager bool :=
  m <- Py.get ;;
  match lookup service_id (services m) with
  | None => Py.ret false
  | Some service =>
      if status_eqb (status service) RUNNING then Py.ret true
      else
        Py.modify (set_status service_id STARTING) ;;;
        Py.modify (set_error service_id None) ;;;
        Py.try_except
          (match service_instance service with
           | None => Py.raise "Service instance not registered"
           | Some i =>
               success <-
                 (if service_id =? "camera" then _start_camera_service i
                  else if service_id =? "vibration" then _start_vibration_service i
                  else if service_id =? "frying" then _start_frying_service i
                  else Py.ret false) ;;
               if success then
                 Py.modify (set_status service_id RUNNING) ;;;
                 Py.ret true
               else
                 Py.modify (set_status service_id ERROR) ;;;
                 Py.modify (set_error service_id (Some "Failed to start")) ;;;
                 Py.ret false
           end)
          (fun e =>
             Py.modify (set_status service_id ERROR) ;;;
             Py.modify (set_error service_id (Some e)) ;;;
             Py.ret false)
  end.

Definition stop_service (service_id : string) : Py.M manager unit :=
  m <- Py.get ;;
  match lookup service_id (services m) with
  | None => Py.ret tt
  | Some service =>
      if status_eqb (status service) STOPPED then Py.ret tt
      else
        Py.modify (set_status service_id STOPPING) ;;;
        Py.try_except
          (match service_instance service with
           | None => Py.raise "Service instance not registered"
           | Some i =>
               (if service_id =? "camera" then _stop_camera_service i
                else if service_id =? "vibration" then _stop_vibration_service i
                else if service_id =? "frying" then _stop_frying_service i
                else Py.ret tt) ;;;
               Py.modify (set_status service_id STOPPED)
           end)
          (fun e =>
             Py.modify (set_status service_id ERROR) ;;;
             Py.modify (set_error service_id (Some e)))
  end.

(** [for service_id in self.services.keys(): if not self.start_service(..)] *)
Fixpoint start_each (ids : list string) (success : bool) : Py.M manager bool :=
  match ids with
  | [] => Py.ret success
  | service_id :: rest =>
      ok <- start_service service_id ;;
      start_each rest (if negb ok then false else success)
  end.

Definition start_all_services : Py.M manager bool :=
  m <- Py.get ;; start_each (keys (services m)) true.

Fixpoint stop_each (ids : list string) : Py.M manager unit :=
  match ids with
  | [] => Py.ret tt
  | service_id :: rest => stop_service service_id ;;; stop_each rest
  end.

Definition stop_all_services : Py.M manager unit :=
  m <- Py.get ;; stop_each (keys (services m)).

Local Close Scope string_scope.

Local Close Scope py_scope.

(** The operations a client of the manager performs, one after the other. *)
Inductive operation :=
| Register (service_id : string) (i : option instance)
| StartService (service_id : string)
| StopService (service_id : string)
| StartAll
| StopAll.

Definition apply_operation (m : manager) (o : operation) : manager :=
  match o with
  | Register k i => register_service k i m
  | StartService k => Py.exec (start_service k) m
  | StopService k => Py.exec (stop_service k) m
  | StartAll => Py.exec start_all_services m
  | StopAll => Py.exec stop_all_services m
  end.

Definition run (ops : list operation) : manager := fold_left apply_operation ops init.

(** The edges the specification lists. *)
Definition listed_edge (a b : ServiceStatus) : bool :=
  match a, b with
  | STOPPED, STARTING | STARTING, RUNNING | STARTING, ERROR
  | RUNNING, STOPPING | STOPPING, STOPPED | STOPPING, ERROR => true
  | _, _ => false
  end.

(** The edges the code takes: the listed ones, and the two out of [ERROR]
    (a start or a stop of a service whose last start or stop failed). *)
Definition code_edge (a b : ServiceStatus) : bool :=
  match a, b with
  | ERROR, STARTING | ERROR, STOPPING => true
  | _, _ => listed_edge a b
  end.

Definition edge_of (t : string * ServiceStatus * ServiceStatus)
  : ServiceStatus * ServiceStatus := (snd (fst t), snd t).

Definition all_edges (ok : ServiceStatus -> ServiceStatus -> bool) (m : manager) : Prop :=
  Forall (fun t => ok (fst (edge_of t)) (snd (edge_of t)) = true) (transitions m).

(** Between two operations no service is left in [STARTING] or [STOPPING]. *)
Definition settled (m : manager) : Prop :=
  forall k v, lookup k (services m) = Some v ->
    status v = STOPPED \/ status v = RUNNING \/ status v = ERROR.

Definition status_of (k : string) (m : manager) : option ServiceStatus :=
  option_map status (lookup k (services m)).

(** A start or stop in two assignments: to the transient status, then to the
    final one. *)
Definition moved (k : string) (mid fin : ServiceStatus) (m m' : manager) : Prop :=
  exists v, lookup k (services m) = Some v /\
    transitions m' = transitions m ++ [(k, status v, mid); (k, mid, fin)] /\
    forall k', status_of k' m' = if String.eqb k' k then Some fin else status_of k' m.

(** The invariant between operations. *)
Definition invariant (m : manager) : Prop := settled m /\ all_edges code_edge m.

(** A second start of a service whose first start failed (no instance was
    registered): the record moves from [ERROR] to [STARTING]. *)
Definition retry_after_failure : list operation :=
  [StartService "camera"; StartService "camera"].

(** [ServiceStatus.value] *)
Definition status_value (st : ServiceStatus) : string :=
  match st with
  | STOPPED => "stopped"
  | STARTING => "starting"
  | RUNNING => "running"
  | STOPPING => "stopping"
  | ERROR => "error"
  end.

(** The dict [get_service_status] returns. *)
Record status_entry := mk_status_entry {
  entry_service_id : string;
  entry_name : string;
  entry_status : string;
  entry_error_message : option string
}.

Definition get_service_status (service_id : string) (m : manager) : option status_entry :=
  match lookup service_id (services m) with
  | None => None
  | Some v =>
      Some (mk_status_entry service_id (name v) (status_value (status v)) (error_message v))
  end.

Definition get_all_statuses (m : manager) : list (option status_entry) :=
  map (fun service_id => get_service_status service_id m) (keys (services m)).

Definition is_any_service_running (m : manager) : bool :=
  existsb (fun kv => status_eqb (status (snd kv)) RUNNING) (services m).

(** The manager after [set_status k STARTING] and [error_message = None]. *)
Definition starting (k : string) (m : manager) : manager :=
  set_error k None (set_status k STARTING m).

(** The managers a sequence of operations reaches. *)
Definition reachable (m : manager) : Prop := exists ops, m = run ops.

(** A record in [ERROR] carries a message, one in [RUNNING] carries none. *)
Definition messages_consistent (m : manager) : Prop :=
  forall k v, lookup k (services m) = Some v ->
    (status v = ERROR -> error_message v <> None) /\
    (status v = RUNNING -> error_message v = None).

(** A failed start followed by a stop that succeeds. *)
Definition camera_that_fails_to_start : instance :=
  mk_instance (Some (Py.Returned false)) None None (Some (Py.Returned tt)) None None None.

Definition fail_then_stop : list operation :=
  [Register "camera" (Some camera_that_fails_to_start);
   StartService "camera"; StopService "camera"].

(** The part of [self.services] no method assigns: the ids, in order, with
    the display names. *)
Definition labels (d : list (string * service)) : list (string * string) :=
  map (fun kv => (fst kv, name (snd kv))) d.

Definition service_ids : list string := ["camera"; "vibration"; "frying"]%string.

(** A camera object whose [start_monitoring] returns [True]. *)
Definition camera_that_starts : instance :=
  mk_instance (Some (Py.Returned true)) None None (Some (Py.Returned tt)) None None None.

Definition with_camera : manager := register_service "camera" (Some camera_that_starts) init.

End ServiceManager.

(** ** DetectionGate (autostart_autodown/JETSON1_INTEGRATED.py)

    Time: a [datetime] is the number of microseconds on the naive local time
    line (the resolution of [datetime]); a [timedelta] is a number of
    microseconds. [DETECTION_HOLD_SEC], [NIGHT_CHECK_MINUTES] and
    [SAVE_COOLDOWN_SEC] are the integers of the configuration file;
    [time.monotonic()] is read in microseconds. The developer panel's
    [force_snapshot_mode] button is not a frame tick: it is a function on
    states of its own, applied between two ticks. *)

Module DetectionGate.

Inductive force_mode := Auto | ForceDay | ForceNight.

Record config := mk_config {
  FORCE_MODE : force_mode;
  DAY_START : Z * Z;            (* hour, minute *)
  DAY_END : Z * Z;
  DETECTION_HOLD_SEC : Z;
  NIGHT_CHECK_MINUTES : Z;
  MOTION_MIN_AREA : Z;
  SAVE_COOLDOWN_SEC : Z
}.

Definition WARMUP_FRAMES : Z := 30.

Definition second_us : Z := 1000000.

Definition minute_us : Z := 60 * second_us.

Definition day_us : Z := 24 * 60 * minute_us.

(** [timedelta(minutes=n)] *)
Definition timedelta_minutes (n : Z) : Z := n * minute_us.

(** [now.replace(hour=h, minute=m, second=0, microsecond=0)] *)
Definition replace_hm (now : Z) (hm : Z * Z) : Z :=
  (now - now mod day_us) + (fst hm * 60 + snd hm) * minute_us.

Definition is_daytime_mode (cfg : config) (now : Z) : bool :=
  match FORCE_MODE cfg with
  | ForceDay => true
  | ForceNight => false
  | Auto =>
      let today_start := replace_hm now (DAY_START cfg) in
      let today_end := replace_hm now (DAY_END cfg) in
      (today_start <=? now) && (now <=? today_end)
  end.

Inductive action := PowerOn | PowerOff | SaveSnapshot.

Definition action_eqb (a b : action) : bool :=
  match a, b with
  | PowerOn, PowerOn | PowerOff, PowerOff | SaveSnapshot, SaveSnapshot => true
  | _, _ => false
  end.

(** The auto-start/down fields of [IntegratedMonitorApp]. *)
Record state := mk_state {
  on_triggered : bool;
  det_hold_start : option Z;
  night_check_active : bool;
  night_no_person_deadline : option Z;
  off_triggered_once : bool;
  prev_daytime : option bool;
  last_snapshot_tick : option Z;
  frame_idx : Z;
  yolo_frame_skip : Z
}.

(** [__init__] *)
Definition init : state :=
  mk_state false None false None false None None 0 0.

(** One call of [update_auto_system]: whether a frame was read (camera open,
    model loaded, [read()] ok), the wall clock, what YOLO finds in the frame
    if it is run on it (a person or not), the areas of the contours the
    background subtraction finds if it is run, and the monotonic clock. *)
Record tick := mk_tick {
  frame_ok : bool;
  now : Z;
  person : bool;
  contour_areas : list Q;
  now_tick : Z
}.

(** [any(area >= MOTION_MIN_AREA for contours)] *)
Definition motion (cfg : config) (t : tick) : bool :=
  existsb (fun area => Qle_bool (inject_Z (MOTION_MIN_AREA cfg)) area) (contour_areas t).

Definition process_day_mode (cfg : config) (t : tick) (s : state) : state * list action :=
  let skip := yolo_frame_skip s + 1 in
  if skip <? 3 then
    (mk_state (on_triggered s) (det_hold_start s) (night_check_active s)
       (night_no_person_deadline s) (off_triggered_once s) (prev_daytime s)
       (last_snapshot_tick s) (frame_idx s) skip, [])
  else
    let detected := person t in
    if detected then
      match det_hold_start s with
      | None =>
          (mk_state (on_triggered s) (Some (now t)) (night_check_active s)
             (night_no_person_deadline s) (off_triggered_once s) (prev_daytime s)
             (last_snapshot_tick s) (frame_idx s) 0, [])
      | Some hold_start =>
          let hold_us := now t - hold_start in
          if (DETECTION_HOLD_SEC cfg * second_us <=? hold_us) && negb (on_triggered s)
          then
            (mk_state true (det_hold_start s) (night_check_active s)
               (night_no_person_deadline s) (off_triggered_once s) (prev_daytime s)
               (last_snapshot_tick s) (frame_idx s) 0, [PowerOn])
          else
            (mk_state (on_triggered s) (det_hold_start s) (night_check_active s)
               (night_no_person_deadline s) (off_triggered_once s) (prev_daytime s)
               (last_snapshot_tick s) (frame_idx s) 0, [])
      end
    else
      (mk_state (on_triggered s) None (night_check_active s)
         (night_no_person_deadline s) (off_triggered_once s) (prev_daytime s)
         (last_snapshot_tick s) (frame_idx s) 0, []).

Definition process_night_mode (cfg : config) (t : tick) (s : state) : state * list action :=
  let idx := frame_idx s + 1 in
  if night_check_active s then
    (* stage 1: YOLO check for no person *)
    let deadline :=
      if person t then Some (now t + timedelta_minutes (NIGHT_CHECK_MINUTES cfg))
      else night_no_person_deadline s in
    match deadline with
    | Some d =>
        if d <=? now t then
          (mk_state (on_triggered s) (det_hold_start s) false None true
             (prev_daytime s) (last_snapshot_tick s) idx (yolo_frame_skip s),
           if off_triggered_once s then [] else [PowerOff])
        else
          (mk_state (on_triggered s) (det_hold_start s) true deadline
             (off_triggered_once s) (prev_daytime s) (last_snapshot_tick s) idx
             (yolo_frame_skip s), [])
    | None =>
        (mk_state (on_triggered s) (det_hold_start s) true deadline
           (off_triggered_once s) (prev_daytime s) (last_snapshot_tick s) idx
           (yolo_frame_skip s), [])
    end
  else
    (* stage 2: motion detection *)
    let can_save :=
      match last_snapshot_tick s with
      | None => true
      | Some last => SAVE_COOLDOWN_SEC cfg * second_us <=? now_tick t - last
      end in
    if (WARMUP_FRAMES <? idx) && motion cfg t && can_save then
      (mk_state (on_triggered s) (det_hold_start s) false
         (night_no_person_deadline s) (off_triggered_once s) (prev_daytime s)
         (Some (now_tick t)) idx (yolo_frame_skip s), [SaveSnapshot])
    else
      (mk_state (on_triggered s) (det_hold_start s) false
         (night_no_person_deadline s) (off_triggered_once s) (prev_daytime s)
         (last_snapshot_tick s) idx (yolo_frame_skip s), []).

(** The mode-transition block of [update_auto_system] (first-time
    initialisation, Day -> Night, Night -> Day, [prev_daytime = daytime]). *)
Definition first_time (cfg : config) (t : tick) (daytime : bool) (s : state) : state :=
  match prev_daytime s with
  | None =>
      if daytime then
        mk_state (on_triggered s) (det_hold_start s) (night_check_active s)
          (night_no_person_deadline s) (off_triggered_once s) (Some daytime)
          (last_snapshot_tick s) (frame_idx s) (yolo_frame_skip s)
      else
        mk_state (on_triggered s) (det_hold_start s) true
          (Some (now t + timedelta_minutes (NIGHT_CHECK_MINUTES cfg)))
          (off_triggered_once s) (Some daytime)
          (last_snapshot_tick s) (frame_idx s) (yolo_frame_skip s)
  | Some _ => s
  end.

Definition day_to_night (cfg : config) (t : tick) (daytime : bool) (s : state) : state :=
  match prev_daytime s, daytime with
  | Some true, false =>
      mk_state (on_triggered s) None true
        (Some (now t + timedelta_minutes (NIGHT_CHECK_MINUTES cfg)))
        false (prev_daytime s) (last_snapshot_tick s) (frame_idx s) (yolo_frame_skip s)
  | _, _ => s
  end.

Definition night_to_day (daytime : bool) (s : state) : state :=
  match prev_daytime s, daytime with
  | Some false, true =>
      mk_state false None false None false (prev_daytime s)
        (last_snapshot_tick s) (frame_idx s) (yolo_frame_skip s)
  | _, _ => s
  end.

Definition set_prev_daytime (daytime : bool) (s : state) : state :=
  mk_state (on_triggered s) (det_hold_start s) (night_check_active s)
    (night_no_person_deadline s) (off_triggered_once s) (Some daytime)
    (last_snapshot_tick s) (frame_idx s) (yolo_frame_skip s).

Definition enter_mode (cfg : config) (t : tick) (s : state) : state :=
  let daytime := is_daytime_mode cfg (now t) in
  set_prev_daytime daytime
    (night_to_day daytime (day_to_night cfg t daytime (first_time cfg t daytime s))).

Definition update_auto_system (cfg : config) (t : tick) (s : state) : state * list action :=
  if negb (frame_ok t) then (s, [])
  else
    let s1 := enter_mode cfg t s in
    if is_daytime_mode cfg (now t) then process_day_mode cfg t s1
    else process_night_mode cfg t s1.

(** A run of the update loop, with what each call saw and did: the state
    the call started in, the tick, the actions it emitted. *)
Record event := mk_event {
  before : state;
  input : tick;
  actions : list action
}.

Fixpoint trace (cfg : config) (s : state) (ticks : list tick) : list event :=
  match ticks with
  | [] => []
  | t :: rest =>
      let (s', acts) := update_auto_system cfg t s in
      mk_event s t acts :: trace cfg s' rest
  end.

Fixpoint final (cfg : config) (s : state) (ticks : list tick) : state :=
  match ticks with
  | [] => s
  | t :: rest => final cfg (fst (update_auto_system cfg t s)) rest
  end.

(** How many times an action was emitted in a trace. *)
Definition emitted (a : action) (evs : list event) : nat :=
  List.length (filter (action_eqb a) (List.concat (map actions evs))).

(** The ticks of one contiguous Day interval: every frame that is read is
    read in day mode. *)
Definition day_interval (cfg : config) (ticks : list tick) : Prop :=
  Forall (fun t => frame_ok t = true -> is_daytime_mode cfg (now t) = true) ticks.

Definition night_interval (cfg : config) (ticks : list tick) : Prop :=
  Forall (fun t => frame_ok t = true -> is_daytime_mode cfg (now t) = false) ticks.

(** YOLO is run on the frame of this event: a day-mode frame on which the
    skip counter reaches 3. *)
Definition detector_ran (cfg : config) (e : event) : bool :=
  frame_ok (input e) && is_daytime_mode cfg (now (input e)) &&
  (3 <=? yolo_frame_skip (before e) + 1).

Definition person_seen (cfg : config) (e : event) : bool :=
  detector_ran cfg e && person (input e).

(** An event that does not interrupt a hold: no frame, or a day-mode frame
    that is skipped or on which the detector finds the person. *)
Definition keeps_hold (cfg : config) (e : event) : bool :=
  negb (frame_ok (input e)) ||
  (is_daytime_mode cfg (now (input e)) &&
   (negb (detector_ran cfg e) || person (input e))).

(** The hold that began at [t0] is still running at the end of [h]. *)
Definition held (cfg : config) (t0 : Z) (h : list event) : Prop :=
  exists pre e0 mid,
    h = pre ++ e0 :: mid /\ person_seen cfg e0 = true /\ now (input e0) = t0 /\
    forallb (keeps_hold cfg) mid = true.

Definition latched (s : state) : Prop :=
  on_triggered s = true /\ prev_daytime s <> Some false.

(** The mode-transition block in closed form, by the previous and the
    current mode. *)
Definition entered (cfg : config) (t : tick) (s : state) : state :=
  match prev_daytime s, is_daytime_mode cfg (now t) with
  | None, false | Some true, false =>
      mk_state (on_triggered s)
        (match prev_daytime s with None => det_hold_start s | Some _ => None end)
        true (Some (now t + timedelta_minutes (NIGHT_CHECK_MINUTES cfg)))
        (match prev_daytime s with None => off_triggered_once s | Some _ => false end)
        (Some false) (last_snapshot_tick s) (frame_idx s) (yolo_frame_skip s)
  | Some false, true =>
      mk_state false None false None false (Some true)
        (last_snapshot_tick s) (frame_idx s) (yolo_frame_skip s)
  | _, daytime => set_prev_daytime daytime s
  end.

(** The hold timer is unset outside day mode. *)
Definition hold_only_by_day (s : state) : Prop :=
  prev_daytime s <> Some true -> det_hold_start s = None.

Definition hold_invariant (cfg : config) (h : list event) (s : state) : Prop :=
  hold_only_by_day s /\ forall t0, det_hold_start s = Some t0 -> held cfg t0 h.

(** The configuration of the examples: day from 08:30 to 19:00, a hold of
    5 s, a night check of 10 minutes, a minimum area of 500, a cooldown of
    10 s. *)
Definition cfg0 : config := mk_config Auto (8, 30) (19, 0) 5 10 500 10.

Definition noon : Z := 12 * 60 * minute_us.

(** A frame read [ms] milliseconds after 12:00:00 of day 0. *)
Definition frame_at (ms : Z) (p : bool) : tick := mk_tick true (noon + ms * 1000) p [] 0.

(** The day sequence of the specification's hold test, at two frames a
    second: the person is seen from 12:00:00, is absent in the frame at
    12:00:04.0 and back at 12:00:04.5. *)
Definition hold_test : list tick :=
  [ frame_at (-1000) true; frame_at (-500) true; frame_at 0 true;
    frame_at 500 true; frame_at 1000 true; frame_at 1500 true;
    frame_at 2000 true; frame_at 2500 true; frame_at 3000 true;
    frame_at 3500 true; frame_at 4000 false; frame_at 4500 true;
    frame_at 5000 true; frame_at 5500 true; frame_at 6000 true ].

(** The deadline the stage-1 check of an event compares the clock with: the
    stored one, or [now + NIGHT_CHECK_MINUTES] when the frame shows a person. *)
Definition checked_deadline (cfg : config) (e : event) : option Z :=
  if person (input e)
  then Some (now (input e) + timedelta_minutes (NIGHT_CHECK_MINUTES cfg))
  else night_no_person_deadline (enter_mode cfg (input e) (before e)).

(** [now >= nightDeadline] at this event. *)
Definition due (cfg : config) (e : event) : bool :=
  match checked_deadline cfg e with
  | Some d => d <=? now (input e)
  | None => false
  end.

(** The states a Night interval starts from: the last frame was a day frame,
    or no frame was read yet since [__init__]. *)
Definition starts_interval (s : state) : Prop :=
  prev_daytime s = Some true \/
  (prev_daytime s = None /\ off_triggered_once s = false).

Definition stage1 (s : state) : Prop :=
  prev_daytime s = Some false /\ night_check_active s = true /\
  off_triggered_once s = false /\ exists d, night_no_person_deadline s = Some d.

Definition stage2 (s : state) : Prop :=
  prev_daytime s = Some false /\ night_check_active s = false.

Definition pending (s : state) : Prop := starts_interval s \/ stage1 s.

(** No frame read earlier in the trace reached the deadline. *)
Definition none_due (cfg : config) (evs : list event) : Prop :=
  Forall (fun e => frame_ok (input e) = true -> due cfg e = false) evs.

(** A frame read [minutes] minutes after 20:00 of day 0. *)
Definition evening (minutes : Z) (p : bool) : tick :=
  mk_tick true (20 * 60 * minute_us + minutes * minute_us) p [] 0.

(** A night that starts at 20:00 with the program: a person at 20:05, the
    deadline (10 minutes) reached at 20:15. *)
Definition night_test : list tick :=
  [ evening 0 false; evening 5 true; evening 12 false; evening 15 false;
    evening 16 false ].

(** The frames read in night mode among the ticks. *)
Definition night_frame (cfg : config) (t : tick) : bool :=
  frame_ok t && negb (is_daytime_mode cfg (now t)).

Definition night_frames (cfg : config) (ticks : list tick) : Z :=
  Z.of_nat (List.length (filter (night_frame cfg) ticks)).

(** A tick at h:m:sec of a day: frame read or not, nobody in it, the areas
    of the moving regions. *)
Definition on_day (day h m sec : Z) (ok : bool) (areas : list Q) : tick :=
  mk_tick ok (day * day_us + (h * 60 + m) * minute_us + sec * second_us)
    false areas (day * day_us + (h * 60 + m) * minute_us + sec * second_us).

(** Two nights. The program starts at 20:00 and reads 31 night frames; a
    day frame at 12:00; at 19:00:01 the first night frame, then the camera
    fails to deliver for a while; the next two frames come at 19:11:00 and
    19:11:01, the last with a moving region of area 900. *)
Definition first_night : list tick :=
  map (fun i => on_day 0 20 0 (Z.of_nat i) true []) (seq 0 31).

Definition next_day : list tick := [on_day 1 12 0 0 true []].

Definition second_night : list tick :=
  [ on_day 1 19 0 1 true []; on_day 1 19 5 0 false [];
    on_day 1 19 11 0 true []; on_day 1 19 11 1 true [inject_Z 900] ].

(** [force_snapshot_mode], the developer panel's button: an assignment to
    three fields between two calls of [update_auto_system]. *)
Definition force_snapshot_mode (s : state) : state :=
  mk_state (on_triggered s) (det_hold_start s) false None true (prev_daytime s)
    (last_snapshot_tick s) (frame_idx s) (yolo_frame_skip s).

(** The frames read in day mode among the ticks. *)
Definition day_frame (cfg : config) (t : tick) : bool :=
  frame_ok t && is_daytime_mode cfg (now t).

Definition day_frames (cfg : config) (ticks : list tick) : Z :=
  Z.of_nat (List.length (filter (day_frame cfg) ticks)).

(** A time of day [(hour, minute)] in microseconds after midnight. *)
Definition time_of_day_us (hm : Z * Z) : Z := (fst hm * 60 + snd hm) * minute_us.

Definition saves (e : event) : Prop := In SaveSnapshot (actions e).

(** A night in which the deadline passes at 20:10:00, and frames with a
    moving region of area 900 in the seconds after it. *)
Definition after_deadline : state :=
  final cfg0 init (first_night ++ [on_day 0 20 10 0 true []]).

Definition motion_at (sec : Z) : tick := on_day 0 20 10 sec true [inject_Z 900].

End DetectionGate.

(** ** Fixed-point formatting of floats ([f"{x:.3f}"], [f"{x:.6f}"])

    A finite Python float is a rational number; [Q] stands for the floats,
    and what is proved for every rational holds for every finite float.
    [format(x, ".kf")] writes the decimal with [k] fraction digits nearest to
    the exact value of [x], ties to the even digit, with a minus sign for a
    negative [x]. *)

Module PyFormat.

Definition digit_char (d : Z) : ascii := ascii_of_nat (48 + Z.to_nat d).

Definition digit_of (c : ascii) : option Z :=
  let n := Z.of_nat (nat_of_ascii c) in
  if (48 <=? n) && (n <=? 57) then Some (n - 48) else None.

(** The last [k] decimal digits of [n], most significant first. *)
Fixpoint digits (k : nat) (n : Z) : string :=
  match k with
  | O => ""%string
  | S k' => (digits k' (n / 10) ++ String (digit_char (n mod 10)) "")%string
  end.

(** The number of decimal digits of [n >= 0] (1 for 0). *)
Fixpoint ndigits (fuel : nat) (n : Z) : nat :=
  match fuel with
  | O => 1
  | S f => if n <? 10 then 1%nat else S (ndigits f (n / 10))
  end.

(** [str(n)] for an int [n >= 0]. *)
Definition dec (n : Z) : string :=
  digits (ndigits (Z.to_nat (Z.log2 n + 1)) n) n.

Definition round_half_even (q : Q) : Z :=
  let den := Z.pos (Qden q) in
  let f := Qnum q / den in
  let r2 := 2 * (Qnum q mod den) in
  if r2 <? den then f
  else if den <? r2 then f + 1
  else if Z.even f then f else f + 1.

Definition negative (x : Q) : bool := Qnum x <? 0.

(** The integer [n] with [n / 10^k] the decimal written for [|x|]. *)
Definition scaled (k : nat) (x : Q) : Z :=
  round_half_even (Qabs x * inject_Z (10 ^ Z.of_nat k))%Q.

Definition format_fixed (k : nat) (x : Q) : string :=
  let n := scaled k x in
  ((if negative x then "-" else "") ++
   dec (n / 10 ^ Z.of_nat k) ++ "." ++ digits k (n mod 10 ^ Z.of_nat k))%string.

(** Reading a fixed-point decimal back: digits, at most one point. The
    result is the mantissa and the number of fraction digits. *)
Fixpoint parse_digits (s : string) (acc : Z) (frac : option nat) : option (Z * nat) :=
  match s with
  | ""%string => Some (acc, match frac with Some k => k | None => O end)
  | String c s' =>
      if Ascii.eqb c "."%char then
        match frac with
        | None => parse_digits s' acc (Some O)
        | Some _ => None
        end
      else
        match digit_of c with
        | Some d => parse_digits s' (acc * 10 + d) (option_map S frac)
        | None => None
        end
  end.

Definition decimal (negate : bool) (mk : Z * nat) : Q :=
  (if negate then - fst mk else fst mk) # Z.to_pos (10 ^ Z.of_nat (snd mk)).

Definition parse_decimal (s : string) : option Q :=
  match s with
  | ""%string => None
  | String c s' =>
      if Ascii.eqb c "-"%char then option_map (decimal true) (parse_digits s' 0 None)
      else option_map (decimal false) (parse_digits s 0 None)
  end.

(** The number the text [format_fixed k x] denotes. *)
Definition fixed_value (k : nat) (x : Q) : Q := decimal (negative x) (scaled k x, k).

Fixpoint has_char (c : ascii) (s : string) : bool :=
  match s with
  | ""%string => false
  | String a s' => Ascii.eqb a c || has_char c s'
  end.

(** [s.split(c)] *)
Fixpoint split_on (c : ascii) (s : string) : list string :=
  match s with
  | ""%string => [""%string]
  | String a s' =>
      if Ascii.eqb a c then ""%string :: split_on c s'
      else
        match split_on c s' with
        | [] => [String a ""]
        | f :: fs => String a f :: fs
        end
  end.

End PyFormat.

(** ** VibrationPipeline (monitoring/vibration/vibration_analyzer.py,
       vibration_detector.py)

    Floats are rationals (see [PyFormat]); arithmetic the code does on them
    (differences, products) is taken exact. What numpy and [str] compute is
    not part of the repository and is a parameter of the model. *)

Module Vibration.

Local Open Scope Q_scope.

Record floats := mk_floats {
  float_str : Q -> string;             (* str(x) *)
  np_mean : list Q -> Q;
  np_max : list Q -> Q;
  np_min : list Q -> Q;
  np_std : list Q -> Q;
  np_rms : list Q -> Q;                (* np.sqrt(np.mean(arr ** 2)) *)
  polyfit_slope : list Q -> Q          (* np.polyfit(np.arange(len(y)), y, 1)[0] *)
}.

(** The float literals of the source, exactly. *)
Definition float_0_1 : Q := 3602879701896397 # 36028797018963968.

Definition float_0_01 : Q := 5764607523034235 # 576460752303423488.

(** rs485_sensor.py *)
Record VibrationReading := mk_reading {
  timestamp : Q;
  x_axis : Q;
  y_axis : Q;
  z_axis : Q;
  magnitude : Q;
  temperature : option Q;
  frequency : option Q
}.

Record VibrationStats := mk_stats {
  mean_magnitude : Q;
  max_magnitude : Q;
  min_magnitude : Q;
  std_deviation : Q;
  rms_value : Q;
  peak_to_peak : Q;
  sample_count : nat;
  duration_seconds : Q
}.

Record VibrationAlert := mk_alert {
  alert_timestamp : Q;
  alert_type : string;
  severity : string;
  alert_magnitude : Q;
  threshold : Q;
  message : string
}.

(** The [alert_thresholds] dict. *)
Record thresholds := mk_thresholds {
  low : Q; medium : Q; high : Q; critical : Q
}.

Record VibrationAnalyzer := mk_analyzer {
  window_size : nat;
  alert_thresholds : thresholds;
  magnitude_buffer : list Q;
  x_buffer : list Q;
  y_buffer : list Q;
  z_buffer : list Q;
  timestamp_buffer : list Q;
  alerts : list VibrationAlert;
  last_alert_time : Q;
  alert_cooldown : Q;
  total_samples : Z;
  start_time : Q
}.

(** [deque(maxlen=n).append(x)] *)
Definition deque_append (n : nat) (x : Q) (l : list Q) : list Q :=
  skipn (List.length (l ++ [x]) - n) (l ++ [x]).

(** [l[-count:]] *)
Definition last_n {A} (count : nat) (l : list A) : list A :=
  skipn (List.length l - count) l.

(** [__init__(window_size, alert_thresholds)] at clock reading [now]. *)
Definition new_analyzer (window : nat) (th : thresholds) (now : Q) : VibrationAnalyzer :=
  mk_analyzer window th [] [] [] [] [] [] 0 5 0%Z now.

Definition default_thresholds : thresholds := mk_thresholds 2 5 10 20.

Definition upper_char (c : ascii) : ascii :=
  let n := nat_of_ascii c in
  if (97 <=? n)%nat && (n <=? 122)%nat then ascii_of_nat (n - 32) else c.

Fixpoint upper (s : string) : string :=
  match s with
  | EmptyString => EmptyString
  | String c s' => String (upper_char c) (upper s')
  end.

Definition push_alert (al : VibrationAlert) (now : Q) (a : VibrationAnalyzer)
  : VibrationAnalyzer :=
  mk_analyzer (window_size a) (alert_thresholds a) (magnitude_buffer a) (x_buffer a)
    (y_buffer a) (z_buffer a) (timestamp_buffer a) (alerts a ++ [al]) now
    (alert_cooldown a) (total_samples a) (start_time a).

Definition Qlt_bool (a b : Q) : bool := negb (Qle_bool b a).

Definition _check_thresholds (r : VibrationReading) (a : VibrationAnalyzer)
  : VibrationAnalyzer :=
  let th := alert_thresholds a in
  let level :=
    if Qle_bool (critical th) (magnitude r) then Some ("critical"%string, critical th)
    else if Qle_bool (high th) (magnitude r) then Some ("high"%string, high th)
    else if Qle_bool (medium th) (magnitude r) then Some ("medium"%string, medium th)
    else if Qle_bool (low th) (magnitude r) then Some ("low"%string, low th)
    else None in
  match level with
  | Some (sev, thr) =>
      let current_time := timestamp r in
      if Qlt_bool (alert_cooldown a) (current_time - last_alert_time a) then
        push_alert
          (mk_alert (timestamp r) "threshold" sev (magnitude r) thr
             (upper sev ++ " vibration detected: " ++
              PyFormat.format_fixed 2 (magnitude r) ++ " m/s² (threshold: " ++
              PyFormat.format_fixed 2 thr ++ ")"))
          current_time a
      else a
  | None => a
  end.

Definition _check_spike (fl : floats) (r : VibrationReading) (a : VibrationAnalyzer)
  : VibrationAnalyzer :=
  if (List.length (magnitude_buffer a) <? 10)%nat then a
  else
    let recent_avg := np_mean fl (removelast (magnitude_buffer a)) in
    if Qlt_bool (recent_avg * 3) (magnitude r) && Qlt_bool float_0_1 recent_avg then
      let current_time := timestamp r in
      if Qlt_bool (alert_cooldown a) (current_time - last_alert_time a) then
        push_alert
          (mk_alert (timestamp r) "spike" "high" (magnitude r) (recent_avg * 3)
             ("SPIKE detected: " ++ PyFormat.format_fixed 2 (magnitude r) ++
              " m/s² (3x average: " ++ PyFormat.format_fixed 2 recent_avg ++ ")"))
          current_time a
      else a
    else a.

Definition add_reading (fl : floats) (r : VibrationReading) (a : VibrationAnalyzer)
  : VibrationAnalyzer :=
  let n := window_size a in
  _check_spike fl r
    (_check_thresholds r
       (mk_analyzer n (alert_thresholds a)
          (deque_append n (magnitude r) (magnitude_buffer a))
          (deque_append n (x_axis r) (x_buffer a))
          (deque_append n (y_axis r) (y_buffer a))
          (deque_append n (z_axis r) (z_buffer a))
          (deque_append n (timestamp r) (timestamp_buffer a))
          (alerts a) (last_alert_time a) (alert_cooldown a)
          (total_samples a + 1)%Z (start_time a))).

Definition get_current_stats (fl : floats) (a : VibrationAnalyzer) : option VibrationStats :=
  if (List.length (magnitude_buffer a) <? 2)%nat then None
  else
    let magnitudes := magnitude_buffer a in
    Some (mk_stats (np_mean fl magnitudes) (np_max fl magnitudes) (np_min fl magnitudes)
            (np_std fl magnitudes) (np_rms fl magnitudes)
            (np_max fl magnitudes - np_min fl magnitudes)
            (List.length magnitudes)
            (last (timestamp_buffer a) 0 - hd 0 (timestamp_buffer a))).

Definition get_recent_alerts (count : nat) (a : VibrationAnalyzer) : list VibrationAlert :=
  match alerts a with
  | [] => []
  | _ => last_n count (alerts a)
  end.

Record axis_stats := mk_axis_stats {
  axis_mean : Q; axis_max : Q; axis_min : Q; axis_std : Q; axis_rms : Q
}.

Definition axis_stats_of (fl : floats) (buffer : list Q) : axis_stats :=
  mk_axis_stats (np_mean fl buffer) (np_max fl buffer) (np_min fl buffer)
    (np_std fl buffer) (np_rms fl buffer).

(** [{}] is [None]; otherwise the entries for x_axis, y_axis, z_axis. *)
Definition get_axis_stats (fl : floats) (a : VibrationAnalyzer)
  : option (axis_stats * axis_stats * axis_stats) :=
  if (List.length (x_buffer a) <? 2)%nat then None
  else Some (axis_stats_of fl (x_buffer a), axis_stats_of fl (y_buffer a),
             axis_stats_of fl (z_buffer a)).

Definition get_trend (fl : floats) (samples : nat) (a : VibrationAnalyzer) : string :=
  if (List.length (magnitude_buffer a) <? samples)%nat then "insufficient_data"
  else
    let slope := polyfit_slope fl (last_n samples (magnitude_buffer a)) in
    if Qlt_bool (Qabs slope) float_0_01 then "stable"
    else if Qlt_bool 0 slope then "increasing"
    else "decreasing".

Definition is_abnormal (a : VibrationAnalyzer) : bool :=
  existsb (fun mag => Qle_bool (medium (alert_thresholds a)) mag)
    (last_n 5 (magnitude_buffer a)).

(** [reset()] at clock reading [now]. *)
Definition reset (now : Q) (a : VibrationAnalyzer) : VibrationAnalyzer :=
  mk_analyzer (window_size a) (alert_thresholds a) [] [] [] [] [] []
    (last_alert_time a) (alert_cooldown a) 0%Z now.

(** The object [export_stats_json] serialises. *)
Record stats_json := mk_stats_json {
  js_overall_stats : option VibrationStats;
  js_axis_stats : option (axis_stats * axis_stats * axis_stats);
  js_trend : string;
  js_is_abnormal : bool;
  js_total_samples : Z;
  js_uptime_seconds : Q;
  js_recent_alerts : list VibrationAlert;
  js_alert_thresholds : thresholds
}.

Definition export_stats_json (fl : floats) (now : Q) (a : VibrationAnalyzer) : stats_json :=
  mk_stats_json (get_current_stats fl a) (get_axis_stats fl a) (get_trend fl 20 a)
    (is_abnormal a) (total_samples a) (now - start_time a)
    (get_recent_alerts 10 a) (alert_thresholds a).

(** vibration_detector.py *)

(** The session summary object written as JSON. *)
Record session_summary := mk_summary {
  sum_session_id : string;
  sum_start_time : option Q;
  sum_end_time : Q;
  sum_duration_seconds : Q;
  sum_statistics : stats_json;
  sum_sensor_config : string
}.

(** The detector and the log directory it writes: the text of each CSV file
    and the object of each JSON file, by path. *)
Record VibrationDetector := mk_detector {
  sensor_config : string;
  log_directory : string;
  sensor_connected : bool;      (* self.sensor is not None and is_connected() *)
  analyzer : VibrationAnalyzer;
  is_running : bool;
  is_monitoring : bool;
  session_id : option string;
  session_log_file : option string;
  session_start_time : option Q;
  latest_reading : option VibrationReading;
  csv_files : list (string * string);
  json_files : list (string * session_summary)
}.

Fixpoint read_file {A} (path : string) (fs : list (string * A)) : option A :=
  match fs with
  | [] => None
  | (p, c) :: fs' => if String.eqb p path then Some c else read_file path fs'
  end.

(** [open(path, 'w')]: the file is created, or replaced. *)
Definition write_file {A} (path : string) (c : A) (fs : list (string * A))
  : list (string * A) :=
  (path, c) :: filter (fun pc => negb (String.eqb (fst pc) path)) fs.

(** [open(path, 'a')] *)
Definition append_file (path : string) (text : string) (fs : list (string * string))
  : list (string * string) :=
  match read_file path fs with
  | Some old => write_file path (old ++ text)%string fs
  | None => write_file path text fs
  end.

Definition csv_header : string :=
  "timestamp,elapsed_time,x_axis,y_axis,z_axis,magnitude,temperature,frequency" ++
  String (ascii_of_nat 10) "".

Definition newline : string := String (ascii_of_nat 10) "".

(** The truth value of a float: false for 0.0 only. *)
Definition truthy (x : Q) : bool := negb (Qeq_bool x 0).

(** [f"{v if v else ''}"] for an optional float. *)
Definition optional_field (fl : floats) (v : option Q) : string :=
  match v with
  | Some x => if truthy x then float_str fl x else ""
  | None => ""
  end.

(** The line [_log_reading] writes. *)
Definition log_row (fl : floats) (start : Q) (r : VibrationReading) : string :=
  let elapsed := timestamp r - start in
  (PyFormat.format_fixed 3 (timestamp r) ++ "," ++
   PyFormat.format_fixed 3 elapsed ++ "," ++
   PyFormat.format_fixed 6 (x_axis r) ++ "," ++
   PyFormat.format_fixed 6 (y_axis r) ++ "," ++
   PyFormat.format_fixed 6 (z_axis r) ++ "," ++
   PyFormat.format_fixed 6 (magnitude r) ++ "," ++
   optional_field fl (temperature r) ++ "," ++
   optional_field fl (frequency r) ++ newline)%string.

Definition set_files (csv : list (string * string)) (js : list (string * session_summary))
  (d : VibrationDetector) : VibrationDetector :=
  mk_detector (sensor_config d) (log_directory d) (sensor_connected d) (analyzer d)
    (is_running d) (is_monitoring d) (session_id d) (session_log_file d)
    (session_start_time d) (latest_reading d) csv js.

Definition _log_reading (fl : floats) (r : VibrationReading) (d : VibrationDetector)
  : VibrationDetector :=
  match session_log_file d, session_start_time d with
  | Some path, Some start =>
      set_files (append_file path (log_row fl start r) (csv_files d)) (json_files d) d
  | _, _ => d
  end.

(** One pass of [_monitoring_loop] in which [sensor.read()] returned [r]
    (no alert callback is set). *)
Definition monitoring_step (fl : floats) (r : VibrationReading) (d : VibrationDetector)
  : VibrationDetector :=
  _log_reading fl r
    (mk_detector (sensor_config d) (log_directory d) (sensor_connected d)
       (add_reading fl r (analyzer d))
       (is_running d) (is_monitoring d) (session_id d) (session_log_file d)
       (session_start_time d) (Some r) (csv_files d) (json_files d)).

Definition path_join (dir file : string) : string := (dir ++ "/" ++ file)%string.

(** [start_monitoring(session_name)]: [stamp] is
    [datetime.now().strftime("%Y%m%d_%H%M%S")], [now] what [time.time()]
    returns (for the session start, then inside [reset]). *)
Definition start_monitoring (session_name : option string) (stamp : string)
  (now now_reset : Q) (d : VibrationDetector) : bool * VibrationDetector :=
  if is_monitoring d then (false, d)
  else if negb (sensor_connected d) then (false, d)
  else
    let sid :=
      match session_name with
      | Some name => if String.eqb name "" then ("vibration_" ++ stamp)%string else name
      | None => ("vibration_" ++ stamp)%string
      end in
    let file := path_join (log_directory d) (sid ++ ".csv") in
    (true,
     mk_detector (sensor_config d) (log_directory d) (sensor_connected d)
       (reset now_reset (analyzer d))
       true true (Some sid) (Some file) (Some now) (latest_reading d)
       (write_file file csv_header (csv_files d)) (json_files d)).

Definition _save_session_summary (fl : floats) (t_end t_duration t_uptime : Q)
  (d : VibrationDetector) : VibrationDetector :=
  match session_id d with
  | None => d
  | Some sid =>
      let summary_file := path_join (log_directory d) (sid ++ "_summary.json") in
      let summary :=
        mk_summary sid (session_start_time d) t_end
          (match session_start_time d with
           | Some start => if truthy start then t_duration - start else 0
           | None => 0
           end)
          (export_stats_json fl t_uptime (analyzer d))
          (sensor_config d) in
      set_files (csv_files d) (write_file summary_file summary (json_files d)) d
  end.

(** [stop_monitoring()]: [joined] tells whether the monitoring thread ended
    within the 2 s of the [join] (it clears [is_monitoring] when it ends);
    the three clock readings are those of [_save_session_summary] and
    [export_stats_json]. *)
Definition stop_monitoring (fl : floats) (joined : bool) (t_end t_duration t_uptime : Q)
  (d : VibrationDetector) : VibrationDetector :=
  if negb (is_monitoring d) then d
  else
    _save_session_summary fl t_end t_duration t_uptime
      (mk_detector (sensor_config d) (log_directory d) (sensor_connected d) (analyzer d)
         false (if joined then false else is_monitoring d)
         (session_id d) (session_log_file d) (session_start_time d)
         (latest_reading d) (csv_files d) (json_files d)).

(** Reading a row of the session CSV back: the fields between the commas,
    the numbers of columns 0 and 2 to 5. *)
Record parsed_row := mk_parsed {
  row_timestamp : Q; row_x : Q; row_y : Q; row_z : Q; row_magnitude : Q
}.

Definition parse_row (line : string) : option parsed_row :=
  let fields := PyFormat.split_on ","%char line in
  match PyFormat.parse_decimal (nth 0 fields ""%string),
        PyFormat.parse_decimal (nth 2 fields ""%string),
        PyFormat.parse_decimal (nth 3 fields ""%string),
        PyFormat.parse_decimal (nth 4 fields ""%string),
        PyFormat.parse_decimal (nth 5 fields ""%string) with
  | Some t, Some x, Some y, Some z, Some m => Some (mk_parsed t x y z m)
  | _, _, _, _, _ => None
  end.

Definition set_temperature (v : option Q) (r : VibrationReading) : VibrationReading :=
  mk_reading (timestamp r) (x_axis r) (y_axis r) (z_axis r) (magnitude r) v (frequency r).

Definition set_frequency (v : option Q) (r : VibrationReading) : VibrationReading :=
  mk_reading (timestamp r) (x_axis r) (y_axis r) (z_axis r) (magnitude r) (temperature r) v.

(** [v], the number a text denotes, is within half a unit of the last of
    its [k] digits of the float [x] that was written; and the float [y]
    that reading the text returns, the float nearest to [v] (so at least as
    near to [v] as [x] is), is within one such unit of [x]. *)
Definition close_to (k : nat) (v x : Q) : Prop :=
  Qabs (v - x) <= 1 # Z.to_pos (2 * 10 ^ Z.of_nat k) /\
  forall y, Qabs (y - v) <= Qabs (x - v) ->
            Qabs (y - x) <= 1 # Z.to_pos (10 ^ Z.of_nat k).

(** Float primitives for the examples: exact mean, maximum and minimum,
    square roots rounded down to six decimals, the least-squares slope, and
    six fraction digits for [str]. *)
Definition q_sum (l : list Q) : Q := fold_right Qplus 0 l.

Definition q_mean (l : list Q) : Q := q_sum l / inject_Z (Z.of_nat (List.length l)).

Definition q_sqrt (q : Q) : Q :=
  Z.sqrt (Qfloor (q * inject_Z (10 ^ 12))) # Z.to_pos (10 ^ 6).

Definition q_slope (l : list Q) : Q :=
  let xs := map (fun i => inject_Z (Z.of_nat i)) (seq 0 (List.length l)) in
  let mx := q_mean xs in
  let my := q_mean l in
  q_sum (map (fun xy => (fst xy - mx) * (snd xy - my)) (combine xs l)) /
  q_sum (map (fun x => (x - mx) * (x - mx)) xs).

Definition sample_floats : floats :=
  mk_floats (PyFormat.format_fixed 6) q_mean
    (fun l => fold_right Qmax (hd 0 l) l) (fun l => fold_right Qmin (hd 0 l) l)
    (fun l => q_sqrt (q_mean (map (fun x => (x - q_mean l) * (x - q_mean l)) l)))
    (fun l => q_sqrt (q_mean (map (fun x => x * x) l)))
    q_slope.

(** A detector with a connected sensor, before any session. *)
Definition fresh_detector : VibrationDetector :=
  mk_detector "{}" "data/vibration_logs" true (new_analyzer 100 default_thresholds 0)
    false false None None None None [] [].

(** A reading taken at 1700000000.0634765625 s (a float: 1740800000065/1024)
    with magnitude 25, above the critical threshold. *)
Definition sample_reading : VibrationReading :=
  mk_reading (1740800000065 # 1024) 15 20 0 25 None None.

Definition sample_session : VibrationDetector :=
  monitoring_step sample_floats sample_reading
    (snd (start_monitoring None "20231114_221320" (inject_Z 1700000000)
            (inject_Z 1700000000) fresh_detector)).

Definition summary_path (d : VibrationDetector) (sid : string) : string :=
  path_join (log_directory d) (sid ++ "_summary.json").

Definition session_duration (t_duration : Q) (d : VibrationDetector) : Q :=
  match session_start_time d with
  | Some start => if truthy start then t_duration - start else 0
  | None => 0
  end.

(** The buffers and counters [reset] clears. *)
Definition cleared (a : VibrationAnalyzer) : Prop :=
  magnitude_buffer a = [] /\ x_buffer a = [] /\ y_buffer a = [] /\ z_buffer a = [] /\
  timestamp_buffer a = [] /\ alerts a = [] /\ total_samples a = 0%Z.

(** The readings of a run of the monitoring loop, fed to the analyzer in
    order. *)
Definition add_readings (fl : floats) (rs : list VibrationReading) (a : VibrationAnalyzer)
  : VibrationAnalyzer :=
  fold_left (fun a r => add_reading fl r a) rs a.

(** Successive passes of [_monitoring_loop], one per reading. *)
Definition monitoring_steps (fl : floats) (rs : list VibrationReading)
  (d : VibrationDetector) : VibrationDetector :=
  fold_left (fun d r => monitoring_step fl r d) rs d.

(** The [n] newest elements of a list, oldest first (none when [n] is 0). *)
Definition newest {A} (n : nat) (l : list A) : list A :=
  skipn (List.length l - n) l.

(** Each alert comes more than [c] seconds after the one before it, the
    first more than [c] seconds after [prev]. *)
Fixpoint spaced (c prev : Q) (l : list VibrationAlert) : Prop :=
  match l with
  | [] => True
  | al :: l' => c < alert_timestamp al - prev /\ spaced c (alert_timestamp al) l'
  end.

(** The rows of a session log, one per reading. *)
Definition log_rows (fl : floats) (start : Q) (rs : list VibrationReading) : string :=
  fold_right append ""%string (map (log_row fl start) rs).

(** Readings at the given times with the given magnitudes. *)
Definition reading_at (t m : Q) : VibrationReading := mk_reading t m 0 0 m None None.

End Vibration.

(** ** Modbus RTU sensor (monitoring/vibration/rs485_sensor.py)

    [bytes] are lists of [Byte.byte]. The serial port is an input: what
    [reset_input_buffer] and [write] do, and the bytes that arrive before the
    read times out. The frames handed to [write] are logged (ghost state,
    newest last). Decoding a float32 and the float arithmetic of the
    magnitude are parameters. *)

Module Modbus.

Definition byte_val (b : Byte.byte) : Z := Z.of_N (Byte.to_N b).

(** The byte of an int in [0, 255]. *)
Definition byte_of (n : Z) : Byte.byte :=
  match Byte.of_N (Z.to_N n) with
  | Some b => b
  | None => Byte.x00
  end.

(** The body of [for _ in range(8)]. *)
Definition crc_shift (crc : Z) : Z :=
  if negb (Z.land crc 0x0001 =? 0) then Z.lxor (Z.shiftr crc 1) 0xA001
  else Z.shiftr crc 1.

(** The body of [for byte in data]. *)
Definition crc_byte (crc : Z) (b : Byte.byte) : Z :=
  Nat.iter 8 crc_shift (Z.lxor crc (byte_val b)).

Definition _calculate_crc (data : list Byte.byte) : Z :=
  fold_left crc_byte data 0xFFFF.

Definition struct_error : string := "struct.error".

Definition SerialException : string := "SerialException".

(** [struct.pack] of one field: format [B] takes 0..255, format [H]
    0..65535 (big-endian after [>], little-endian after [<]); anything else is
    a [struct.error]. *)
Definition pack_B (n : Z) : Py.result (list Byte.byte) :=
  if (0 <=? n) && (n <=? 255) then Py.Returned [byte_of n]
  else Py.Raised struct_error.

Definition pack_H_be (n : Z) : Py.result (list Byte.byte) :=
  if (0 <=? n) && (n <=? 65535) then Py.Returned [byte_of (n / 256); byte_of (n mod 256)]
  else Py.Raised struct_error.

Definition pack_H_le (n : Z) : Py.result (list Byte.byte) :=
  if (0 <=? n) && (n <=? 65535) then Py.Returned [byte_of (n mod 256); byte_of (n / 256)]
  else Py.Raised struct_error.

(** [struct.unpack('<H', b)[0]] *)
Definition unpack_H_le (b : list Byte.byte) : Py.result Z :=
  match b with
  | [lo; hi] => Py.Returned (byte_val lo + 256 * byte_val hi)
  | _ => Py.Raised struct_error
  end.

Local Open Scope py_scope.

(** [struct.pack('>BBHH', a, b, c, d)] *)
Definition pack_BBHH (a b c d : Z) : Py.result (list Byte.byte) :=
  match pack_B a, pack_B b, pack_H_be c, pack_H_be d with
  | Py.Returned x, Py.Returned y, Py.Returned z, Py.Returned w =>
      Py.Returned (x ++ y ++ z ++ w)
  | _, _, _, _ => Py.Raised struct_error
  end.

(** The serial port during one request. *)
Record serial := mk_serial {
  reset_input_buffer : Py.result unit;
  write : Py.result unit;
  incoming : Py.result (list Byte.byte)   (* what arrives before the timeout *)
}.

(** [try: body / except kind: handler]: other exceptions pass. *)
Definition try_except_kind {S A} (kind : string) (body handler : Py.M S A) : Py.M S A :=
  fun s =>
    match body s with
    | (Py.Raised e, s') => if String.eqb e kind then handler s' else (Py.Raised e, s')
    | r => r
    end.

(** [l[-2:]] and [l[:-2]] *)
Definition last_two {A} (l : list A) : list A := skipn (List.length l - 2) l.

Definition but_last_two {A} (l : list A) : list A := firstn (List.length l - 2) l.

(** [_read_holding_registers]: [connected] is
    [self._connected and self.serial_port is not None]. *)
Definition _read_holding_registers (connected : bool) (slave_address : Z) (port : serial)
  (start_address count : Z) : Py.M (list (list Byte.byte)) (option (list Byte.byte)) :=
  if negb connected then Py.ret None
  else
    packed <- Py.call (pack_BBHH slave_address 0x03 start_address count) ;;
    let crc := _calculate_crc packed in
    crc_bytes <- Py.call (pack_H_le crc) ;;
    let request := packed ++ crc_bytes in
    try_except_kind SerialException
      (Py.call (reset_input_buffer port) ;;;
       Py.call (write port) ;;;
       Py.modify (fun written => written ++ [request]) ;;;
       arrived <- Py.call (incoming port) ;;
       let response := firstn (Z.to_nat (5 + count * 2)) arrived in
       if (List.length response <? 5)%nat then Py.ret None
       else
         received_crc <- Py.call (unpack_H_le (last_two response)) ;;
         let calculated_crc := _calculate_crc (but_last_two response) in
         if negb (received_crc =? calculated_crc) then Py.ret None
         else
           let byte_count := byte_val (nth 2 response Byte.x00) in
           let data := firstn (Z.to_nat byte_count) (skipn 3 response) in
           Py.ret (Some data))
      (Py.ret None).

(** Float decoding and arithmetic: [struct.unpack('>f', b)[0]] on four
    bytes, and [(x**2 + y**2 + z**2) ** 0.5]. *)
Record codec := mk_codec {
  float32 : list Byte.byte -> Q;
  norm : Q -> Q -> Q -> Q
}.

(** [struct.unpack('>f', b)[0]] *)
Definition unpack_f (cd : codec) (b : list Byte.byte) : Py.result Q :=
  if (List.length b =? 4)%nat then Py.Returned (float32 cd b)
  else Py.Raised struct_error.

(** [struct.unpack('>f', d)[0] if d else None] *)
Definition optional_float (cd : codec) (d : option (list Byte.byte))
  : Py.M (list (list Byte.byte)) (option Q) :=
  match d with
  | None | Some [] => Py.ret None
  | Some b => v <- Py.call (unpack_f cd b) ;; Py.ret (Some v)
  end.

(** [read_vibration]: the port during each of the three requests, and the
    clock. *)
Definition read_vibration (cd : codec) (connected : bool) (slave_address : Z)
  (port_xyz port_temp port_freq : serial) (now : Q)
  : Py.M (list (list Byte.byte)) (option Vibration.VibrationReading) :=
  data <- _read_holding_registers connected slave_address port_xyz 0x0000 6 ;;
  match data with
  | None => Py.ret None
  | Some data =>
      if (List.length data <? 12)%nat then Py.ret None
      else
        try_except_kind struct_error
          (x_axis <- Py.call (unpack_f cd (firstn 4 data)) ;;
           y_axis <- Py.call (unpack_f cd (firstn 4 (skipn 4 data))) ;;
           z_axis <- Py.call (unpack_f cd (firstn 4 (skipn 8 data))) ;;
           let magnitude := norm cd x_axis y_axis z_axis in
           temp_data <- _read_holding_registers connected slave_address port_temp 0x0006 2 ;;
           temperature <- optional_float cd temp_data ;;
           freq_data <- _read_holding_registers connected slave_address port_freq 0x0008 2 ;;
           frequency <- optional_float cd freq_data ;;
           Py.ret (Some (Vibration.mk_reading now x_axis y_axis z_axis magnitude
                           temperature frequency)))
          (Py.ret None)
  end.

Local Close Scope py_scope.

(** The two CRC bytes as they are sent: low byte first. *)
Definition crc_bytes (data : list Byte.byte) : list Byte.byte :=
  [byte_of (_calculate_crc data mod 256); byte_of (_calculate_crc data / 256)].

(** The frame of a request for [count] registers from [start_address]. *)
Definition request_frame (slave_address start_address count : Z) : list Byte.byte :=
  let packed :=
    [byte_of slave_address; Byte.x03;
     byte_of (start_address / 256); byte_of (start_address mod 256);
     byte_of (count / 256); byte_of (count mod 256)] in
  packed ++ crc_bytes packed.

(** A response as the source describes it,
    [[slave][function][byte_count][data...][crc]], with the CRC computed and
    sent as for the request. *)
Definition response_frame (slave function : Byte.byte) (payload : list Byte.byte)
  : list Byte.byte :=
  let body := [slave; function; byte_of (Z.of_nat (List.length payload))] ++ payload in
  body ++ crc_bytes body.

Definition in_range (slave_address start_address count : Z) : Prop :=
  0 <= slave_address <= 255 /\ 0 <= start_address <= 65535 /\ 0 <= count <= 65535.

(** A port on which nothing fails and [arrived] comes in. *)
Definition delivers (arrived : list Byte.byte) : serial :=
  mk_serial (Py.Returned tt) (Py.Returned tt) (Py.Returned arrived).

(** Example data: a payload of four bytes, and a codec for the examples
    (the first byte as the value, the sum as the norm). *)
Definition sample_payload : list Byte.byte := [Byte.x3f; Byte.x80; Byte.x00; Byte.x00].

Definition sample_codec : codec :=
  mk_codec (fun b => inject_Z (byte_val (hd Byte.x00 b))) (fun x y z => (x + y + z)%Q).

Definition in_range_dec (slave_address start_address count : Z) :
  {in_range slave_address start_address count} +
  {~ in_range slave_address start_address count}.
Proof.
  unfold in_range.
  destruct (Z_le_dec 0 slave_address), (Z_le_dec slave_address 255),
    (Z_le_dec 0 start_address), (Z_le_dec start_address 65535),
    (Z_le_dec 0 count), (Z_le_dec count 65535);
    first [left; lia | right; lia].
Defined.

End Modbus.

(** * Properties of the model *)

Module WorkSchedulerFacts.

Import WorkScheduler.

Lemma py_in_In (x : Z) (xs : list Z) : py_in x xs = true <-> In x xs.
Proof.
  unfold py_in. rewrite existsb_exists. split.
  - intros [y [Hy Heq]]. apply Z.eqb_eq in Heq. now subst.
  - intros H. exists x. split; [assumption | apply Z.eqb_refl].
Qed.

Lemma time_le_micro_of_day (a b : time) :
  valid_time a -> valid_time b ->
  (time_le a b <-> micro_of_day a <= micro_of_day b).
Proof.
  unfold valid_time, time_le, time_leb, time_compare, micro_of_day.
  intros Ha Hb.
  destruct (Z.compare_spec (hour a) (hour b));
    [destruct (Z.compare_spec (minute a) (minute b));
       [destruct (Z.compare_spec (second a) (second b));
          [destruct (Z.compare_spec (microsecond a) (microsecond b))| |]| |]| |];
    split; intros; try reflexivity; try discriminate; try nia.
Qed.

(** *** [datetime.time] and its [ValueError] *)

Lemma dt_time_cases h m :
  (dt_time h m = Py.Returned (time_hm h m) /\ 0 <= h <= 23 /\ 0 <= m <= 59) \/
  (dt_time h m = Py.Raised ValueError /\ ~ (0 <= h <= 23 /\ 0 <= m <= 59)).
Proof.
  unfold dt_time, time_hm.
  destruct (Z.leb_spec 0 h), (Z.leb_spec h 23); simpl;
    try (right; split; [reflexivity | lia]).
  destruct (Z.leb_spec 0 m), (Z.leb_spec m 59); simpl;
    try (right; split; [reflexivity | lia]).
  left. split; [reflexivity | lia].
Qed.

Lemma dt_time_valid h m :
  0 <= h <= 23 -> 0 <= m <= 59 -> dt_time h m = Py.Returned (time_hm h m).
Proof.
  intros Hh Hm. destruct (dt_time_cases h m) as [[H _] | [_ H]]; [exact H|].
  elim H. now split.
Qed.

Lemma valid_time_hm h m : 0 <= h <= 23 -> 0 <= m <= 59 -> valid_time (time_hm h m).
Proof. intros Hh Hm. unfold valid_time, time_hm. simpl. lia. Qed.

(** The three ways [is_work_time] ends. *)
Lemma is_work_time_cases sch now :
  (py_in (weekday now) (enabled_days sch) = false /\
   is_work_time sch now = Py.Returned false) \/
  (py_in (weekday now) (enabled_days sch) = true /\ valid_schedule sch /\
   is_work_time sch now = Py.Returned (in_work_hours sch now)) \/
  (py_in (weekday now) (enabled_days sch) = true /\ ~ valid_schedule sch /\
   is_work_time sch now = Py.Raised ValueError).
Proof.
  unfold is_work_time, in_work_hours, valid_schedule. cbv zeta.
  destruct (py_in (weekday now) (enabled_days sch)) eqn:Hday; cbn [negb andb];
    [|left; split; reflexivity].
  right.
  destruct (dt_time_cases (start_hour sch) (start_minute sch)) as [[-> Hs] | [-> Hs]];
    [|right; split; [reflexivity|]; split; [tauto | reflexivity]].
  destruct (dt_time_cases (end_hour sch) (end_minute sch)) as [[-> He] | [-> He]];
    [|right; split; [reflexivity|]; split; [tauto | reflexivity]].
  left. split; [reflexivity|]. split; [tauto | reflexivity].
Qed.

Lemma is_work_time_valid sch now :
  valid_schedule sch -> is_work_time sch now = Py.Returned (in_work_hours sch now).
Proof.
  intros Hv.
  destruct (is_work_time_cases sch now) as [[Hd H] | [(_ & _ & H) | (_ & Hn & _)]];
    [|exact H | contradiction].
  rewrite H. unfold in_work_hours. now rewrite Hd.
Qed.

Lemma is_work_time_returned_true sch now :
  is_work_time sch now = Py.Returned true ->
  valid_schedule sch /\ in_work_hours sch now = true.
Proof.
  intros H.
  destruct (is_work_time_cases sch now) as [[_ H'] | [(_ & Hv & H') | (_ & _ & H')]];
    rewrite H in H'; try discriminate.
  injection H' as H'. now split.
Qed.

Lemma in_work_hours_spec sch now :
  in_work_hours sch now = true <->
  In (weekday now) (enabled_days sch) /\ in_window sch (time_of now).
Proof.
  unfold in_work_hours, in_window, time_le. cbv zeta.
  destruct (py_in (weekday now) (enabled_days sch)) eqn:Hday; simpl.
  - apply py_in_In in Hday.
    destruct (time_leb (time_hm (start_hour sch) (start_minute sch))
                (time_hm (end_hour sch) (end_minute sch))) eqn:Hse.
    + rewrite andb_true_iff. split.
      * intros H. split; [assumption|]. split; [intros _; exact H|].
        intros Hn. now elim Hn.
      * intros [_ [H _]]. now apply H.
    + rewrite orb_true_iff. split.
      * intros H. split; [assumption|]. split; [discriminate|].
        intros _. exact H.
      * intros [_ [_ H]]. apply H. discriminate.
  - split; [discriminate|]. intros [Hin _].
    apply py_in_In in Hin. congruence.
Qed.

Lemma valid_day_shift : valid_schedule day_shift.
Proof. unfold valid_schedule. simpl. lia. Qed.

(** C4. For a schedule whose start and end are times of day (hour 0..23,
    minute 0..59) [is_work_time] returns, and returns true exactly when
    today's weekday is enabled and the time of day lies in the inclusive
    window (start <= now <= end when start <= end; now >= start or now <= end
    for an overnight window). For 08:30-19:00 it is true at 12:00 and false
    at 20:00; for 22:00-06:00 it is true at 23:30 and 01:00 and false at
    12:00, on every enabled weekday. The window is stated twice: in the order
    of [datetime.time] values, and, for valid times, in microseconds of the
    day. For any other schedule [datetime.time] raises [ValueError] on an
    enabled weekday, and the result is false on a weekday that is not
    enabled. *)
Theorem is_work_time_spec :
  (forall sch now,
     valid_schedule sch ->
     (exists b, is_work_time sch now = Py.Returned b) /\
     (is_work_time sch now = Py.Returned true <->
      In (weekday now) (enabled_days sch) /\ in_window sch (time_of now))) /\
  (forall sch now,
     valid_schedule sch -> valid_time (time_of now) ->
     let t := micro_of_day (time_of now) in
     let s := micro_of_day (time_hm (start_hour sch) (start_minute sch)) in
     let e := micro_of_day (time_hm (end_hour sch) (end_minute sch)) in
     is_work_time sch now = Py.Returned true <->
     In (weekday now) (enabled_days sch) /\
     (if s <=? e then s <= t <= e else s <= t \/ t <= e)) /\
  (forall sch now,
     ~ valid_schedule sch ->
     (In (weekday now) (enabled_days sch) -> is_work_time sch now = Py.Raised ValueError) /\
     (~ In (weekday now) (enabled_days sch) -> is_work_time sch now = Py.Returned false)) /\
  (forall d, In d all_days ->
     is_work_time day_shift (at_time d 12 0) = Py.Returned true /\
     is_work_time day_shift (at_time d 20 0) = Py.Returned false /\
     is_work_time night_shift (at_time d 23 30) = Py.Returned true /\
     is_work_time night_shift (at_time d 1 0) = Py.Returned true /\
     is_work_time night_shift (at_time d 12 0) = Py.Returned false).
Proof.
  assert (Hwin : forall sch now,
     valid_schedule sch ->
     (is_work_time sch now = Py.Returned true <->
      In (weekday now) (enabled_days sch) /\ in_window sch (time_of now))).
  { intros sch now Hv. rewrite (is_work_time_valid sch now Hv), <- in_work_hours_spec.
    split; [intros [= H]; exact H | intros ->; reflexivity]. }
  split; [|split; [|split]].
  - intros sch now Hv. split; [|now apply Hwin].
    exists (in_work_hours sch now). now apply is_work_time_valid.
  - intros sch now Hv Hvn t s e. rewrite (Hwin sch now Hv). unfold in_window.
    destruct Hv as (Hsh & Hsm & Heh & Hem).
    pose proof (valid_time_hm _ _ Hsh Hsm) as Hvs.
    pose proof (valid_time_hm _ _ Heh Hem) as Hve.
    rewrite !(time_le_micro_of_day _ _ Hvs Hve),
            !(time_le_micro_of_day _ _ Hvs Hvn), !(time_le_micro_of_day _ _ Hvn Hve).
    fold t s e. destruct (Z.leb_spec s e); intuition lia.
  - intros sch now Hn.
    destruct (is_work_time_cases sch now) as [[Hd H] | [(_ & Hv & _) | (Hd & _ & H)]];
      [|contradiction|].
    + split; [|intros _; exact H].
      intros Hin. apply py_in_In in Hin. congruence.
    + split; [intros _; exact H|].
      intros Hnin. elim Hnin. now apply py_in_In.
  - intros d Hd. unfold all_days in Hd. simpl in Hd.
    repeat (destruct Hd as [<- | Hd]; [repeat split; reflexivity|]).
    contradiction.
Qed.

(** Monday 12:00 with the 08:30-19:00 schedule. *)
Lemma is_work_time_spec_witness :
  valid_schedule day_shift /\
  (is_work_time day_shift (at_time 0 12 0) = Py.Returned true <->
   In (weekday (at_time 0 12 0)) (enabled_days day_shift) /\
   in_window day_shift (time_of (at_time 0 12 0))).
Proof.
  split; [exact valid_day_shift|].
  apply (proj1 is_work_time_spec day_shift (at_time 0 12 0) valid_day_shift).
Defined.

(** "08:30" to "24:00" on a Monday: [dt_time(24, 0)] raises at 12:00, as at
    any other time of an enabled weekday. *)
Lemma until_midnight_raises :
  ~ valid_schedule until_midnight /\
  is_work_time until_midnight (at_time 0 12 0) = Py.Raised ValueError /\
  minutes_until_work_start until_midnight (at_time 0 7 0) (at_time 0 7 0) =
    Py.Raised ValueError /\
  minutes_until_work_end until_midnight (at_time 0 7 0) (at_time 0 7 0) =
    Py.Raised ValueError /\
  tick_calls (at_time 0 12 0) working (new_scheduler until_midnight) = [] /\
  tick_state (at_time 0 12 0) working (new_scheduler until_midnight) =
    new_scheduler until_midnight.
Proof.
  split; [unfold valid_schedule; simpl; lia|]. repeat split; reflexivity.
Qed.

Lemma skipn_length_app {A} (l x : list A) : skipn (List.length l) (l ++ x) = x.
Proof. induction l; simpl; auto. Qed.

Lemma skipn_length_self {A} (l : list A) : skipn (List.length l) l = [].
Proof. induction l; simpl; auto. Qed.

Ltac tick_cases :=
  unfold tick_calls, tick_state, Py.exec, scheduler_tick, Py.try_except, Py.bind,
    Py.get, Py.modify, Py.ret, Py.call, start_callback, stop_callback,
    set_services_started, log_call; simpl.

Lemma work_time_is_iff b sch now :
  work_time_is b sch now = true <-> is_work_time sch now = Py.Returned b.
Proof.
  unfold work_time_is. destruct (is_work_time sch now) as [b'|e].
  - destruct b, b'; simpl; split; congruence.
  - split; discriminate.
Qed.

Lemma guards_exclusive now w : start_guard now w && stop_guard now w = false.
Proof.
  unfold start_guard, stop_guard, work_time_is.
  destruct (is_work_time (schedule w) now) as [[|]|e], (services_started w),
    (auto_start_enabled w), (auto_stop_enabled w); reflexivity.
Qed.

Lemma tick_calls_cases now cb w :
  manual_override w = false ->
  tick_calls now cb w =
    if start_guard now w then [StartCallback]
    else if stop_guard now w then [StopCallback] else [].
Proof.
  destruct w as [sch ae ap mo ss inv]. simpl. intros ->.
  unfold start_guard, stop_guard, work_time_is. tick_cases.
  destruct (is_work_time sch now) as [[|]|e], ss, ae, ap; simpl;
    try apply skipn_length_self;
    try (destruct (start_outcome cb) as [[|]|]; simpl; apply skipn_length_app);
    try (destruct (stop_outcome cb) as [[]|]; simpl; apply skipn_length_app).
Qed.

Lemma tick_started_cases now cb w :
  manual_override w = false ->
  services_started (tick_state now cb w) =
    if start_guard now w then
      match start_outcome cb with Py.Returned true => true | _ => services_started w end
    else if stop_guard now w then
      match stop_outcome cb with Py.Returned _ => false | _ => services_started w end
    else services_started w.
Proof.
  destruct w as [sch ae ap mo ss inv]. simpl. intros ->.
  unfold start_guard, stop_guard, work_time_is. tick_cases.
  destruct (is_work_time sch now) as [[|]|e], ss, ae, ap; simpl; try reflexivity;
    try (destruct (start_outcome cb) as [[|]|]; reflexivity);
    try (destruct (stop_outcome cb) as [[]|]; reflexivity).
Qed.

Lemma tick_config_unchanged now cb w :
  let w' := tick_state now cb w in
  schedule w' = schedule w /\ auto_start_enabled w' = auto_start_enabled w /\
  auto_stop_enabled w' = auto_stop_enabled w /\ manual_override w' = manual_override w.
Proof.
  destruct w as [sch ae ap mo ss inv]. tick_cases.
  destruct mo; simpl; [auto|].
  destruct (is_work_time sch now) as [[|]|e], ss, ae, ap; simpl; auto;
    try (destruct (start_outcome cb) as [[|]|]; simpl; auto);
    try (destruct (stop_outcome cb) as [[]|]; simpl; auto).
Qed.

(** A [ValueError] of [is_work_time] is swallowed by the loop: the
    iteration does nothing. *)
Lemma tick_raised now cb w e :
  is_work_time (schedule w) now = Py.Raised e -> tick_state now cb w = w.
Proof.
  destruct w as [sch ae ap mo ss inv]. simpl. intros H. tick_cases.
  destruct mo; simpl; [reflexivity|]. now rewrite H.
Qed.

(** C5. On a poll tick with [manual_override] false at most one callback is
    invoked, never both: the start callback exactly when [is_work_time]
    returns true, services are not started and auto-start is enabled; the
    stop callback exactly when [is_work_time] returns false, services are
    started and auto-stop is enabled. [services_started] becomes true only
    when the start callback returned true; when it returned false or raised,
    [services_started] is unchanged and the next work-time tick invokes the
    start callback again. When [is_work_time] raises, the tick invokes no
    callback and changes nothing. *)
Theorem scheduler_tick_spec (now : datetime) (cb : callbacks) (w : scheduler) :
  manual_override w = false ->
  let calls := tick_calls now cb w in
  let w' := tick_state now cb w in
  (calls = [] \/ calls = [StartCallback] \/ calls = [StopCallback]) /\
  (In StartCallback calls <->
     is_work_time (schedule w) now = Py.Returned true /\ services_started w = false /\
     auto_start_enabled w = true) /\
  (In StopCallback calls <->
     is_work_time (schedule w) now = Py.Returned false /\ services_started w = true /\
     auto_stop_enabled w = true) /\
  (services_started w = false -> services_started w' = true ->
     calls = [StartCallback] /\ start_outcome cb = Py.Returned true) /\
  (In StartCallback calls -> start_outcome cb <> Py.Returned true ->
     services_started w' = services_started w /\
     forall now' cb', is_work_time (schedule w) now' = Py.Returned true ->
       tick_calls now' cb' w' = [StartCallback]) /\
  (forall e, is_work_time (schedule w) now = Py.Raised e -> calls = [] /\ w' = w).
Proof.
  intros Hm calls w'. subst calls w'.
  pose proof (tick_config_unchanged now cb w) as (Hsch & Has & Hap & Hmo).
  pose proof (guards_exclusive now w) as Hex.
  assert (Hsg : start_guard now w = true <->
                is_work_time (schedule w) now = Py.Returned true /\
                services_started w = false /\ auto_start_enabled w = true).
  { unfold start_guard. rewrite !andb_true_iff, negb_true_iff, work_time_is_iff. tauto. }
  assert (Hpg : stop_guard now w = true <->
                is_work_time (schedule w) now = Py.Returned false /\
                services_started w = true /\ auto_stop_enabled w = true).
  { unfold stop_guard. rewrite !andb_true_iff, work_time_is_iff. tauto. }
  assert (Hraise : forall e, is_work_time (schedule w) now = Py.Raised e ->
                             start_guard now w = false /\ stop_guard now w = false).
  { intros e He. unfold start_guard, stop_guard, work_time_is. now rewrite He. }
  rewrite (tick_calls_cases now cb w Hm), (tick_started_cases now cb w Hm).
  destruct (start_guard now w) eqn:Esg; [|destruct (stop_guard now w) eqn:Epg].
  - (* the start branch *)
    simpl in Hex.
    split; [auto|].
    split; [split; [intros _; now apply Hsg | intros _; now left]|].
    split; [split; [intros [H|[]]; discriminate
                   | intros H; apply Hpg in H; congruence]|].
    split; [|split].
    + intros _ H. split; [reflexivity|].
      destruct (start_outcome cb) as [[|]|]; [reflexivity| |];
        destruct Hsg as [Hsg _]; destruct (Hsg eq_refl) as (_ & Hss & _); congruence.
    + intros _ Hne.
      assert (Hsame : match start_outcome cb with
                      | Py.Returned true => true
                      | _ => services_started w
                      end = services_started w)
        by (destruct (start_outcome cb) as [[|]|]; congruence).
      split; [exact Hsame|].
      intros now' cb' Hwt'.
      rewrite tick_calls_cases by (rewrite Hmo; exact Hm).
      destruct Hsg as [Hsg _]. destruct (Hsg eq_refl) as (_ & Hss & Hae).
      apply work_time_is_iff in Hwt'.
      unfold start_guard.
      rewrite Hsch, Hwt', Has, Hae, (tick_started_cases now cb w Hm), Esg, Hsame, Hss.
      reflexivity.
    + intros e He. destruct (Hraise e He). discriminate.
  - (* the stop branch *)
    split; [auto|].
    split; [split; [intros [H|[]]; discriminate
                   | intros H; apply Hsg in H; congruence]|].
    split; [split; [intros _; now apply Hpg | intros _; now left]|].
    split; [|split].
    + intros Hss H. destruct Hpg as [Hpg _]. destruct (Hpg eq_refl) as (_ & Hss' & _).
      congruence.
    + intros [H|[]]. discriminate.
    + intros e He. destruct (Hraise e He). discriminate.
  - (* neither guard holds *)
    split; [auto|].
    split; [split; [intros [] | intros H; apply Hsg in H; congruence]|].
    split; [split; [intros [] | intros H; apply Hpg in H; congruence]|].
    split; [congruence|]. split; [intros []|].
    intros e He. split; [reflexivity | now apply tick_raised with e].
Qed.

(** A failed start at 12:00 on a Monday, all automatic actions enabled:
    [services_started] stays false and the next tick calls start again. *)
Lemma scheduler_tick_spec_witness :
  let w := mk_scheduler day_shift true true false false [] in
  let cb := mk_callbacks (Py.Returned false) (Py.Returned tt) in
  manual_override w = false /\
  services_started (tick_state (at_time 0 12 0) cb w) = services_started w /\
  tick_calls (at_time 0 12 1) cb (tick_state (at_time 0 12 0) cb w) = [StartCallback].
Proof.
  intros w cb. split; [reflexivity|].
  destruct (scheduler_tick_spec (at_time 0 12 0) cb w eq_refl) as (_ & _ & _ & _ & H & _).
  destruct H as [Hs Hr]; [left; reflexivity | discriminate |].
  split; [exact Hs | apply Hr; reflexivity].
Defined.

Lemma is_work_time_no_days sch now :
  is_work_time (with_enabled_days sch []) now = Py.Returned false.
Proof. reflexivity. Qed.

(** C10. When [is_work_time] returns false, [minutes_until_work_start]
    returns the minutes from the current minute of the day to the next
    occurrence of the start minute (today's if still ahead, otherwise
    tomorrow's), a value between 1 and 24*60. The enabled weekdays play no
    part in the value: it is the same for every weekday set under which
    [is_work_time] returns false, also the empty one. *)
Theorem minutes_until_work_start_spec (sch : WorkSchedule) (now_check now : datetime) :
  0 <= start_hour sch <= 23 -> 0 <= start_minute sch <= 59 ->
  0 <= hour (time_of now) <= 23 -> 0 <= minute (time_of now) <= 59 ->
  is_work_time sch now_check = Py.Returned false ->
  exists m,
    minutes_until_work_start sch now_check now = Py.Returned (Some m) /\
    1 <= m <= 24 * 60 /\
    (current_minutes now + m) mod (24 * 60) = start_minutes sch /\
    (m = if current_minutes now <? start_minutes sch
         then start_minutes sch - current_minutes now
         else start_minutes sch + 24 * 60 - current_minutes now) /\
    (forall days,
       is_work_time (with_enabled_days sch days) now_check = Py.Returned false ->
       minutes_until_work_start (with_enabled_days sch days) now_check now =
         Py.Returned (Some m)) /\
    minutes_until_work_start (with_enabled_days sch []) now_check now =
      Py.Returned (Some m).
Proof.
  intros Hsh Hsm Hh Hmi Hwt.
  assert (Hgen : forall days,
    is_work_time (with_enabled_days sch days) now_check = Py.Returned false ->
    minutes_until_work_start (with_enabled_days sch days) now_check now =
    Py.Returned
      (Some (if current_minutes now <? start_minutes sch
             then start_minutes sch - current_minutes now
             else start_minutes sch + 24 * 60 - current_minutes now))).
  { intros days Hd. unfold minutes_until_work_start. rewrite Hd.
    unfold current_minutes, start_minutes.
    cbn [with_enabled_days start_hour start_minute].
    rewrite Z.gtb_ltb.
    destruct (hour (time_of now) * 60 + minute (time_of now) <?
              start_hour sch * 60 + start_minute sch); do 2 apply f_equal; lia. }
  exists (if current_minutes now <? start_minutes sch
          then start_minutes sch - current_minutes now
          else start_minutes sch + 24 * 60 - current_minutes now).
  assert (Hself : with_enabled_days sch (enabled_days sch) = sch) by (destruct sch; reflexivity).
  split; [rewrite <- Hself at 1; apply Hgen; rewrite Hself; exact Hwt|].
  unfold current_minutes, start_minutes in *.
  split; [destruct (Z.ltb_spec (hour (time_of now) * 60 + minute (time_of now))
                      (start_hour sch * 60 + start_minute sch)); lia|].
  split.
  { destruct (Z.ltb_spec (hour (time_of now) * 60 + minute (time_of now))
                      (start_hour sch * 60 + start_minute sch)).
    - replace (hour (time_of now) * 60 + minute (time_of now) +
               (start_hour sch * 60 + start_minute sch -
                (hour (time_of now) * 60 + minute (time_of now))))
        with (start_hour sch * 60 + start_minute sch) by lia.
      apply Z.mod_small. lia.
    - replace (hour (time_of now) * 60 + minute (time_of now) +
               (start_hour sch * 60 + start_minute sch + 24 * 60 -
                (hour (time_of now) * 60 + minute (time_of now))))
        with (start_hour sch * 60 + start_minute sch + 1 * (24 * 60)) by lia.
      rewrite Z.mod_add by lia. apply Z.mod_small. lia. }
  split; [reflexivity|].
  split; [exact Hgen|].
  apply Hgen. apply is_work_time_no_days.
Qed.

(** Saturday 10:00 with a Monday-to-Friday 08:30-19:00 schedule: 22 h 30 min. *)
Lemma minutes_until_work_start_spec_witness :
  exists m,
    minutes_until_work_start (with_enabled_days day_shift [0; 1; 2; 3; 4])
      (at_time 5 10 0) (at_time 5 10 0) = Py.Returned (Some m) /\ m = 1350.
Proof.
  destruct (minutes_until_work_start_spec (with_enabled_days day_shift [0; 1; 2; 3; 4])
              (at_time 5 10 0) (at_time 5 10 0))
    as (m & Hm & _); simpl; try lia; try reflexivity.
  exists m. split; [exact Hm|].
  vm_compute in Hm. congruence.
Defined.

(** *** The end of the work window, manual control, and the loop over time *)

(** X10. [minutes_until_work_end] starts with [is_work_time]: when that
    raises, so does it; when that returns false, it returns [None]. When
    that returns true, it returns the number of minutes from the current
    minute of the day to the next occurrence of the end minute, between 1 and
    24*60: during the end minute itself, which still counts as work time at
    its first instant, the result is 24*60 and not 0. *)
Theorem minutes_until_work_end_spec (sch : WorkSchedule) (now_check now : datetime) :
  (is_work_time sch now_check = Py.Returned false ->
   minutes_until_work_end sch now_check now = Py.Returned None) /\
  (forall e, is_work_time sch now_check = Py.Raised e ->
   minutes_until_work_end sch now_check now = Py.Raised e) /\
  (is_work_time sch now_check = Py.Returned true ->
   0 <= hour (time_of now) <= 23 -> 0 <= minute (time_of now) <= 59 ->
   valid_schedule sch /\
   exists m,
     minutes_until_work_end sch now_check now = Py.Returned (Some m) /\
     1 <= m <= 24 * 60 /\
     (current_minutes now + m) mod (24 * 60) = end_minutes sch /\
     (m = 24 * 60 <-> current_minutes now = end_minutes sch)).
Proof.
  unfold minutes_until_work_end.
  split; [intros ->; reflexivity|]. split; [intros e ->; reflexivity|].
  intros Hwt Hh Hmi.
  destruct (is_work_time_returned_true _ _ Hwt) as [Hv _].
  split; [exact Hv|]. destruct Hv as (_ & _ & Heh & Hem).
  rewrite Hwt. unfold current_minutes, end_minutes.
  rewrite Z.gtb_ltb.
  destruct (Z.ltb_spec (hour (time_of now) * 60 + minute (time_of now))
              (end_hour sch * 60 + end_minute sch)) as [Hlt|Hge];
    eexists; (split; [reflexivity|]); (split; [lia|]); split; try lia.
  - replace (hour (time_of now) * 60 + minute (time_of now) +
             (end_hour sch * 60 + end_minute sch -
              (hour (time_of now) * 60 + minute (time_of now))))
      with (end_hour sch * 60 + end_minute sch) by lia.
    apply Z.mod_small. lia.
  - replace (hour (time_of now) * 60 + minute (time_of now) +
             (24 * 60 - (hour (time_of now) * 60 + minute (time_of now)) +
              (end_hour sch * 60 + end_minute sch)))
      with (end_hour sch * 60 + end_minute sch + 1 * (24 * 60)) by lia.
    rewrite Z.mod_add by lia. apply Z.mod_small. lia.
Qed.

(** 19:00:00 with an 08:30-19:00 schedule: still work time, and a full day
    until the end. *)
Lemma minutes_until_work_end_spec_witness :
  is_work_time day_shift (at_time 0 19 0) = Py.Returned true /\
  exists m,
    minutes_until_work_end day_shift (at_time 0 19 0) (at_time 0 19 0) =
      Py.Returned (Some m) /\ m = 1440.
Proof.
  split; [reflexivity|].
  destruct (proj2 (proj2 (minutes_until_work_end_spec day_shift (at_time 0 19 0)
                            (at_time 0 19 0))))
    as (_ & m & Hm & _); simpl; try lia; try reflexivity.
  exists m. split; [exact Hm|].
  vm_compute in Hm. congruence.
Defined.

Lemma loop_under_override ticks : forall w,
  manual_override w = true -> scheduler_loop ticks w = w.
Proof.
  induction ticks as [|[now cb] ticks IH]; intros w Hmo; [reflexivity|].
  simpl.
  assert (Hw : Py.exec (scheduler_tick now cb) w = w)
    by (destruct w; simpl in Hmo; subst; reflexivity).
  rewrite Hw. now apply IH.
Qed.

Lemma tick_invoked_cases now cb w :
  manual_override w = false ->
  invoked (tick_state now cb w) =
    invoked w ++ (if start_guard now w then [StartCallback]
                  else if stop_guard now w then [StopCallback] else []).
Proof.
  destruct w as [sch ae ap mo ss inv]. simpl. intros ->.
  unfold start_guard, stop_guard, work_time_is. tick_cases.
  destruct (is_work_time sch now) as [[|]|e], ss, ae, ap; simpl;
    try (now rewrite app_nil_r);
    try (destruct (start_outcome cb) as [[|]|]; reflexivity);
    try (destruct (stop_outcome cb) as [[]|]; reflexivity).
Qed.

Lemma scheduler_loop_app a : forall b w,
  scheduler_loop (a ++ b) w = scheduler_loop b (scheduler_loop a w).
Proof.
  induction a as [|[now cb] a IH]; intros b w; [reflexivity|]. simpl. apply IH.
Qed.

Lemma loop_config_unchanged ticks : forall w,
  let w' := scheduler_loop ticks w in
  schedule w' = schedule w /\ auto_start_enabled w' = auto_start_enabled w /\
  auto_stop_enabled w' = auto_stop_enabled w /\ manual_override w' = manual_override w.
Proof.
  induction ticks as [|[now cb] ticks IH]; intros w; simpl; [auto|].
  destruct (IH (Py.exec (scheduler_tick now cb) w)) as (H1 & H2 & H3 & H4).
  destruct (tick_config_unchanged now cb w) as (G1 & G2 & G3 & G4).
  unfold tick_state in *. repeat split; congruence.
Qed.

(** X11. [force_start] without a start callback returns [False] and changes
    nothing (the override is not enabled). With a callback it enables the
    manual override before calling it, so also when the callback returns a
    falsy value or raises (the exception propagates); [services_started]
    becomes true only when the callback returned a truthy value. From then on
    the scheduler loop changes nothing and invokes no callback, whatever the
    time. *)
Theorem force_start_overrides_schedule (start_cb : option (Py.result bool)) (w : scheduler) :
  let w' := Py.exec (force_start start_cb) w in
  match start_cb with
  | None => force_start None w = (Py.Returned false, w)
  | Some o =>
      fst (force_start (Some o) w) = o /\
      invoked w' = invoked w ++ [StartCallback] /\
      manual_override w' = true /\
      services_started w' =
        match o with Py.Returned true => true | _ => services_started w end /\
      forall ticks, scheduler_loop ticks w' = w'
  end.
Proof.
  destruct start_cb as [o|]; [|reflexivity].
  destruct w as [sch ae ap mo ss inv].
  assert (Hmo : manual_override (Py.exec (force_start (Some o)) (mk_scheduler sch ae ap mo ss inv))
                = true) by (destruct o as [[|]|]; reflexivity).
  cbv zeta. split; [destruct o as [[|]|]; reflexivity|].
  split; [destruct o as [[|]|]; reflexivity|].
  split; [exact Hmo|].
  split; [destruct o as [[|]|]; reflexivity|].
  intros ticks. now apply loop_under_override.
Qed.

(** X12. [force_stop] without a stop callback changes nothing. With a
    callback it enables the manual override, calls it, and clears
    [services_started]; when the callback raises, the exception propagates and
    [services_started] keeps its value. From then on the scheduler loop does
    nothing; once the override is disabled again, the next iteration at which
    [is_work_time] returns true restarts the services (with auto-start
    enabled). *)
Theorem force_stop_overrides_schedule (stop_cb : option (Py.result unit)) (w : scheduler) :
  let w' := Py.exec (force_stop stop_cb) w in
  match stop_cb with
  | None => force_stop None w = (Py.Returned tt, w)
  | Some o =>
      fst (force_stop (Some o) w) = o /\
      invoked w' = invoked w ++ [StopCallback] /\
      manual_override w' = true /\
      services_started w' =
        match o with Py.Returned _ => false | Py.Raised _ => services_started w end /\
      (forall ticks, scheduler_loop ticks w' = w') /\
      (forall now cb,
         o = Py.Returned tt -> auto_start_enabled w = true ->
         is_work_time (schedule w) now = Py.Returned true ->
         tick_calls now cb (Py.exec disable_manual_override w') = [StartCallback])
  end.
Proof.
  destruct stop_cb as [o|]; [|reflexivity].
  destruct w as [sch ae ap mo ss inv].
  assert (Hmo : manual_override (Py.exec (force_stop (Some o)) (mk_scheduler sch ae ap mo ss inv))
                = true) by (destruct o as [[]|]; reflexivity).
  cbv zeta. split; [destruct o as [[]|]; reflexivity|].
  split; [destruct o as [[]|]; reflexivity|].
  split; [exact Hmo|].
  split; [destruct o as [[]|]; reflexivity|].
  split; [intros ticks; now apply loop_under_override|].
  intros now cb -> Hae Hwt. simpl in Hae, Hwt. subst ae.
  rewrite tick_calls_cases by reflexivity.
  unfold start_guard, work_time_is. simpl. now rewrite Hwt.
Qed.

(** X13. Whatever happened in the earlier iterations, after an iteration
    whose callbacks succeed [services_started] is what [is_work_time] returned
    in that iteration (override off, auto-start and auto-stop enabled); an
    iteration in which [is_work_time] raises leaves [services_started] as it
    was. *)
Theorem services_follow_work_hours ticks now cb w :
  manual_override w = false ->
  auto_start_enabled w = true -> auto_stop_enabled w = true ->
  succeeds cb ->
  (forall b, is_work_time (schedule w) now = Py.Returned b ->
     services_started (scheduler_loop (ticks ++ [(now, cb)]) w) = b) /\
  (forall e, is_work_time (schedule w) now = Py.Raised e ->
     services_started (scheduler_loop (ticks ++ [(now, cb)]) w) =
     services_started (scheduler_loop ticks w)).
Proof.
  intros Hmo Hae Hap [Hstart Hstop].
  rewrite scheduler_loop_app. simpl.
  destruct (loop_config_unchanged ticks w) as (H1 & H2 & H3 & H4).
  set (w1 := scheduler_loop ticks w) in *.
  change (Py.exec (scheduler_tick now cb) w1) with (tick_state now cb w1).
  rewrite tick_started_cases by congruence.
  unfold start_guard, stop_guard, work_time_is.
  rewrite H1, H2, H3, Hae, Hap, Hstart, Hstop.
  split.
  - intros b ->. destruct b, (services_started w1); reflexivity.
  - intros e ->. reflexivity.
Qed.

Lemma services_follow_work_hours_witness :
  services_started
    (scheduler_loop ([(at_time 0 12 0, failing); (at_time 0 13 0, working)] ++
                     [(at_time 0 20 0, working)]) (new_scheduler day_shift)) = false.
Proof.
  apply (proj1 (services_follow_work_hours
                  [(at_time 0 12 0, failing); (at_time 0 13 0, working)] (at_time 0 20 0)
                  working (new_scheduler day_shift) eq_refl eq_refl eq_refl
                  (conj eq_refl eq_refl))).
  reflexivity.
Defined.

(** X14. A start that keeps failing is retried without limit: while the
    start callback never returns a truthy value, the loop invokes it at every
    iteration in which [is_work_time] returns true, never invokes the stop
    callback, and [services_started] stays false. *)
Theorem failed_start_is_retried ticks : forall w,
  manual_override w = false -> auto_start_enabled w = true ->
  services_started w = false ->
  (forall t, In t ticks -> start_outcome (snd t) <> Py.Returned true) ->
  let w' := scheduler_loop ticks w in
  services_started w' = false /\
  invoked w' = invoked w ++ map (fun _ => StartCallback) (work_ticks (schedule w) ticks).
Proof.
  induction ticks as [|[now cb] ticks IH]; intros w Hmo Hae Hss Hfail; simpl.
  - now rewrite app_nil_r.
  - destruct (tick_config_unchanged now cb w) as (G1 & G2 & _ & G4).
    pose proof (tick_started_cases now cb w Hmo) as Hst.
    pose proof (tick_invoked_cases now cb w Hmo) as Hin.
    unfold tick_state in *.
    assert (Hcb : start_outcome cb <> Py.Returned true) by (apply (Hfail (now, cb)); now left).
    unfold start_guard, stop_guard in Hst, Hin. rewrite Hss, Hae in Hst, Hin.
    rewrite !andb_false_r in Hst, Hin.
    assert (Hss1 : services_started (Py.exec (scheduler_tick now cb) w) = false).
    { rewrite Hst. destruct (work_time_is true (schedule w) now); simpl; [|reflexivity].
      destruct (start_outcome cb) as [[|]|]; congruence. }
    destruct (IH (Py.exec (scheduler_tick now cb) w)) as [IH1 IH2];
      [congruence | congruence | exact Hss1 | intros t Ht; apply Hfail; now right |].
    cbv zeta. split; [exact IH1|].
    rewrite IH2, Hin, G1.
    destruct (work_time_is true (schedule w) now); simpl.
    + now rewrite <- app_assoc.
    + now rewrite app_nil_r.
Qed.

Lemma failed_start_is_retried_witness :
  services_started
    (scheduler_loop [(at_time 0 12 0, failing); (at_time 0 12 1, failing)]
       (new_scheduler day_shift)) = false /\
  invoked
    (scheduler_loop [(at_time 0 12 0, failing); (at_time 0 12 1, failing)]
       (new_scheduler day_shift)) = [StartCallback; StartCallback].
Proof.
  apply (failed_start_is_retried [(at_time 0 12 0, failing); (at_time 0 12 1, failing)]
           (new_scheduler day_shift)); try reflexivity.
  intros t [<-|[<-|[]]]; discriminate.
Defined.

End WorkSchedulerFacts.

Module ServiceManagerFacts.

Import ServiceManager.

Lemma lookup_update_same k f d :
  lookup k (update k f d) = option_map f (lookup k d).
Proof.
  induction d as [|[k' v] d IH]; simpl; [reflexivity|].
  destruct (String.eqb k k') eqn:E; simpl; rewrite E; auto.
Qed.

Lemma lookup_update_other k k' f d :
  k' <> k -> lookup k' (update k f d) = lookup k' d.
Proof.
  intros Hne. induction d as [|[k0 v] d IH]; simpl; [reflexivity|].
  destruct (String.eqb k k0) eqn:E; simpl.
  - apply String.eqb_eq in E. subst k0.
    destruct (String.eqb k' k) eqn:E'; [apply String.eqb_eq in E'; contradiction|reflexivity].
  - destruct (String.eqb k' k0); auto.
Qed.

Lemma keys_update k f d : keys (update k f d) = keys d.
Proof.
  unfold keys. induction d as [|[k' v] d IH]; simpl; [reflexivity|].
  destruct (String.eqb k k'); simpl; congruence.
Qed.

Lemma status_of_set_status k k' st m v :
  lookup k (services m) = Some v ->
  status_of k' (set_status k st m) =
    if String.eqb k' k then Some st else status_of k' m.
Proof.
  intros Hk. unfold status_of, set_status. rewrite Hk. simpl.
  destruct (String.eqb k' k) eqn:E.
  - apply String.eqb_eq in E. subst. rewrite lookup_update_same, Hk. reflexivity.
  - apply String.eqb_neq in E. now rewrite lookup_update_other.
Qed.

Lemma status_of_set_error k k' e m : status_of k' (set_error k e m) = status_of k' m.
Proof.
  unfold status_of, set_error. simpl.
  destruct (String.eqb k' k) eqn:E.
  - apply String.eqb_eq in E. subst. rewrite lookup_update_same.
    destruct (lookup k (services m)); reflexivity.
  - apply String.eqb_neq in E. now rewrite lookup_update_other.
Qed.

Lemma lookup_status_of k m v :
  lookup k (services m) = Some v -> status_of k m = Some (status v).
Proof. unfold status_of. now intros ->. Qed.

Lemma status_of_lookup k m st :
  status_of k m = Some st -> exists v, lookup k (services m) = Some v /\ status v = st.
Proof.
  unfold status_of. destruct (lookup k (services m)) as [v|]; simpl; [|discriminate].
  intros [= <-]. now exists v.
Qed.

Lemma transitions_set_status k st m v :
  lookup k (services m) = Some v ->
  transitions (set_status k st m) = transitions m ++ [(k, status v, st)].
Proof. intros Hk. unfold set_status. now rewrite Hk. Qed.

Lemma settled_status_of m :
  settled m <->
  forall k st, status_of k m = Some st -> st = STOPPED \/ st = RUNNING \/ st = ERROR.
Proof.
  unfold settled. split.
  - intros H k st Hst. apply status_of_lookup in Hst as (v & Hv & <-). eauto.
  - intros H k v Hv. apply (H k). now apply lookup_status_of.
Qed.

Lemma moved_intro k mid fin m v e1 e2 :
  lookup k (services m) = Some v ->
  moved k mid fin m
    (set_error k e2 (set_status k fin (set_error k e1 (set_status k mid m)))).
Proof.
  intros Hk. exists v. split; [exact Hk|].
  assert (H1 : status_of k (set_error k e1 (set_status k mid m)) = Some mid).
  { rewrite status_of_set_error, (status_of_set_status k k mid m v Hk).
    now rewrite String.eqb_refl. }
  apply status_of_lookup in H1 as (v1 & Hv1 & Hs1).
  split.
  - simpl. rewrite (transitions_set_status _ _ _ v1 Hv1). simpl.
    rewrite (transitions_set_status _ _ _ v Hk), Hs1, <- app_assoc. reflexivity.
  - intros k'. rewrite status_of_set_error, (status_of_set_status _ _ _ _ v1 Hv1).
    destruct (String.eqb k' k) eqn:E; [reflexivity|].
    now rewrite status_of_set_error, (status_of_set_status _ _ _ _ v Hk), E.
Qed.

Lemma set_error_twice k e1 e2 m :
  set_error k e2 (set_error k e1 m) = set_error k e2 m.
Proof.
  unfold set_error. simpl. f_equal.
  induction (services m) as [|[k' v] d IH]; simpl; [reflexivity|].
  destruct (String.eqb k k') eqn:E; simpl; rewrite E; [reflexivity|]. now rewrite IH.
Qed.

Lemma set_error_set_status k e st m :
  set_error k e (set_status k st m) = set_status k st (set_error k e m).
Proof.
  unfold set_error, set_status. simpl. rewrite lookup_update_same.
  destruct (lookup k (services m)) as [v|]; simpl; [|reflexivity].
  f_equal.
  induction (services m) as [|[k' v'] d IH]; simpl; [reflexivity|].
  destruct (String.eqb k k') eqn:E; simpl; rewrite E; [reflexivity|]. now rewrite IH.
Qed.

Ltac run_py :=
  unfold Py.exec, Py.bind, Py.try_except, Py.get, Py.modify, Py.ret, Py.raise, Py.call;
  simpl.

(** What [start_service] does to the manager. *)
Lemma start_service_cases k m :
  let m' := Py.exec (start_service k) m in
  (m' = m /\ (status_of k m = None \/ status_of k m = Some RUNNING)) \/
  (status_of k m <> Some RUNNING /\
   (moved k STARTING RUNNING m m' \/ moved k STARTING ERROR m m')).
Proof.
  unfold start_service. run_py.
  destruct (lookup k (services m)) as [v|] eqn:Hk; simpl;
    [|left; split; [reflexivity | left; unfold status_of; now rewrite Hk]].
  destruct (status_eqb (status v) RUNNING) eqn:Hr; simpl.
  { left. split; [reflexivity|]. right. rewrite (lookup_status_of _ _ _ Hk).
    destruct (status v); try discriminate; reflexivity. }
  right. split.
  { rewrite (lookup_status_of _ _ _ Hk). intros [= H]. rewrite H in Hr. discriminate. }
  assert (Hrun : moved k STARTING RUNNING m
                   (set_status k RUNNING (set_error k None (set_status k STARTING m)))).
  { pose proof (moved_intro k STARTING RUNNING m v None None Hk) as H.
    rewrite (set_error_set_status k None RUNNING), set_error_twice in H.
    exact H. }
  assert (Herr : forall e, moved k STARTING ERROR m
                   (set_error k (Some e)
                      (set_status k ERROR (set_error k None (set_status k STARTING m)))))
    by (intros e; exact (moved_intro k STARTING ERROR m v None (Some e) Hk)).
  destruct (service_instance v) as [i|]; simpl; [|right; apply Herr].
  assert (Hcall : forall (o : Py.result bool) s,
    s = set_error k None (set_status k STARTING m) ->
    let m' := snd (let (r, s') :=
                 (let (r0, s0) := Py.call o s in
                  match r0 with
                  | Py.Returned a =>
                      (if a
                       then fun s1 => (Py.Returned true, set_status k RUNNING s1)
                       else fun s1 => (Py.Returned false,
                              set_error k (Some "Failed to start"%string)
                                (set_status k ERROR s1))) s0
                  | Py.Raised e => (Py.Raised e, s0)
                  end) in
               match r with
               | Py.Returned a => (Py.Returned a, s')
               | Py.Raised e => (Py.Returned false, set_error k (Some e) (set_status k ERROR s'))
               end) in
    moved k STARTING RUNNING m m' \/ moved k STARTING ERROR m m').
  { intros o s ->. unfold Py.call. destruct o as [[|]|e]; simpl; auto. }
  unfold _start_camera_service, _start_vibration_service, _start_frying_service.
  destruct (String.eqb k "camera");
    [|destruct (String.eqb k "vibration"); [|destruct (String.eqb k "frying")]].
  - destruct (start_monitoring i) as [o|]; [apply (Hcall o); reflexivity|].
    destruct (start i) as [o|]; [apply (Hcall o); reflexivity|].
    apply (Hcall (Py.Returned false)); reflexivity.
  - destruct (start_monitoring i) as [o|]; [apply (Hcall o); reflexivity|].
    apply (Hcall (Py.Returned false)); reflexivity.
  - destruct (start_session i) as [o|]; [apply (Hcall o); reflexivity|].
    destruct (start i) as [o|]; [apply (Hcall o); reflexivity|].
    apply (Hcall (Py.Returned false)); reflexivity.
  - apply (Hcall (Py.Returned false)); reflexivity.
Qed.

Lemma moved_plain k mid fin m v :
  lookup k (services m) = Some v ->
  moved k mid fin m (set_status k fin (set_status k mid m)).
Proof.
  intros Hk. exists v. split; [exact Hk|].
  assert (H1 : status_of k (set_status k mid m) = Some mid)
    by (rewrite (status_of_set_status k k mid m v Hk); now rewrite String.eqb_refl).
  apply status_of_lookup in H1 as (v1 & Hv1 & Hs1).
  split.
  - rewrite (transitions_set_status _ _ _ v1 Hv1), (transitions_set_status _ _ _ v Hk),
      Hs1, <- app_assoc. reflexivity.
  - intros k'. rewrite (status_of_set_status _ _ _ _ v1 Hv1).
    destruct (String.eqb k' k) eqn:E; [reflexivity|].
    now rewrite (status_of_set_status _ _ _ _ v Hk), E.
Qed.

Lemma moved_set_error k mid fin m m' k0 e :
  moved k mid fin m m' -> moved k mid fin m (set_error k0 e m').
Proof.
  intros (v & Hk & Ht & Hs). exists v. split; [exact Hk|]. split; [exact Ht|].
  intros k'. rewrite status_of_set_error. apply Hs.
Qed.

(** What [stop_service] does to the manager. *)
Lemma stop_service_cases k m :
  let m' := Py.exec (stop_service k) m in
  (m' = m /\ (status_of k m = None \/ status_of k m = Some STOPPED)) \/
  (status_of k m <> Some STOPPED /\
   (moved k STOPPING STOPPED m m' \/ moved k STOPPING ERROR m m')).
Proof.
  unfold stop_service. run_py.
  destruct (lookup k (services m)) as [v|] eqn:Hk; simpl;
    [|left; split; [reflexivity | left; unfold status_of; now rewrite Hk]].
  destruct (status_eqb (status v) STOPPED) eqn:Hr; simpl.
  { left. split; [reflexivity|]. right. rewrite (lookup_status_of _ _ _ Hk).
    destruct (status v); try discriminate; reflexivity. }
  right. split.
  { rewrite (lookup_status_of _ _ _ Hk). intros [= H]. rewrite H in Hr. discriminate. }
  pose proof (moved_plain k STOPPING STOPPED m v Hk) as Hstop.
  assert (Herr : forall e, moved k STOPPING ERROR m
                   (set_error k (Some e) (set_status k ERROR (set_status k STOPPING m))))
    by (intros e; apply moved_set_error, (moved_plain k STOPPING ERROR m v Hk)).
  destruct (service_instance v) as [i|]; simpl; [|right; apply Herr].
  assert (Hcall : forall (o : Py.result unit) s,
    s = set_status k STOPPING m ->
    let m' := snd (let (r, s') :=
                 (let (r0, s0) := Py.call o s in
                  match r0 with
                  | Py.Returned _ => (Py.Returned tt, set_status k STOPPED s0)
                  | Py.Raised e => (Py.Raised e, s0)
                  end) in
               match r with
               | Py.Returned a => (Py.Returned a, s')
               | Py.Raised e => (Py.Returned tt, set_error k (Some e) (set_status k ERROR s'))
               end) in
    moved k STOPPING STOPPED m m' \/ moved k STOPPING ERROR m m').
  { intros o s ->. unfold Py.call. destruct o as [[]|e]; simpl; auto. }
  unfold _stop_camera_service, _stop_vibration_service, _stop_frying_service.
  destruct (String.eqb k "camera");
    [|destruct (String.eqb k "vibration"); [|destruct (String.eqb k "frying")]].
  - destruct (stop_monitoring i) as [o|]; [apply (Hcall o); reflexivity|].
    destruct (stop i) as [o|]; [apply (Hcall o); reflexivity|].
    destruct (cleanup i) as [o|]; [apply (Hcall o); reflexivity|].
    apply (Hcall (Py.Returned tt)); reflexivity.
  - destruct (stop_monitoring i) as [o|]; [apply (Hcall o); reflexivity|].
    apply (Hcall (Py.Returned tt)); reflexivity.
  - destruct (stop_session i) as [o|]; [apply (Hcall o); reflexivity|].
    destruct (stop i) as [o|]; [apply (Hcall o); reflexivity|].
    apply (Hcall (Py.Returned tt)); reflexivity.
  - apply (Hcall (Py.Returned tt)); reflexivity.
Qed.

Lemma moved_invariant k mid fin m m' :
  invariant m ->
  (forall a, status_of k m = Some a -> code_edge a mid = true) ->
  code_edge mid fin = true ->
  fin = STOPPED \/ fin = RUNNING \/ fin = ERROR ->
  moved k mid fin m m' -> invariant m'.
Proof.
  intros [Hset Hedges] Hfirst Hsecond Hfin (v & Hk & Ht & Hs). split.
  - apply settled_status_of. intros k' st. rewrite Hs.
    destruct (String.eqb k' k); [intros [= <-]; exact Hfin|].
    revert k' st. now apply settled_status_of.
  - unfold all_edges. rewrite Ht. apply Forall_app. split; [exact Hedges|].
    repeat constructor; simpl; [|exact Hsecond].
    apply Hfirst. now apply lookup_status_of.
Qed.

Lemma start_service_invariant k m :
  invariant m -> invariant (Py.exec (start_service k) m).
Proof.
  intros Hinv.
  destruct (start_service_cases k m) as [[Heq _] | [Hne [Hm | Hm]]];
    [rewrite Heq; exact Hinv
    |apply (moved_invariant k STARTING RUNNING m _ Hinv); auto
    |apply (moved_invariant k STARTING ERROR m _ Hinv); auto];
    intros a Ha; destruct Hinv as [Hset _];
    destruct (proj1 (settled_status_of m) Hset k a Ha) as [ -> | [ -> | -> ] ];
    try reflexivity; contradiction.
Qed.

Lemma stop_service_invariant k m :
  invariant m -> invariant (Py.exec (stop_service k) m).
Proof.
  intros Hinv.
  destruct (stop_service_cases k m) as [[Heq _] | [Hne [Hm | Hm]]];
    [rewrite Heq; exact Hinv
    |apply (moved_invariant k STOPPING STOPPED m _ Hinv); auto
    |apply (moved_invariant k STOPPING ERROR m _ Hinv); auto];
    intros a Ha; destruct Hinv as [Hset _];
    destruct (proj1 (settled_status_of m) Hset k a Ha) as [ -> | [ -> | -> ] ];
    try reflexivity; contradiction.
Qed.

Lemma start_each_invariant ids : forall success m,
  invariant m -> invariant (Py.exec (start_each ids success) m).
Proof.
  induction ids as [|k ids IH]; intros success m Hinv; [exact Hinv|].
  pose proof (start_service_invariant k m Hinv) as H.
  unfold Py.exec in *. simpl. unfold Py.bind at 1.
  destruct (start_service k m) as [[ok|e] m1]; simpl in *; [|exact H].
  now apply IH.
Qed.

Lemma stop_each_invariant ids : forall m,
  invariant m -> invariant (Py.exec (stop_each ids) m).
Proof.
  induction ids as [|k ids IH]; intros m Hinv; [exact Hinv|].
  pose proof (stop_service_invariant k m Hinv) as H.
  unfold Py.exec in *. simpl. unfold Py.bind at 1.
  destruct (stop_service k m) as [[ok|e] m1]; simpl in *; [|exact H].
  now apply IH.
Qed.

Lemma register_service_invariant k i m :
  invariant m -> invariant (register_service k i m).
Proof.
  intros [Hset Hedges]. unfold register_service.
  destruct (lookup k (services m)) as [v|] eqn:Hk; [|now split].
  split; [|exact Hedges].
  intros k' v'. simpl.
  destruct (String.eqb k' k) eqn:E.
  - apply String.eqb_eq in E. subst. rewrite lookup_update_same, Hk. simpl.
    intros [= <-]. simpl. now apply (Hset k).
  - apply String.eqb_neq in E. rewrite lookup_update_other by exact E. apply Hset.
Qed.

Lemma apply_operation_invariant m o : invariant m -> invariant (apply_operation m o).
Proof.
  intros Hinv. destruct o; simpl.
  - now apply register_service_invariant.
  - now apply start_service_invariant.
  - now apply stop_service_invariant.
  - unfold start_all_services, Py.exec, Py.bind, Py.get. now apply start_each_invariant.
  - unfold stop_all_services, Py.exec, Py.bind, Py.get. now apply stop_each_invariant.
Qed.

Lemma init_invariant : invariant init.
Proof.
  split; [|constructor].
  intros k v. simpl.
  repeat (destruct (String.eqb k _); [intros [= <-]; auto|]). discriminate.
Qed.

Lemma run_invariant ops : invariant (run ops).
Proof.
  unfold run. generalize init_invariant. generalize init.
  induction ops as [|o ops IH]; intros m Hinv; [exact Hinv|].
  simpl. apply IH. now apply apply_operation_invariant.
Qed.

(** C6, as stated, fails: [ERROR -> STARTING] is taken and is not a listed edge. *)
Lemma listed_edges_counterexample :
  transitions (run retry_after_failure) =
    [ ("camera"%string, STOPPED, STARTING); ("camera"%string, STARTING, ERROR);
      ("camera"%string, ERROR, STARTING); ("camera"%string, STARTING, ERROR) ] /\
  listed_edge ERROR STARTING = false /\
  ~ all_edges listed_edge (run retry_after_failure).
Proof.
  split; [reflexivity|]. split; [reflexivity|].
  unfold all_edges. intros H.
  apply Forall_forall with (x := ("camera"%string, ERROR, STARTING)) in H.
  - discriminate H.
  - vm_compute. auto.
Qed.

(** C6 (amended). For every sequence of ServiceManager operations each status
    assignment follows one of the edges STOPPED->STARTING->{RUNNING,ERROR},
    RUNNING->STOPPING->{STOPPED,ERROR}, ERROR->STARTING or ERROR->STOPPING;
    no record moves directly from STOPPED to RUNNING, and after every
    operation each record is STOPPED, RUNNING or ERROR. *)
Theorem status_transitions_follow_code_edges (ops : list operation) :
  all_edges code_edge (run ops) /\
  (forall k, ~ In (k, STOPPED, RUNNING) (transitions (run ops))) /\
  settled (run ops) /\
  (forall a b, code_edge a b = true <->
     listed_edge a b = true \/ (a = ERROR /\ (b = STARTING \/ b = STOPPING))).
Proof.
  destruct (run_invariant ops) as [Hset Hedges].
  split; [exact Hedges|]. split; [|split; [exact Hset|]].
  - intros k Hin. unfold all_edges in Hedges.
    rewrite Forall_forall in Hedges. specialize (Hedges _ Hin). discriminate Hedges.
  - intros a b. destruct a, b; simpl; split; intros H; auto; try discriminate;
      destruct H as [H | [H1 [H2 | H2]]]; try discriminate; reflexivity.
Qed.

(** *** The operations one by one: results, other services, messages *)

Lemma lookup_set_status k k' st m :
  lookup k' (services (set_status k st m)) =
  if String.eqb k' k then option_map (with_status st) (lookup k (services m))
  else lookup k' (services m).
Proof.
  unfold set_status. destruct (lookup k (services m)) as [v|] eqn:Hk; simpl.
  - destruct (String.eqb k' k) eqn:E.
    + apply String.eqb_eq in E. subst. now rewrite lookup_update_same, Hk.
    + apply String.eqb_neq in E. now rewrite lookup_update_other.
  - destruct (String.eqb k' k) eqn:E; [|reflexivity].
    apply String.eqb_eq in E. now subst.
Qed.

Lemma lookup_set_error k k' e m :
  lookup k' (services (set_error k e m)) =
  if String.eqb k' k then option_map (with_error e) (lookup k (services m))
  else lookup k' (services m).
Proof.
  unfold set_error. simpl. destruct (String.eqb k' k) eqn:E.
  - apply String.eqb_eq in E. subst. now rewrite lookup_update_same.
  - apply String.eqb_neq in E. now rewrite lookup_update_other.
Qed.

Lemma keys_set_status k st m : keys (services (set_status k st m)) = keys (services m).
Proof.
  unfold set_status. destruct (lookup k (services m)); [|reflexivity].
  simpl. apply keys_update.
Qed.

Lemma keys_set_error k e m : keys (services (set_error k e m)) = keys (services m).
Proof. unfold set_error. simpl. apply keys_update. Qed.

(** [start_service], result and final manager. *)
Lemma start_service_explicit k m :
  match lookup k (services m) with
  | None => start_service k m = (Py.Returned false, m)
  | Some v =>
      if status_eqb (status v) RUNNING
      then start_service k m = (Py.Returned true, m)
      else start_service k m = (Py.Returned true, set_status k RUNNING (starting k m)) \/
           exists e, start_service k m =
                     (Py.Returned false, set_error k (Some e) (set_status k ERROR (starting k m)))
  end.
Proof.
  unfold start_service, starting,
    _start_camera_service, _start_vibration_service, _start_frying_service.
  unfold Py.bind, Py.try_except, Py.get, Py.modify, Py.ret, Py.raise, Py.call.
  destruct (lookup k (services m)) as [v|]; [|reflexivity].
  destruct (status_eqb (status v) RUNNING); [reflexivity|].
  destruct (service_instance v) as [i|]; [|right; eexists; reflexivity].
  destruct (start_monitoring i) as [[[|]|?]|], (start i) as [[[|]|?]|],
    (start_session i) as [[[|]|?]|];
    (destruct (String.eqb k "camera");
     [|destruct (String.eqb k "vibration"); [|destruct (String.eqb k "frying")]]);
    simpl; solve [left; reflexivity | right; eexists; reflexivity].
Qed.

(** [stop_service], result and final manager. *)
Lemma stop_service_explicit k m :
  match lookup k (services m) with
  | None => stop_service k m = (Py.Returned tt, m)
  | Some v =>
      if status_eqb (status v) STOPPED
      then stop_service k m = (Py.Returned tt, m)
      else stop_service k m =
             (Py.Returned tt, set_status k STOPPED (set_status k STOPPING m)) \/
           exists e, stop_service k m =
                     (Py.Returned tt,
                      set_error k (Some e) (set_status k ERROR (set_status k STOPPING m)))
  end.
Proof.
  unfold stop_service,
    _stop_camera_service, _stop_vibration_service, _stop_frying_service.
  unfold Py.bind, Py.try_except, Py.get, Py.modify, Py.ret, Py.raise, Py.call.
  destruct (lookup k (services m)) as [v|]; [|reflexivity].
  destruct (status_eqb (status v) STOPPED); [reflexivity|].
  destruct (service_instance v) as [i|]; [|right; eexists; reflexivity].
  destruct (stop_monitoring i) as [[[]|?]|], (stop i) as [[[]|?]|],
    (stop_session i) as [[[]|?]|], (cleanup i) as [[[]|?]|];
    (destruct (String.eqb k "camera");
     [|destruct (String.eqb k "vibration"); [|destruct (String.eqb k "frying")]]);
    simpl; solve [left; reflexivity | right; eexists; reflexivity].
Qed.

Ltac lookups Hk :=
  repeat (rewrite lookup_set_status || rewrite lookup_set_error || rewrite String.eqb_refl);
  rewrite ?Hk; simpl.

Ltac others :=
  let k' := fresh "k'" in let Hne := fresh "Hne" in
  intros k' Hne; apply String.eqb_neq in Hne;
  repeat (rewrite lookup_set_status, Hne || rewrite lookup_set_error, Hne); reflexivity.

Ltac same_keys := rewrite ?keys_set_error, ?keys_set_status, ?keys_set_error, ?keys_set_status;
  reflexivity.

Lemma messages_consistent_update k m m' :
  (forall k', k' <> k -> lookup k' (services m') = lookup k' (services m)) ->
  (forall v', lookup k (services m') = Some v' ->
     (status v' = ERROR -> error_message v' <> None) /\
     (status v' = RUNNING -> error_message v' = None)) ->
  messages_consistent m -> messages_consistent m'.
Proof.
  intros Hother Hk Hm k' v' Hv'.
  destruct (String.eqb k' k) eqn:E.
  - apply String.eqb_eq in E. subst. now apply Hk.
  - apply String.eqb_neq in E. rewrite Hother in Hv' by exact E. now apply (Hm k').
Qed.

Lemma start_service_facts k m :
  exists b m',
    start_service k m = (Py.Returned b, m') /\
    keys (services m') = keys (services m) /\
    (forall k', k' <> k -> lookup k' (services m') = lookup k' (services m)) /\
    (b = true <-> status_of k m' = Some RUNNING) /\
    (lookup k (services m) = None -> m' = m) /\
    (lookup k (services m) <> None ->
     status_of k m' = Some RUNNING \/
     (b = false /\ exists v' e, lookup k (services m') = Some v' /\
                                status v' = ERROR /\ error_message v' = Some e)) /\
    (messages_consistent m -> messages_consistent m').
Proof.
  pose proof (start_service_explicit k m) as H. unfold status_of.
  destruct (lookup k (services m)) as [v|] eqn:Hk.
  - destruct (status_eqb (status v) RUNNING) eqn:Hr.
    + assert (status v = RUNNING) by (destruct (status v); (discriminate || reflexivity)).
      exists true, m. rewrite Hk. simpl.
      split; [exact H|]. split; [reflexivity|]. split; [reflexivity|].
      split; [split; congruence|]. split; [reflexivity|].
      split; [intros _; left; congruence | auto].
    + destruct H as [H | [e H]]; rewrite H; unfold starting.
      * exists true, (set_status k RUNNING (set_error k None (set_status k STARTING m))).
        split; [reflexivity|]. split; [same_keys|]. split; [others|].
        split; [lookups Hk; split; reflexivity|].
        split; [discriminate|].
        split; [intros _; left; lookups Hk; reflexivity|].
        apply messages_consistent_update with (k := k); [others|].
        lookups Hk. intros v' [= <-]. simpl. split; [discriminate | reflexivity].
      * exists false, (set_error k (Some e)
                         (set_status k ERROR (set_error k None (set_status k STARTING m)))).
        split; [reflexivity|]. split; [same_keys|]. split; [others|].
        split; [lookups Hk; split; discriminate|].
        split; [discriminate|].
        split.
        { intros _. right. split; [reflexivity|]. lookups Hk.
          eexists _, e. split; [reflexivity|]. split; reflexivity. }
        apply messages_consistent_update with (k := k); [others|].
        lookups Hk. intros v' [= <-]. simpl. split; discriminate.
  - exists false, m. rewrite Hk. simpl.
    split; [exact H|]. split; [reflexivity|]. split; [reflexivity|].
    split; [split; discriminate|]. split; [reflexivity|].
    split; [intros Hn; now elim Hn | auto].
Qed.

Lemma stop_service_facts k m :
  exists m',
    stop_service k m = (Py.Returned tt, m') /\
    keys (services m') = keys (services m) /\
    (forall k', k' <> k -> lookup k' (services m') = lookup k' (services m)) /\
    (lookup k (services m) = None -> m' = m) /\
    (lookup k (services m) <> None ->
     status_of k m' = Some STOPPED \/ status_of k m' = Some ERROR) /\
    (messages_consistent m -> messages_consistent m').
Proof.
  pose proof (stop_service_explicit k m) as H. unfold status_of.
  destruct (lookup k (services m)) as [v|] eqn:Hk.
  - destruct (status_eqb (status v) STOPPED) eqn:Hr.
    + assert (status v = STOPPED) by (destruct (status v); (discriminate || reflexivity)).
      exists m. rewrite Hk. simpl.
      split; [exact H|]. split; [reflexivity|]. split; [reflexivity|].
      split; [reflexivity|]. split; [intros _; left; congruence | auto].
    + destruct H as [H | [e H]]; rewrite H.
      * exists (set_status k STOPPED (set_status k STOPPING m)).
        split; [reflexivity|]. split; [same_keys|]. split; [others|].
        split; [discriminate|].
        split; [intros _; left; lookups Hk; reflexivity|].
        apply messages_consistent_update with (k := k); [others|].
        lookups Hk. intros v' [= <-]. simpl. split; discriminate.
      * exists (set_error k (Some e) (set_status k ERROR (set_status k STOPPING m))).
        split; [reflexivity|]. split; [same_keys|]. split; [others|].
        split; [discriminate|].
        split; [intros _; right; lookups Hk; reflexivity|].
        apply messages_consistent_update with (k := k); [others|].
        lookups Hk. intros v' [= <-]. simpl. split; discriminate.
  - exists m. rewrite Hk. simpl.
    split; [exact H|]. split; [reflexivity|]. split; [reflexivity|].
    split; [reflexivity|]. split; [intros Hn; now elim Hn | auto].
Qed.

(** *** Managers reached from [__init__] *)

Lemma run_snoc ops o : run (ops ++ [o]) = apply_operation (run ops) o.
Proof. unfold run. now rewrite fold_left_app. Qed.

Lemma start_each_preserves (P : manager -> Prop) :
  (forall k m, P m -> P (Py.exec (start_service k) m)) ->
  forall ids success m, P m -> P (Py.exec (start_each ids success) m).
Proof.
  intros Hs. induction ids as [|k ids IH]; intros success m Hm; [exact Hm|].
  pose proof (Hs k m Hm) as H.
  unfold Py.exec in *. simpl. unfold Py.bind at 1.
  destruct (start_service k m) as [[ok|e] m1]; simpl in *; [|exact H].
  now apply IH.
Qed.

Lemma stop_each_preserves (P : manager -> Prop) :
  (forall k m, P m -> P (Py.exec (stop_service k) m)) ->
  forall ids m, P m -> P (Py.exec (stop_each ids) m).
Proof.
  intros Hs. induction ids as [|k ids IH]; intros m Hm; [exact Hm|].
  pose proof (Hs k m Hm) as H.
  unfold Py.exec in *. simpl. unfold Py.bind at 1.
  destruct (stop_service k m) as [[ok|e] m1]; simpl in *; [|exact H].
  now apply IH.
Qed.

Lemma run_preserves (P : manager -> Prop) :
  P init ->
  (forall k i m, P m -> P (register_service k i m)) ->
  (forall k m, P m -> P (Py.exec (start_service k) m)) ->
  (forall k m, P m -> P (Py.exec (stop_service k) m)) ->
  forall ops, P (run ops).
Proof.
  intros H0 Hr Hs Ht ops. induction ops as [|o ops IH] using rev_ind; [exact H0|].
  rewrite run_snoc. destruct o; simpl; auto.
  - change (P (Py.exec (start_each (keys (services (run ops))) true) (run ops))).
    now apply start_each_preserves.
  - change (P (Py.exec (stop_each (keys (services (run ops)))) (run ops))).
    now apply stop_each_preserves.
Qed.

Lemma exec_start_service k m b m' :
  start_service k m = (Py.Returned b, m') -> Py.exec (start_service k) m = m'.
Proof. unfold Py.exec. now intros ->. Qed.

Lemma exec_stop_service k m m' :
  stop_service k m = (Py.Returned tt, m') -> Py.exec (stop_service k) m = m'.
Proof. unfold Py.exec. now intros ->. Qed.

Lemma labels_update k f d :
  (forall v, name (f v) = name v) -> labels (update k f d) = labels d.
Proof.
  intros Hf. unfold labels. induction d as [|[k' v] d IH]; simpl; [reflexivity|].
  destruct (String.eqb k k'); simpl; [now rewrite Hf | now rewrite IH].
Qed.

Lemma labels_set_status k st m : labels (services (set_status k st m)) = labels (services m).
Proof.
  unfold set_status. destruct (lookup k (services m)); [|reflexivity].
  simpl. now apply labels_update.
Qed.

Lemma labels_set_error k e m : labels (services (set_error k e m)) = labels (services m).
Proof. unfold set_error. simpl. now apply labels_update. Qed.

Lemma labels_start_service k m :
  labels (services (Py.exec (start_service k) m)) = labels (services m).
Proof.
  pose proof (start_service_explicit k m) as H. unfold Py.exec.
  destruct (lookup k (services m)) as [v|]; [|now rewrite H].
  destruct (status_eqb (status v) RUNNING); [now rewrite H|].
  destruct H as [H | [e H]]; rewrite H; cbn [snd]; unfold starting;
    repeat (rewrite labels_set_error || rewrite labels_set_status); reflexivity.
Qed.

Lemma labels_stop_service k m :
  labels (services (Py.exec (stop_service k) m)) = labels (services m).
Proof.
  pose proof (stop_service_explicit k m) as H. unfold Py.exec.
  destruct (lookup k (services m)) as [v|]; [|now rewrite H].
  destruct (status_eqb (status v) STOPPED); [now rewrite H|].
  destruct H as [H | [e H]]; rewrite H; cbn [snd];
    repeat (rewrite labels_set_error || rewrite labels_set_status); reflexivity.
Qed.

Lemma labels_register_service k i m :
  labels (services (register_service k i m)) = labels (services m).
Proof.
  unfold register_service. destruct (lookup k (services m)); [|reflexivity].
  simpl. now apply labels_update.
Qed.

Lemma labels_run ops : labels (services (run ops)) = labels (services init).
Proof.
  apply (run_preserves (fun m => labels (services m) = labels (services init)));
    [reflexivity| | |].
  - intros k i m <-. apply labels_register_service.
  - intros k m <-. apply labels_start_service.
  - intros k m <-. apply labels_stop_service.
Qed.

Lemma keys_labels d : keys d = map fst (labels d).
Proof. unfold keys, labels. rewrite map_map. reflexivity. Qed.

Lemma keys_run ops : keys (services (run ops)) = service_ids.
Proof. rewrite keys_labels, labels_run. reflexivity. Qed.

Lemma service_ids_NoDup : NoDup service_ids.
Proof.
  unfold service_ids. repeat constructor; simpl; intuition discriminate.
Qed.

Lemma lookup_None_keys k d : lookup k d = None <-> ~ In k (keys d).
Proof.
  induction d as [|[k' v] d IH]; simpl; [tauto|].
  destruct (String.eqb k k') eqn:E.
  - apply String.eqb_eq in E. subst. split; [discriminate | intros H; elim H; now left].
  - apply String.eqb_neq in E. rewrite IH. split.
    + intros H [H'|H']; [now subst | contradiction].
    + tauto.
Qed.

Lemma lookup_keys k d : In k (keys d) -> lookup k d <> None.
Proof. intros Hin Hn. now apply lookup_None_keys in Hn. Qed.

Lemma lookup_Some_keys k d v : lookup k d = Some v -> In k (keys d).
Proof.
  intros Hk. destruct (in_dec string_dec k (keys d)) as [H|H]; [exact H|].
  apply lookup_None_keys in H. congruence.
Qed.

Lemma In_lookup k v d : NoDup (keys d) -> In (k, v) d -> lookup k d = Some v.
Proof.
  induction d as [|[k' v'] d IH]; simpl; [tauto|].
  intros Hnd [[= -> ->]|Hin].
  - now rewrite String.eqb_refl.
  - inversion Hnd as [|? ? Hnotin Hnd']; subst.
    destruct (String.eqb k k') eqn:E; [|now apply IH].
    apply String.eqb_eq in E. subst. elim Hnotin.
    change (In (fst (k', v)) (map fst d)). now apply in_map.
Qed.

Lemma lookup_In k v d : lookup k d = Some v -> In (k, v) d.
Proof.
  induction d as [|[k' v'] d IH]; simpl; [discriminate|].
  destruct (String.eqb k k') eqn:E; [|auto].
  apply String.eqb_eq in E. intros [= ->]. subst. now left.
Qed.

Lemma is_any_service_running_spec m :
  NoDup (keys (services m)) ->
  (is_any_service_running m = true <-> exists k, status_of k m = Some RUNNING).
Proof.
  intros Hnd. unfold is_any_service_running. rewrite existsb_exists. split.
  - intros ([k v] & Hin & Hst). exists k. unfold status_of.
    rewrite (In_lookup k v _ Hnd Hin). simpl in *.
    destruct (status v); (discriminate || reflexivity).
  - intros (k & Hk). apply status_of_lookup in Hk as (v & Hv & Hst).
    exists (k, v). split; [now apply lookup_In|]. simpl. now rewrite Hst.
Qed.

(** *** The loops over all services *)

Lemma start_each_facts ids : forall success m,
  NoDup ids -> incl ids (keys (services m)) ->
  exists b m',
    start_each ids success m = (Py.Returned b, m') /\
    keys (services m') = keys (services m) /\
    (forall k', ~ In k' ids -> lookup k' (services m') = lookup k' (services m)) /\
    (b = true <-> success = true /\ forall k, In k ids -> status_of k m' = Some RUNNING) /\
    (forall k, In k ids -> status_of k m' = Some RUNNING \/ status_of k m' = Some ERROR).
Proof.
  induction ids as [|k ids IH]; intros success m Hnd Hin.
  - exists success, m. simpl. unfold Py.ret.
    split; [reflexivity|]. split; [reflexivity|]. split; [reflexivity|].
    split; [|intros k []]. split; [intros ->; split; [reflexivity | intros k []] | tauto].
  - inversion Hnd as [|? ? Hnotin Hnd']; subst.
    destruct (start_service_facts k m) as (b1 & m1 & H1 & Hkeys1 & Hoth1 & Hb1 & _ & Hfin1 & _).
    assert (Hin1 : incl ids (keys (services m1))).
    { rewrite Hkeys1. intros x Hx. apply Hin. now right. }
    destruct (IH (if negb b1 then false else success) m1 Hnd' Hin1)
      as (b & m' & H & Hkeys & Hoth & Hb & Hfin).
    exists b, m'. simpl. unfold Py.bind at 1. rewrite H1.
    split; [exact H|]. split; [congruence|].
    assert (Hk : lookup k (services m') = lookup k (services m1)) by now apply Hoth.
    assert (Hsk : status_of k m' = status_of k m1) by (unfold status_of; now rewrite Hk).
    split; [|split].
    + intros k' Hk'. rewrite Hoth by (intros Hx; apply Hk'; now right).
      apply Hoth1. intros ->. apply Hk'. now left.
    + rewrite Hb. split.
      * intros [Hs Hall]. destruct b1; simpl in Hs; [|discriminate].
        split; [exact Hs|]. intros x [<-|Hx]; [|now apply Hall].
        rewrite Hsk. now apply Hb1.
      * intros [Hs Hall].
        assert (b1 = true) by (apply Hb1; rewrite <- Hsk; apply Hall; now left).
        subst b1. simpl. split; [exact Hs|]. intros x Hx. apply Hall. now right.
    + intros x [<-|Hx]; [|now apply Hfin].
      rewrite Hsk.
      destruct Hfin1 as [Hr | (_ & v' & e & Hv' & Hst & _)].
      * apply lookup_keys, Hin. now left.
      * now left.
      * right. unfold status_of. now rewrite Hv', <- Hst.
Qed.

Lemma stop_each_facts ids : forall m,
  incl ids (keys (services m)) ->
  exists m',
    stop_each ids m = (Py.Returned tt, m') /\
    keys (services m') = keys (services m) /\
    (forall k', ~ In k' ids -> lookup k' (services m') = lookup k' (services m)) /\
    (forall k, In k ids -> status_of k m' = Some STOPPED \/ status_of k m' = Some ERROR).
Proof.
  induction ids as [|k ids IH]; intros m Hin.
  - exists m. simpl. unfold Py.ret.
    split; [reflexivity|]. split; [reflexivity|]. split; [reflexivity | intros k []].
  - destruct (stop_service_facts k m) as (m1 & H1 & Hkeys1 & Hoth1 & _ & Hfin1 & _).
    assert (Hin1 : incl ids (keys (services m1))).
    { rewrite Hkeys1. intros x Hx. apply Hin. now right. }
    destruct (IH m1 Hin1) as (m' & H & Hkeys & Hoth & Hfin).
    exists m'. simpl. unfold Py.bind at 1. rewrite H1.
    split; [exact H|]. split; [congruence|]. split.
    + intros k' Hk'. rewrite Hoth by (intros Hx; apply Hk'; now right).
      apply Hoth1. intros ->. apply Hk'. now left.
    + intros x [<-|Hx]; [|now apply Hfin].
      destruct (in_dec string_dec k ids) as [Hk|Hk]; [now apply Hfin|].
      unfold status_of. rewrite (Hoth k Hk). apply Hfin1.
      apply lookup_keys, Hin. now left.
Qed.

Lemma messages_consistent_run ops : messages_consistent (run ops).
Proof.
  apply (run_preserves messages_consistent).
  - intros k v. simpl.
    repeat (destruct (String.eqb k _); [intros [= <-]; simpl; split; congruence|]).
    discriminate.
  - intros k i m Hm. unfold register_service.
    destruct (lookup k (services m)) as [v|] eqn:Hk; [|exact Hm].
    apply messages_consistent_update with (k := k) (m := m); [| |exact Hm].
    + intros k' Hne. simpl. now apply lookup_update_other.
    + simpl. rewrite lookup_update_same, Hk. simpl. intros v' [= <-]. simpl. now apply (Hm k).
  - intros k m Hm.
    destruct (start_service_facts k m) as (b & m' & H & _ & _ & _ & _ & _ & Hc).
    rewrite (exec_start_service _ _ _ _ H). auto.
  - intros k m Hm.
    destruct (stop_service_facts k m) as (m' & H & _ & _ & _ & _ & Hc).
    rewrite (exec_stop_service _ _ _ H). auto.
Qed.

(** *** Properties of the single operations *)

(** X1. [start_service] never raises, whatever the service object does: it
    returns a boolean, which is [True] exactly when the record of the service
    is [RUNNING] afterwards. No other record is touched, and an unknown id
    gives [False] and changes nothing. *)
Theorem start_service_outcome k m :
  exists b m',
    start_service k m = (Py.Returned b, m') /\
    (b = true <-> status_of k m' = Some RUNNING) /\
    (forall k', k' <> k -> lookup k' (services m') = lookup k' (services m)) /\
    (lookup k (services m) = None -> b = false /\ m' = m).
Proof.
  destruct (start_service_facts k m) as (b & m' & H & _ & Hoth & Hb & Hnone & _).
  exists b, m'. split; [exact H|]. split; [exact Hb|]. split; [exact Hoth|].
  intros Hk. pose proof (Hnone Hk) as ->. split; [|reflexivity].
  destruct b; [|reflexivity].
  assert (Hs : status_of k m = Some RUNNING) by now apply Hb.
  unfold status_of in Hs. rewrite Hk in Hs. discriminate.
Qed.

(** X2. A start that succeeded is not repeated: once [start_service] has
    returned [True], a second call returns [True] again and leaves the manager
    as it is, without a status assignment. The result does not depend on the
    service object: it is the same whatever instance has been registered for
    the service in the meantime, also one whose start method fails or
    raises. *)
Theorem start_service_idempotent k m m' :
  start_service k m = (Py.Returned true, m') ->
  start_service k m' = (Py.Returned true, m') /\
  transitions (Py.exec (start_service k) m') = transitions m' /\
  forall i, start_service k (register_service k i m') =
            (Py.Returned true, register_service k i m').
Proof.
  intros H.
  destruct (start_service_facts k m) as (b & m0 & H0 & _ & _ & Hb & _).
  rewrite H in H0. injection H0 as <- <-.
  assert (Hs : status_of k m' = Some RUNNING) by now apply Hb.
  apply status_of_lookup in Hs as (v & Hv & Hst).
  pose proof (start_service_explicit k m') as He. rewrite Hv, Hst in He. simpl in He.
  split; [exact He|]. split; [unfold Py.exec; now rewrite He|].
  intros i.
  pose proof (start_service_explicit k (register_service k i m')) as Hi.
  unfold register_service in *. rewrite Hv in *. simpl in Hi.
  rewrite lookup_update_same, Hv in Hi. simpl in Hi. rewrite Hst in Hi. exact Hi.
Qed.

(** The camera started, then an instance registered whose start fails: a
    further start still returns [True]. *)
Lemma start_service_idempotent_witness :
  start_service "camera" (Py.exec (start_service "camera") with_camera) =
    (Py.Returned true, Py.exec (start_service "camera") with_camera) /\
  start_service "camera"
    (register_service "camera" (Some camera_that_fails_to_start)
       (Py.exec (start_service "camera") with_camera)) =
    (Py.Returned true,
     register_service "camera" (Some camera_that_fails_to_start)
       (Py.exec (start_service "camera") with_camera)).
Proof.
  destruct (start_service_idempotent "camera" with_camera
              (Py.exec (start_service "camera") with_camera) eq_refl) as (H1 & _ & H3).
  split; [exact H1 | apply H3].
Defined.

(** X3. A start of a known service that returns [False] leaves its record in
    [ERROR] with an error message (the text of the exception, or
    "Failed to start"). *)
Theorem failed_start_records_error k m m' :
  lookup k (services m) <> None ->
  start_service k m = (Py.Returned false, m') ->
  exists v' e, lookup k (services m') = Some v' /\
               status v' = ERROR /\ error_message v' = Some e.
Proof.
  intros Hk H.
  destruct (start_service_facts k m) as (b & m0 & H0 & _ & _ & Hb & _ & Hfin & _).
  rewrite H in H0. injection H0 as <- <-.
  destruct (Hfin Hk) as [Hr | (_ & Hv)]; [|exact Hv].
  apply Hb in Hr. discriminate.
Qed.

Lemma failed_start_records_error_witness :
  exists v' e, lookup "camera" (services (Py.exec (start_service "camera") init)) = Some v' /\
               status v' = ERROR /\ error_message v' = Some e.
Proof.
  apply (failed_start_records_error "camera" init); [discriminate | reflexivity].
Defined.

(** X4. A service whose instance is [None] cannot be started or stopped:
    unless it is already [RUNNING], a start returns [False] and leaves the
    record in [ERROR] with the message "Service instance not registered";
    unless it is already [STOPPED], a stop does the same, so such a service
    is not brought back to [STOPPED] by stopping it. *)
Theorem unregistered_instance_errors k m v :
  lookup k (services m) = Some v -> service_instance v = None ->
  (status v <> RUNNING ->
   exists m', start_service k m = (Py.Returned false, m') /\
     lookup k (services m') =
       Some (mk_service (name v) ERROR None (Some "Service instance not registered"%string))) /\
  (status v <> STOPPED ->
   exists m', stop_service k m = (Py.Returned tt, m') /\
     lookup k (services m') =
       Some (mk_service (name v) ERROR None (Some "Service instance not registered"%string))).
Proof.
  intros Hk Hi. split; intros Hst.
  - unfold start_service, Py.bind, Py.try_except, Py.get, Py.modify, Py.ret, Py.raise.
    rewrite Hk, Hi.
    destruct (status_eqb (status v) RUNNING) eqn:E;
      [destruct (status v); (discriminate || now elim Hst)|].
    eexists. split; [reflexivity|]. lookups Hk.
    unfold with_status, with_error. simpl. now rewrite Hi.
  - unfold stop_service, Py.bind, Py.try_except, Py.get, Py.modify, Py.ret, Py.raise.
    rewrite Hk, Hi.
    destruct (status_eqb (status v) STOPPED) eqn:E;
      [destruct (status v); (discriminate || now elim Hst)|].
    eexists. split; [reflexivity|]. lookups Hk.
    unfold with_status, with_error. simpl. now rewrite Hi.
Qed.

Lemma unregistered_instance_errors_witness :
  exists m', stop_service "camera" (run [StartService "camera"]) = (Py.Returned tt, m') /\
    lookup "camera" (services m') =
      Some (mk_service "Camera Monitoring" ERROR None
              (Some "Service instance not registered"%string)).
Proof.
  refine (proj2 (unregistered_instance_errors "camera" (run [StartService "camera"])
                   (mk_service "Camera Monitoring" ERROR None
                      (Some "Service instance not registered"%string))
                   eq_refl eq_refl) _).
  discriminate.
Defined.

(** X5. [stop_service] never raises either: an exception of the service's
    stop method is caught. Afterwards a known service is [STOPPED] or
    [ERROR], never [RUNNING]; the other records are untouched and an unknown
    id changes nothing. *)
Theorem stop_service_outcome k m :
  exists m',
    stop_service k m = (Py.Returned tt, m') /\
    (lookup k (services m) <> None ->
     status_of k m' = Some STOPPED \/ status_of k m' = Some ERROR) /\
    (forall k', k' <> k -> lookup k' (services m') = lookup k' (services m)) /\
    (lookup k (services m) = None -> m' = m).
Proof.
  destruct (stop_service_facts k m) as (m' & H & _ & Hoth & Hnone & Hfin & _).
  exists m'. auto.
Qed.

(** *** Properties of the managers reached from [__init__] *)

(** X6. After [stop_all_services], on any manager reached from [__init__] by
    the public operations, no service is running:
    [is_any_service_running] is [False], and every record is [STOPPED] or
    [ERROR]. The call itself never raises. *)
Theorem stop_all_services_leaves_none_running ops :
  exists m',
    stop_all_services (run ops) = (Py.Returned tt, m') /\
    is_any_service_running m' = false /\
    forall k v, lookup k (services m') = Some v -> status v = STOPPED \/ status v = ERROR.
Proof.
  destruct (stop_each_facts (keys (services (run ops))) (run ops) (incl_refl _))
    as (m' & H & Hkeys & _ & Hfin).
  exists m'. split; [exact H|].
  assert (Hall : forall k v, lookup k (services m') = Some v ->
                             status v = STOPPED \/ status v = ERROR).
  { intros k v Hv.
    assert (Hin : In k (keys (services (run ops))))
      by (rewrite <- Hkeys; now apply lookup_Some_keys with v).
    destruct (Hfin k Hin) as [Hs|Hs]; unfold status_of in Hs; rewrite Hv in Hs;
      injection Hs as Hs; auto. }
  split; [|exact Hall].
  destruct (is_any_service_running m') eqn:E; [|reflexivity].
  apply is_any_service_running_spec in E as (k & Hk).
  - apply status_of_lookup in Hk as (v & Hv & Hst).
    destruct (Hall k v Hv); congruence.
  - rewrite Hkeys, keys_run. apply service_ids_NoDup.
Qed.

(** X7. [start_all_services] attempts every service, also after one of them
    failed: on a manager reached from [__init__] it never raises, every
    record is [RUNNING] or [ERROR] afterwards, and the result is [True]
    exactly when all of them are [RUNNING]. *)
Theorem start_all_services_result ops :
  exists b m',
    start_all_services (run ops) = (Py.Returned b, m') /\
    (forall k v, lookup k (services m') = Some v -> status v = RUNNING \/ status v = ERROR) /\
    (b = true <-> forall k v, lookup k (services m') = Some v -> status v = RUNNING).
Proof.
  assert (Hnd : NoDup (keys (services (run ops))))
    by (rewrite keys_run; apply service_ids_NoDup).
  destruct (start_each_facts (keys (services (run ops))) true (run ops) Hnd (incl_refl _))
    as (b & m' & H & Hkeys & _ & Hb & Hfin).
  exists b, m'. split; [exact H|].
  assert (Hin : forall k v, lookup k (services m') = Some v ->
                            In k (keys (services (run ops))))
    by (intros k v Hv; rewrite <- Hkeys; now apply lookup_Some_keys with v).
  split.
  - intros k v Hv.
    destruct (Hfin k (Hin k v Hv)) as [Hs|Hs]; unfold status_of in Hs; rewrite Hv in Hs;
      injection Hs as Hs; auto.
  - rewrite Hb. split.
    + intros [_ Hall] k v Hv. pose proof (Hall k (Hin k v Hv)) as Hs.
      unfold status_of in Hs. rewrite Hv in Hs. now injection Hs.
    + intros Hall. split; [reflexivity|]. intros k Hk.
      rewrite <- Hkeys in Hk. apply lookup_keys in Hk.
      unfold status_of. destruct (lookup k (services m')) as [v|] eqn:Hv; [|now elim Hk].
      simpl. f_equal. now apply (Hall k).
Qed.

(** X8. In every manager reached from [__init__], a record in [ERROR]
    carries an error message and a record in [RUNNING] carries none. The
    message is cleared by the next start only: after a failed start and a
    successful stop the record is [STOPPED] and still holds
    "Failed to start". *)
Theorem error_messages_follow_status :
  (forall ops, messages_consistent (run ops)) /\
  lookup "camera" (services (run fail_then_stop)) =
    Some (mk_service "Camera Monitoring" STOPPED (Some camera_that_fails_to_start)
            (Some "Failed to start"%string)).
Proof. split; [exact messages_consistent_run | reflexivity]. Qed.

(** X9. The set of services is fixed: whatever is registered, started or
    stopped, [get_all_statuses] lists the camera, vibration and frying
    services, in this order and under their display names, and each reported
    status is "stopped", "running" or "error". *)
Theorem get_all_statuses_lists_three_services ops :
  exists c v f,
    get_all_statuses (run ops) =
      [ Some (mk_status_entry "camera" "Camera Monitoring"
                (status_value (status c)) (error_message c));
        Some (mk_status_entry "vibration" "Vibration Monitoring"
                (status_value (status v)) (error_message v));
        Some (mk_status_entry "frying" "Frying AI Monitoring"
                (status_value (status f)) (error_message f)) ] /\
    services (run ops) = [("camera", c); ("vibration", v); ("frying", f)]%string /\
    Forall (fun r => In (status_value (status r)) ["stopped"; "running"; "error"]%string)
      [c; v; f].
Proof.
  pose proof (labels_run ops) as Hl.
  pose proof (proj1 (run_invariant ops)) as Hset. unfold settled in Hset.
  unfold get_all_statuses, get_service_status.
  destruct (services (run ops)) as [|[k1 c] [|[k2 v] [|[k3 f] [|? ?]]]]; try discriminate.
  simpl in Hl. injection Hl as -> Hc -> Hv -> Hf.
  exists c, v, f. simpl. rewrite Hc, Hv, Hf.
  split; [reflexivity|]. split; [reflexivity|].
  assert (H : forall k r, lookup k [("camera", c); ("vibration", v); ("frying", f)]%string = Some r ->
                          In (status_value (status r)) ["stopped"; "running"; "error"]%string).
  { intros k r Hr. destruct (Hset k r Hr) as [-> | [-> | ->]]; simpl; auto. }
  apply Forall_cons; [apply (H "camera"%string); reflexivity|].
  apply Forall_cons; [apply (H "vibration"%string); reflexivity|].
  apply Forall_cons; [apply (H "frying"%string); reflexivity|].
  apply Forall_nil.
Qed.

End ServiceManagerFacts.

Module DetectionGateFacts.

Import DetectionGate.

Arguments second_us : simpl never.

Arguments minute_us : simpl never.

Arguments day_us : simpl never.

Arguments timedelta_minutes : simpl never.

Arguments is_daytime_mode : simpl never.

Arguments motion : simpl never.

Lemma trace_app cfg ticks1 : forall s ticks2,
  trace cfg s (ticks1 ++ ticks2) =
  trace cfg s ticks1 ++ trace cfg (final cfg s ticks1) ticks2.
Proof.
  induction ticks1 as [|t ticks1 IH]; intros s ticks2; simpl; [reflexivity|].
  destruct (update_auto_system cfg t s) as [s' acts]. simpl. now rewrite IH.
Qed.

Lemma final_app cfg ticks1 : forall s ticks2,
  final cfg s (ticks1 ++ ticks2) = final cfg (final cfg s ticks1) ticks2.
Proof. induction ticks1 as [|t ticks1 IH]; intros s ticks2; simpl; auto. Qed.

(** An event of a trace comes from a tick of the run, in the state the
    earlier ticks led to. *)
Lemma trace_split cfg ticks : forall s pre e post,
  trace cfg s ticks = pre ++ e :: post ->
  exists ticks1 t ticks2,
    ticks = ticks1 ++ t :: ticks2 /\
    pre = trace cfg s ticks1 /\
    e = mk_event (final cfg s ticks1) t
          (snd (update_auto_system cfg t (final cfg s ticks1))) /\
    post = trace cfg (final cfg s (ticks1 ++ [t])) ticks2.
Proof.
  induction ticks as [|t ticks IH]; intros s pre e post H; simpl in H.
  - destruct pre; discriminate.
  - destruct (update_auto_system cfg t s) as [s' acts] eqn:Hu.
    destruct pre as [|e0 pre]; simpl in H; injection H as He Hrest.
    + exists [], t, ticks. simpl. rewrite Hu. simpl. repeat split; congruence.
    + destruct (IH _ _ _ _ Hrest) as (ticks1 & t1 & ticks2 & -> & -> & -> & ->).
      exists (t :: ticks1), t1, ticks2. simpl. rewrite Hu. simpl.
      repeat split; congruence.
Qed.

Lemma enter_mode_entered cfg t s : enter_mode cfg t s = entered cfg t s.
Proof.
  destruct s as [on hold nca dl off prev last idx skip].
  unfold enter_mode, entered.
  destruct (is_daytime_mode cfg (now t)); destruct prev as [[|]|]; reflexivity.
Qed.

Ltac unfold_step :=
  unfold update_auto_system; rewrite ?enter_mode_entered;
  unfold entered, set_prev_daytime, process_day_mode, process_night_mode.

Lemma day_step cfg t s :
  frame_ok t = true -> is_daytime_mode cfg (now t) = true ->
  let s' := fst (update_auto_system cfg t s) in
  let acts := snd (update_auto_system cfg t s) in
  prev_daytime s' = Some true /\
  (latched s -> acts = [] /\ on_triggered s' = true) /\
  (acts = [] \/ (acts = [PowerOn] /\ on_triggered s' = true)).
Proof.
  intros Hok Hday. unfold latched.
  destruct s as [on hold nca dl off prev last idx skip].
  unfold_step. rewrite Hok, Hday. simpl.
  destruct prev as [[|]|]; simpl;
    destruct (skip + 1 <? 3); simpl;
    try (destruct (person t); simpl);
    try (destruct hold as [h|]; simpl);
    try (destruct (DETECTION_HOLD_SEC cfg * second_us <=? now t - h); simpl);
    try (destruct on; simpl);
    intuition (try discriminate; try congruence).
Qed.

Lemma no_frame_step cfg t s :
  frame_ok t = false -> update_auto_system cfg t s = (s, []).
Proof. intros H. unfold update_auto_system. now rewrite H. Qed.

Lemma emitted_cons a e evs :
  emitted a (e :: evs) =
  (List.length (filter (action_eqb a) (actions e)) + emitted a evs)%nat.
Proof.
  unfold emitted. simpl. now rewrite filter_app, length_app.
Qed.

Lemma power_on_once cfg ticks : forall s,
  day_interval cfg ticks ->
  (emitted PowerOn (trace cfg s ticks) <= 1)%nat /\
  (latched s -> emitted PowerOn (trace cfg s ticks) = 0%nat).
Proof.
  induction ticks as [|t ticks IH]; intros s Hday; [simpl; split; auto|].
  inversion Hday as [|? ? Ht Hrest]; subst.
  simpl. destruct (update_auto_system cfg t s) as [s' acts] eqn:Hu.
  rewrite emitted_cons. simpl.
  destruct (frame_ok t) eqn:Hok.
  - pose proof (day_step cfg t s Hok (Ht eq_refl)) as (Hprev & Hl & Hacts).
    rewrite Hu in Hprev, Hl, Hacts. simpl in *.
    destruct (IH s' Hrest) as [IH1 IH2]. split.
    + destruct Hacts as [-> | [-> Hon]]; simpl; [exact IH1|].
      rewrite IH2; [lia|]. split; [exact Hon | congruence].
    + intros Hlat. destruct (Hl Hlat) as [-> Hon]. simpl.
      apply IH2. split; [exact Hon | congruence].
  - rewrite (no_frame_step cfg t s Hok) in Hu. injection Hu as <- <-.
    simpl. apply IH. exact Hrest.
Qed.

Lemma held_keep cfg t0 h e :
  held cfg t0 h -> keeps_hold cfg e = true -> held cfg t0 (h ++ [e]).
Proof.
  intros (pre & e0 & mid & -> & Hseen & Ht0 & Hmid) He.
  exists pre, e0, (mid ++ [e]). rewrite <- app_assoc. simpl.
  repeat split; auto. rewrite forallb_app, Hmid. simpl. now rewrite He.
Qed.

Lemma held_start cfg h e :
  person_seen cfg e = true -> held cfg (now (input e)) (h ++ [e]).
Proof. intros He. exists h, e, []. repeat split; auto. Qed.

Lemma hold_after_step cfg t s :
  let s' := fst (update_auto_system cfg t s) in
  let e := mk_event s t (snd (update_auto_system cfg t s)) in
  hold_only_by_day s ->
  hold_only_by_day s' /\
  (det_hold_start s' = None \/
   (det_hold_start s' = det_hold_start s /\ keeps_hold cfg e = true) \/
   (det_hold_start s' = Some (now t) /\ person_seen cfg e = true)).
Proof.
  unfold hold_only_by_day, keeps_hold, person_seen, detector_ran.
  destruct s as [on hold nca dl off prev last idx skip].
  unfold_step. simpl.
  rewrite (Z.leb_antisym (skip + 1) 3).
  destruct (frame_ok t); simpl; [|auto].
  destruct (is_daytime_mode cfg (now t)); simpl.
  - destruct prev as [[|]|]; simpl; intros Hinv;
      try (rewrite Hinv by congruence);
      destruct (skip + 1 <? 3); simpl;
      try (destruct (person t); simpl);
      try (destruct hold as [h|]; simpl);
      try (destruct (DETECTION_HOLD_SEC cfg * second_us <=? now t - h); simpl);
      try (destruct on; simpl);
      try (split; [congruence|]); auto.
  - destruct prev as [[|]|]; simpl; intros Hinv;
      try (rewrite Hinv by congruence);
      try (destruct nca; simpl);
      try (destruct (person t); simpl);
      try (destruct dl as [d|]; simpl);
      repeat match goal with
             | |- context [if ?c then _ else _] => destruct c; simpl
             end;
      auto.
Qed.

Lemma hold_invariant_step cfg h t s :
  hold_invariant cfg h s ->
  hold_invariant cfg (h ++ [mk_event s t (snd (update_auto_system cfg t s))])
    (fst (update_auto_system cfg t s)).
Proof.
  intros [Hday Hheld].
  destruct (hold_after_step cfg t s Hday) as [Hday' Hcases].
  split; [exact Hday'|].
  intros t0 Ht0. destruct Hcases as [Hn | [[Hsame Hk] | [Hnew Hp]]].
  - congruence.
  - apply held_keep; [|exact Hk]. apply Hheld. congruence.
  - rewrite Hnew in Ht0. injection Ht0 as <-.
    exact (held_start cfg h (mk_event s t _) Hp).
Qed.

Lemma hold_invariant_run cfg ticks :
  hold_invariant cfg (trace cfg init ticks) (final cfg init ticks).
Proof.
  induction ticks as [|t ticks IH] using rev_ind.
  - split; [intros _; reflexivity | discriminate].
  - rewrite trace_app, final_app. simpl.
    destruct (update_auto_system cfg t (final cfg init ticks)) as [s' acts] eqn:Hu.
    pose proof (hold_invariant_step cfg _ t _ IH) as H. rewrite Hu in H. exact H.
Qed.

(** A tick that emits [PowerOn] runs the detector, finds the person, and
    finds a hold timer that is old enough. *)
Lemma power_on_step cfg t s :
  In PowerOn (snd (update_auto_system cfg t s)) ->
  hold_only_by_day s ->
  person_seen cfg (mk_event s t (snd (update_auto_system cfg t s))) = true /\
  exists t0, det_hold_start s = Some t0 /\
             DETECTION_HOLD_SEC cfg * second_us <= now t - t0.
Proof.
  unfold hold_only_by_day, person_seen, detector_ran.
  destruct s as [on hold nca dl off prev last idx skip].
  unfold_step. simpl.
  rewrite (Z.leb_antisym (skip + 1) 3).
  destruct (frame_ok t); simpl; [|intros []].
  destruct (is_daytime_mode cfg (now t)); simpl.
  - destruct prev as [[|]|]; simpl;
      destruct (skip + 1 <? 3); simpl; try (intros []; fail);
      destruct (person t); simpl; try (intros []; fail);
      destruct hold as [h|]; simpl; try (intros []; fail);
      destruct (DETECTION_HOLD_SEC cfg * second_us <=? now t - h) eqn:E; simpl;
      try (intros []; fail);
      destruct on; simpl; try (intros []; fail);
      intros Hin Hinv.
    + split; [reflexivity|]. exists h. split; [reflexivity | now apply Z.leb_le].
    + assert (Hn : Some h = None) by (apply Hinv; discriminate). discriminate Hn.
  - destruct prev as [[|]|]; simpl;
      try (destruct nca; simpl);
      try (destruct (person t); simpl);
      try (destruct dl as [d|]; simpl);
      repeat match goal with
             | |- context [if ?c then _ else _] => destruct c; simpl
             end;
      intros H; repeat destruct H as [H|H]; try discriminate; contradiction.
Qed.

(** A detector run that finds nobody unsets the hold timer, emits nothing,
    and leaves the latch as it is. *)
Lemma absence_step cfg t s :
  frame_ok t = true -> is_daytime_mode cfg (now t) = true ->
  3 <= yolo_frame_skip s + 1 -> person t = false ->
  det_hold_start (fst (update_auto_system cfg t s)) = None /\
  snd (update_auto_system cfg t s) = [] /\
  (prev_daytime s <> Some false ->
   on_triggered (fst (update_auto_system cfg t s)) = on_triggered s).
Proof.
  intros Hok Hday Hskip Hp.
  destruct s as [on hold nca dl off prev last idx skip].
  unfold_step. rewrite Hok, Hday. simpl in *.
  destruct prev as [[|]|]; simpl;
    (destruct (Z.ltb_spec (skip + 1) 3); [lia|]);
    rewrite Hp; simpl; repeat split; auto; congruence.
Qed.

(** A skipped day-mode frame changes the skip counter only. *)
Lemma skipped_step cfg t s :
  frame_ok t = true -> is_daytime_mode cfg (now t) = true ->
  yolo_frame_skip s + 1 < 3 ->
  let s' := fst (update_auto_system cfg t s) in
  det_hold_start s' = det_hold_start (enter_mode cfg t s) /\
  on_triggered s' = on_triggered (enter_mode cfg t s) /\
  snd (update_auto_system cfg t s) = [].
Proof.
  intros Hok Hday Hskip.
  destruct s as [on hold nca dl off prev last idx skip].
  unfold_step. rewrite Hok, Hday. simpl in *.
  destruct prev as [[|]|]; simpl;
    (destruct (Z.ltb_spec (skip + 1) 3); [|lia]); simpl; auto.
Qed.

(** C1, as stated, fails: the person-absent frame at 12:00:04.0 is one of
    the two frames in three that return before detection, so it does not
    unset the hold timer, and ON is emitted at 12:00:06.0, two seconds after
    the absence (the hold is 5 s). *)
Lemma skipped_absence_counterexample :
  let evs := trace cfg0 init hold_test in
  map (fun e => person (input e)) evs =
    [true; true; true; true; true; true; true; true; true; true;
     false; true; true; true; true] /\
  map (fun e => det_hold_start (before e)) (skipn 10 evs) =
    [Some noon; Some noon; Some noon; Some noon; Some noon] /\
  map actions (skipn 10 evs) = [[]; []; []; []; [PowerOn]] /\
  day_interval cfg0 hold_test /\
  now (frame_at 6000 true) - now (frame_at 4000 false) <
    DETECTION_HOLD_SEC cfg0 * second_us.
Proof.
  repeat split; try reflexivity.
  unfold hold_test. repeat constructor.
Qed.

(** C1 (amended). In every contiguous Day interval ON is emitted at most
    once. From program start, ON is emitted only on a frame on which the
    detector ran and found the person, at least DETECTION_HOLD_SEC seconds
    after an earlier such frame, with nothing in between but unread frames,
    skipped day-mode frames and detector runs that found the person. A
    detector run that finds nobody unsets the hold timer (to None) and leaves
    the on_triggered latch; a skipped frame (two in three) changes neither. *)
Theorem power_on_hold_spec (cfg : config) :
  (forall s ticks, day_interval cfg ticks ->
     (emitted PowerOn (trace cfg s ticks) <= 1)%nat) /\
  (forall ticks pre e post,
     trace cfg init ticks = pre ++ e :: post -> In PowerOn (actions e) ->
     person_seen cfg e = true /\
     exists pre1 e0 mid,
       pre = pre1 ++ e0 :: mid /\ person_seen cfg e0 = true /\
       DETECTION_HOLD_SEC cfg * second_us <= now (input e) - now (input e0) /\
       forallb (keeps_hold cfg) mid = true) /\
  (forall s t,
     frame_ok t = true -> is_daytime_mode cfg (now t) = true ->
     3 <= yolo_frame_skip s + 1 -> person t = false ->
     det_hold_start (fst (update_auto_system cfg t s)) = None /\
     snd (update_auto_system cfg t s) = [] /\
     (prev_daytime s <> Some false ->
      on_triggered (fst (update_auto_system cfg t s)) = on_triggered s)) /\
  (forall s t,
     frame_ok t = true -> is_daytime_mode cfg (now t) = true ->
     yolo_frame_skip s + 1 < 3 ->
     det_hold_start (fst (update_auto_system cfg t s)) =
       det_hold_start (enter_mode cfg t s) /\
     on_triggered (fst (update_auto_system cfg t s)) =
       on_triggered (enter_mode cfg t s) /\
     snd (update_auto_system cfg t s) = []).
Proof.
  split; [intros s ticks H; now apply power_on_once|].
  split; [|split; [intros s t; apply absence_step | intros s t; apply skipped_step]].
  intros ticks pre e post Htr Hin.
  destruct (trace_split cfg ticks init pre e post Htr)
    as (ticks1 & t & ticks2 & -> & -> & -> & _).
  simpl in Hin.
  destruct (hold_invariant_run cfg ticks1) as [Hday Hheld].
  destruct (power_on_step cfg t _ Hin Hday) as (Hseen & t0 & Ht0 & Hle).
  split; [exact Hseen|].
  destruct (Hheld t0 Ht0) as (pre1 & e0 & mid & Heq & Hseen0 & Hnow & Hmid).
  exists pre1, e0, mid. simpl. rewrite Hnow. auto.
Qed.

(** **** Night mode, stage 1: the no-person deadline *)

Lemma entered_pending cfg t s :
  is_daytime_mode cfg (now t) = false -> pending s -> stage1 (entered cfg t s).
Proof.
  intros Hnight Hp. unfold entered, set_prev_daytime. rewrite Hnight.
  destruct s as [on hold nca dl off prev last idx skip]. unfold stage1. simpl.
  destruct Hp as [[Hp | [Hp Hoff]] | (Hp & Hn & Hoff & d & Hd)]; simpl in *; subst;
    simpl; repeat split; eauto.
Qed.

Lemma entered_stage2 cfg t s :
  is_daytime_mode cfg (now t) = false -> stage2 s -> entered cfg t s = s.
Proof.
  intros Hnight [Hp Hn]. unfold entered, set_prev_daytime. rewrite Hnight.
  destruct s as [on hold nca dl off prev last idx skip]. simpl in *. now subst.
Qed.

(** One stage-1 frame: the deadline is reset on a person, then compared. *)
Lemma stage1_step cfg t s :
  frame_ok t = true -> is_daytime_mode cfg (now t) = false ->
  stage1 (entered cfg t s) ->
  let e := mk_event s t (snd (update_auto_system cfg t s)) in
  let s' := fst (update_auto_system cfg t s) in
  if due cfg e
  then actions e = [PowerOff] /\ stage2 s' /\
       off_triggered_once s' = true /\ night_no_person_deadline s' = None
  else actions e = [] /\ stage1 s' /\
       night_no_person_deadline s' = checked_deadline cfg e.
Proof.
  intros Hok Hnight. unfold due, checked_deadline, update_auto_system.
  cbn [input before]. rewrite !enter_mode_entered, Hok, Hnight. simpl.
  destruct (entered cfg t s) as [on hold nca dl off prev last idx skip].
  unfold stage1, stage2, process_night_mode. simpl.
  intros (-> & -> & -> & d & ->).
  destruct (person t); simpl;
    match goal with |- context [?a <=? ?b] => destruct (a <=? b) end; simpl;
    repeat split; eauto.
Qed.

Lemma stage2_step cfg t s :
  frame_ok t = true -> is_daytime_mode cfg (now t) = false -> stage2 s ->
  ~ In PowerOff (snd (update_auto_system cfg t s)) /\
  stage2 (fst (update_auto_system cfg t s)).
Proof.
  intros Hok Hnight Hs. unfold update_auto_system.
  rewrite enter_mode_entered, (entered_stage2 cfg t s Hnight Hs), Hok, Hnight. simpl.
  destruct s as [on hold nca dl off prev last idx skip].
  destruct Hs as [Hp Hn]. simpl in *. subst.
  unfold stage2, process_night_mode. simpl.
  match goal with |- context [if ?c then _ else _] => destruct c end; simpl;
    (split; [intros H; simpl in H; intuition discriminate | auto]).
Qed.

Lemma stage2_run cfg ticks : forall s,
  night_interval cfg ticks -> stage2 s ->
  emitted PowerOff (trace cfg s ticks) = 0%nat /\
  Forall (fun e => night_check_active (before e) = false) (trace cfg s ticks).
Proof.
  induction ticks as [|t ticks IH]; intros s Hn Hs; [split; [reflexivity | constructor]|].
  inversion Hn as [|? ? Ht Hrest]; subst.
  simpl. destruct (update_auto_system cfg t s) as [s' acts] eqn:Hu.
  rewrite emitted_cons. simpl.
  assert (Hstep : ~ In PowerOff acts /\ stage2 s').
  { destruct (frame_ok t) eqn:Hok.
    - pose proof (stage2_step cfg t s Hok (Ht eq_refl) Hs) as H. now rewrite Hu in H.
    - rewrite (no_frame_step cfg t s Hok) in Hu. injection Hu as <- <-. auto. }
  destruct Hstep as [Hno Hs']. destruct (IH s' Hrest Hs') as [IH1 IH2].
  split.
  - rewrite IH1, Nat.add_0_r.
    destruct (filter (action_eqb PowerOff) acts) as [|a l] eqn:Hf; [reflexivity|].
    exfalso. apply Hno.
    assert (Hin : In a (filter (action_eqb PowerOff) acts)) by (rewrite Hf; now left).
    apply filter_In in Hin as [Hin Ha]. destruct a; try discriminate. exact Hin.
  - constructor; [simpl; apply Hs | exact IH2].
Qed.

Lemma pending_run cfg ticks : forall s,
  night_interval cfg ticks -> pending s ->
  (emitted PowerOff (trace cfg s ticks) <= 1)%nat /\
  forall pre e post,
    trace cfg s ticks = pre ++ e :: post ->
    frame_ok (input e) = true -> none_due cfg pre ->
    stage1 (entered cfg (input e) (before e)) /\
    (if due cfg e
     then actions e = [PowerOff] /\ emitted PowerOff post = 0%nat /\
          Forall (fun e' => night_check_active (before e') = false) post
     else actions e = [] /\
          night_no_person_deadline
            (fst (update_auto_system cfg (input e) (before e))) =
          checked_deadline cfg e).
Proof.
  induction ticks as [|t ticks IH]; intros s Hn Hp.
  { split; [simpl; auto|]. intros [|] ? ? H; discriminate. }
  inversion Hn as [|? ? Ht Hrest]; subst.
  simpl. destruct (update_auto_system cfg t s) as [s' acts] eqn:Hu.
  rewrite emitted_cons. simpl.
  destruct (frame_ok t) eqn:Hok.
  - specialize (Ht eq_refl).
    pose proof (entered_pending cfg t s Ht Hp) as Hs1.
    pose proof (stage1_step cfg t s Hok Ht Hs1) as Hstep.
    rewrite Hu in Hstep. simpl in Hstep.
    destruct (due cfg (mk_event s t acts)) eqn:Hdue.
    + destruct Hstep as (-> & Hs2 & _).
      destruct (stage2_run cfg ticks s' Hrest Hs2) as [H0 Hall].
      split; [rewrite H0; simpl; lia|].
      intros pre e post Heq Hoke Hpre.
      destruct pre as [|e0 pre]; simpl in Heq; injection Heq as <- Hrest'.
      * subst post. simpl. rewrite Hdue. split; [exact Hs1 | repeat split; auto].
      * inversion Hpre as [|? ? Hd _]; subst.
        specialize (Hd Hok). congruence.
    + destruct Hstep as (-> & Hs1' & Hdl).
      destruct (IH s' Hrest (or_intror Hs1')) as [IH1 IH2].
      split; [simpl; exact IH1|].
      intros pre e post Heq Hoke Hpre.
      destruct pre as [|e0 pre]; simpl in Heq; injection Heq as <- Hrest'.
      * simpl. rewrite Hdue, Hu. simpl. split; [exact Hs1 | split; auto].
      * inversion Hpre; subst. now apply (IH2 pre e post).
  - rewrite (no_frame_step cfg t s Hok) in Hu. injection Hu as <- <-.
    destruct (IH s Hrest Hp) as [IH1 IH2].
    split; [simpl; exact IH1|].
    intros pre e post Heq Hoke Hpre.
    destruct pre as [|e0 pre]; simpl in Heq; injection Heq as <- Hrest'.
    + simpl in Hoke. congruence.
    + inversion Hpre; subst. now apply (IH2 pre e post).
Qed.

(** C2. In every Night interval each stage-1 frame with a person resets the
    deadline to now + NIGHT_CHECK_MINUTES before the check; on the first
    frame at which now >= the deadline OFF is emitted, once, the gate
    switches to stage 2 and sets off_triggered_once; no later frame of the
    interval emits OFF, and a frame before the deadline emits nothing. *)
Theorem night_power_off_spec (cfg : config) (s : state) (ticks : list tick) :
  night_interval cfg ticks -> starts_interval s ->
  (emitted PowerOff (trace cfg s ticks) <= 1)%nat /\
  forall pre e post,
    trace cfg s ticks = pre ++ e :: post ->
    frame_ok (input e) = true -> none_due cfg pre ->
    let s' := fst (update_auto_system cfg (input e) (before e)) in
    stage1 (enter_mode cfg (input e) (before e)) /\
    (person (input e) = true ->
     checked_deadline cfg e =
       Some (now (input e) + timedelta_minutes (NIGHT_CHECK_MINUTES cfg))) /\
    (due cfg e = true ->
     actions e = [PowerOff] /\ stage2 s' /\ off_triggered_once s' = true /\
     emitted PowerOff post = 0%nat /\
     Forall (fun e' => night_check_active (before e') = false) post) /\
    (due cfg e = false ->
     actions e = [] /\ stage1 s' /\
     night_no_person_deadline s' = checked_deadline cfg e).
Proof.
  intros Hn Hs.
  destruct (pending_run cfg ticks s Hn (or_introl Hs)) as [Hle Hev].
  split; [exact Hle|].
  intros pre e post Heq Hok Hpre s'. rewrite enter_mode_entered.
  destruct (Hev pre e post Heq Hok Hpre) as [Hs1 Hcase].
  split; [exact Hs1|].
  split; [intros Hp; unfold checked_deadline; now rewrite Hp|].
  destruct (trace_split cfg ticks s pre e post Heq)
    as (ticks1 & t & ticks2 & Hticks & _ & He & _).
  assert (Hnight : is_daytime_mode cfg (now (input e)) = false).
  { subst ticks. unfold night_interval in Hn. apply Forall_app in Hn as [_ Hn].
    inversion Hn as [|? ? Ht _]; subst. apply Ht. exact Hok. }
  pose proof (stage1_step cfg (input e) (before e) Hok Hnight Hs1) as Hstep.
  assert (Hev_eq : mk_event (before e) (input e)
                     (snd (update_auto_system cfg (input e) (before e))) = e)
    by (rewrite He; reflexivity).
  rewrite Hev_eq in Hstep. cbv zeta in Hstep. subst s'.
  destruct (due cfg e).
  - destruct Hstep as (Ha & Hs2 & Hoff & _). destruct Hcase as (_ & H0 & Hall).
    split; [intros _; auto | discriminate].
  - destruct Hstep as (Ha & Hs1' & Hdl).
    split; [discriminate | intros _; auto].
Qed.

Lemma night_power_off_spec_witness :
  night_interval cfg0 night_test /\ starts_interval init /\
  (emitted PowerOff (trace cfg0 init night_test) <= 1)%nat /\
  map actions (trace cfg0 init night_test) = [[]; []; []; [PowerOff]; []].
Proof.
  assert (Hn : night_interval cfg0 night_test) by (unfold night_test; repeat constructor).
  assert (Hs : starts_interval init) by (right; split; reflexivity).
  split; [exact Hn|]. split; [exact Hs|].
  split; [exact (proj1 (night_power_off_spec cfg0 init night_test Hn Hs)) | reflexivity].
Defined.

(** **** Night mode, stage 2: the warm-up *)

(** [frame_idx] counts the night-mode frames; nothing resets it. *)
Lemma frame_idx_step cfg t s :
  frame_idx (fst (update_auto_system cfg t s)) =
  frame_idx s + (if night_frame cfg t then 1 else 0).
Proof.
  unfold night_frame.
  destruct s as [on hold nca dl off prev last idx skip].
  unfold_step. simpl.
  destruct (frame_ok t); simpl; [|lia].
  destruct (is_daytime_mode cfg (now t)); simpl.
  - destruct prev as [[|]|]; simpl;
      repeat match goal with
             | |- context [if ?c then _ else _] => destruct c; simpl
             | |- context [match ?c with Some _ => _ | None => _ end] => destruct c; simpl
             end; lia.
  - destruct prev as [[|]|]; simpl;
      repeat match goal with
             | |- context [if ?c then _ else _] => destruct c; simpl
             | |- context [match ?c with Some _ => _ | None => _ end] => destruct c; simpl
             end; lia.
Qed.

Lemma frame_idx_run cfg ticks : forall s,
  frame_idx (final cfg s ticks) = frame_idx s + night_frames cfg ticks.
Proof.
  unfold night_frames.
  induction ticks as [|t ticks IH]; intros s; simpl; [lia|].
  rewrite IH, frame_idx_step.
  destruct (night_frame cfg t); simpl List.length; lia.
Qed.

Lemma snapshot_step cfg t s :
  In SaveSnapshot (snd (update_auto_system cfg t s)) ->
  night_frame cfg t = true /\ WARMUP_FRAMES < frame_idx s + 1 /\
  motion cfg t = true /\
  night_check_active (entered cfg t s) = false.
Proof.
  unfold night_frame.
  destruct s as [on hold nca dl off prev last idx skip].
  unfold_step. simpl.
  destruct (frame_ok t); simpl; [|intros []].
  destruct (is_daytime_mode cfg (now t)); simpl.
  - destruct prev as [[|]|]; simpl;
      repeat match goal with
             | |- context [if ?c then _ else _] => destruct c; simpl
             | |- context [match ?c with Some _ => _ | None => _ end] => destruct c; simpl
             end;
      intros H; simpl in H; intuition discriminate.
  - destruct prev as [[|]|]; simpl;
      try (destruct nca; simpl);
      try (destruct (person t); simpl);
      try (destruct dl as [d|]; simpl);
      repeat match goal with
             | |- context [if ?c then _ else _] => destruct c eqn:?; simpl
             end;
      intros Hin; simpl in Hin; try solve [intuition discriminate];
      repeat match goal with
             | H : _ && _ = true |- _ => apply andb_true_iff in H; destruct H
             end;
      repeat split; auto; now apply Z.ltb_lt.
Qed.

Lemma map_input_trace cfg ticks : forall s, map input (trace cfg s ticks) = ticks.
Proof.
  induction ticks as [|t ticks IH]; intros s; simpl; [reflexivity|].
  destruct (update_auto_system cfg t s) as [s' acts]. simpl. now rewrite IH.
Qed.

(** C3, as stated, fails: in the second night the snapshot is taken on the
    third night-mode frame after the Day -> Night transition. *)
Lemma warmup_counterexample :
  let s := final cfg0 init (first_night ++ next_day) in
  night_interval cfg0 second_night /\
  prev_daytime s = Some true /\
  map actions (trace cfg0 s second_night) = [[]; []; [PowerOff]; [SaveSnapshot]] /\
  night_frames cfg0 second_night = 3 /\
  3 <= WARMUP_FRAMES.
Proof.
  split; [unfold second_night; repeat constructor|].
  split; [vm_compute; reflexivity|].
  split; [vm_compute; reflexivity|].
  split; [vm_compute; reflexivity|].
  unfold WARMUP_FRAMES. lia.
Qed.

(** C3 (amended). From program start no snapshot is taken until more than
    WARMUP_FRAMES night-mode frames have been read in all (the frame counter
    counts night-mode frames and no mode transition resets it): a snapshot
    is taken only on a night-mode frame, in stage 2, with motion, and that
    frame is at least the (WARMUP_FRAMES + 1)-th night-mode frame since the
    start. *)
Theorem snapshot_after_warmup (cfg : config) :
  (forall ticks pre e post,
     trace cfg init ticks = pre ++ e :: post -> In SaveSnapshot (actions e) ->
     night_frame cfg (input e) = true /\
     night_check_active (enter_mode cfg (input e) (before e)) = false /\
     motion cfg (input e) = true /\
     WARMUP_FRAMES < night_frames cfg (map input (pre ++ [e]))) /\
  (forall s t,
     frame_idx (fst (update_auto_system cfg t s)) =
     frame_idx s + (if night_frame cfg t then 1 else 0)).
Proof.
  split; [|intros s t; apply frame_idx_step].
  intros ticks pre e post Htr Hin. rewrite enter_mode_entered.
  destruct (trace_split cfg ticks init pre e post Htr)
    as (ticks1 & t & ticks2 & -> & -> & -> & _).
  simpl in *.
  destruct (snapshot_step cfg t _ Hin) as (Hnf & Hidx & Hmo & Hst).
  repeat split; auto.
  rewrite map_app, map_input_trace. simpl.
  rewrite frame_idx_run in Hidx. simpl in Hidx.
  unfold night_frames in *. rewrite filter_app, length_app. simpl.
  rewrite Hnf. simpl. lia.
Qed.

(** *** Further properties of the update loop *)

Ltac step_cases :=
  repeat match goal with
         | |- context [if ?c then _ else _] => destruct c eqn:?; simpl
         | |- context [match ?c with Some _ => _ | None => _ end] => destruct c eqn:?; simpl
         end.

Lemma in_trace cfg ticks : forall s e,
  In e (trace cfg s ticks) ->
  exists s0, actions e = snd (update_auto_system cfg (input e) s0).
Proof.
  induction ticks as [|t ticks IH]; intros s e Hin; simpl in Hin; [contradiction|].
  destruct (update_auto_system cfg t s) as [s' acts] eqn:Hu.
  destruct Hin as [<-|Hin]; [|now apply IH with s'].
  exists s. simpl. now rewrite Hu.
Qed.

Lemma actions_step cfg t s :
  let acts := snd (update_auto_system cfg t s) in
  acts = [] \/
  (acts = [PowerOn] /\ day_frame cfg t = true) \/
  ((acts = [PowerOff] \/ acts = [SaveSnapshot]) /\ night_frame cfg t = true).
Proof.
  unfold day_frame, night_frame.
  destruct s as [on hold nca dl off prev last idx skip].
  unfold_step. simpl.
  destruct (frame_ok t); simpl; [|now left].
  destruct (is_daytime_mode cfg (now t)); simpl.
  - destruct prev as [[|]|]; simpl; step_cases; auto.
  - destruct prev as [[|]|]; simpl; step_cases; auto.
Qed.

(** X15. A call of [update_auto_system] sends at most one message or
    snapshot: nothing, or ON on a frame read in day mode, or OFF or a
    snapshot (never both) on a frame read in night mode. Without a frame the
    state is left as it is. *)
Theorem actions_by_mode (cfg : config) (s : state) (ticks : list tick) :
  (forall e, In e (trace cfg s ticks) ->
     actions e = [] \/
     (actions e = [PowerOn] /\ day_frame cfg (input e) = true) \/
     ((actions e = [PowerOff] \/ actions e = [SaveSnapshot]) /\
      night_frame cfg (input e) = true)) /\
  (forall t, frame_ok t = false -> update_auto_system cfg t s = (s, [])).
Proof.
  split; [|intros t; apply no_frame_step].
  intros e Hin. apply in_trace in Hin as (s0 & ->). apply actions_step.
Qed.

Lemma snapshot_tick_step cfg t s :
  let s' := fst (update_auto_system cfg t s) in
  let acts := snd (update_auto_system cfg t s) in
  (In SaveSnapshot acts ->
   last_snapshot_tick s' = Some (now_tick t) /\
   forall last, last_snapshot_tick s = Some last ->
                SAVE_COOLDOWN_SEC cfg * second_us <= now_tick t - last) /\
  (~ In SaveSnapshot acts -> last_snapshot_tick s' = last_snapshot_tick s).
Proof.
  destruct s as [on hold nca dl off prev last idx skip].
  unfold_step. simpl.
  destruct (frame_ok t); simpl; [|split; [intros [] | reflexivity]].
  destruct (is_daytime_mode cfg (now t)); simpl.
  - destruct prev as [[|]|]; simpl; step_cases;
      (split; [intros Hin; simpl in Hin; intuition discriminate | reflexivity]).
  - destruct prev as [[|]|]; simpl;
      try (destruct nca; simpl);
      try (destruct (person t); simpl);
      try (destruct dl as [d|]; simpl);
      try (destruct last as [l|]; simpl);
      repeat match goal with
             | |- context [if ?c then _ else _] => destruct c eqn:?; simpl
             end;
      (split;
       [intros Hin; simpl in Hin;
        first [solve [intuition discriminate]
              |split; [reflexivity|]; intros l0 Hl0;
               first [discriminate
                     |injection Hl0 as <-;
                      repeat match goal with
                             | H : _ && _ = true |- _ =>
                                 apply andb_true_iff in H; destruct H
                             end;
                      now apply Z.leb_le]]
       |intros Hn; first [reflexivity | elim Hn; now left]]).
Qed.

Lemma no_snapshot_run cfg ticks : forall s,
  Forall (fun e => ~ saves e) (trace cfg s ticks) ->
  last_snapshot_tick (final cfg s ticks) = last_snapshot_tick s.
Proof.
  induction ticks as [|t ticks IH]; intros s Hno; simpl; [reflexivity|].
  simpl in Hno. destruct (update_auto_system cfg t s) as [s' acts] eqn:Hu.
  inversion Hno as [|? ? He Hrest]; subst. simpl.
  rewrite (IH s' Hrest).
  pose proof (proj2 (snapshot_tick_step cfg t s)) as H. rewrite Hu in H. simpl in H.
  apply H. exact He.
Qed.

(** X16. Two successive snapshots are at least [SAVE_COOLDOWN_SEC] apart on
    the monotonic clock: whatever happens in between (frames without motion,
    lost frames, a whole day), the later one is taken only when
    [time.monotonic()] has advanced by the cooldown since the earlier one. *)
Theorem snapshots_respect_cooldown (cfg : config) (s : state) (ticks : list tick)
    (pre mid post : list event) (e1 e2 : event) :
  trace cfg s ticks = pre ++ e1 :: mid ++ e2 :: post ->
  saves e1 -> Forall (fun e => ~ saves e) mid -> saves e2 ->
  SAVE_COOLDOWN_SEC cfg * second_us <= now_tick (input e2) - now_tick (input e1).
Proof.
  intros Htr H1 Hmid H2.
  apply trace_split in Htr as (ticks1 & t1 & ticks2 & -> & -> & -> & Hrest).
  symmetry in Hrest.
  apply trace_split in Hrest as (ticks3 & t2 & ticks4 & -> & -> & -> & _).
  unfold saves in H1, H2. simpl in *.
  set (s0 := final cfg s ticks1) in *.
  assert (Hs1 : last_snapshot_tick (final cfg s (ticks1 ++ [t1])) = Some (now_tick t1)).
  { rewrite final_app. simpl. fold s0.
    apply (proj1 (snapshot_tick_step cfg t1 s0)). exact H1. }
  set (s1 := final cfg s (ticks1 ++ [t1])) in *.
  pose proof (no_snapshot_run cfg ticks3 s1 Hmid) as Hkeep.
  apply (proj1 (snapshot_tick_step cfg t2 (final cfg s1 ticks3)) H2).
  now rewrite Hkeep.
Qed.

(** Motion at 20:10:01, 20:10:05 and 20:10:12 with a cooldown of 10 s:
    snapshots at the first and the last. *)
Lemma snapshots_respect_cooldown_witness :
  map actions (trace cfg0 after_deadline [motion_at 1; motion_at 5; motion_at 12]) =
    [[SaveSnapshot]; []; [SaveSnapshot]] /\
  SAVE_COOLDOWN_SEC cfg0 * second_us <= now_tick (motion_at 12) - now_tick (motion_at 1).
Proof.
  split; [vm_compute; reflexivity|].
  apply (snapshots_respect_cooldown cfg0 after_deadline
           [motion_at 1; motion_at 5; motion_at 12]
           []
           [mk_event (final cfg0 after_deadline [motion_at 1]) (motion_at 5) []]
           []
           (mk_event after_deadline (motion_at 1) [SaveSnapshot])
           (mk_event (final cfg0 after_deadline [motion_at 1; motion_at 5]) (motion_at 12)
              [SaveSnapshot])).
  - vm_compute. reflexivity.
  - left. reflexivity.
  - constructor; [|constructor]. intros [].
  - left. reflexivity.
Defined.

Lemma replace_hm_time_of_day (x : Z) (hm : Z * Z) :
  replace_hm x hm = x - x mod day_us + time_of_day_us hm.
Proof. reflexivity. Qed.

(** X17. The mode by the clock: in automatic mode a moment is daytime exactly
    when its time of day lies between [DAY_START] and [DAY_END] (whole
    minutes, both ends included, the end only at its first microsecond), so a
    window with [DAY_START] after [DAY_END] never gives day mode; a forced
    mode ignores the clock. *)
Theorem is_daytime_mode_spec (cfg : config) (t : Z) :
  (FORCE_MODE cfg = ForceDay -> is_daytime_mode cfg t = true) /\
  (FORCE_MODE cfg = ForceNight -> is_daytime_mode cfg t = false) /\
  (FORCE_MODE cfg = Auto ->
   (is_daytime_mode cfg t = true <->
    time_of_day_us (DAY_START cfg) <= t mod day_us <= time_of_day_us (DAY_END cfg)) /\
   (time_of_day_us (DAY_END cfg) < time_of_day_us (DAY_START cfg) ->
    is_daytime_mode cfg t = false)).
Proof.
  unfold is_daytime_mode.
  split; [intros ->; reflexivity|]. split; [intros ->; reflexivity|].
  intros ->. cbv zeta. rewrite !replace_hm_time_of_day.
  assert (Hiff : ((t - t mod day_us + time_of_day_us (DAY_START cfg) <=? t) &&
                  (t <=? t - t mod day_us + time_of_day_us (DAY_END cfg)) = true) <->
                 time_of_day_us (DAY_START cfg) <= t mod day_us <= time_of_day_us (DAY_END cfg)).
  { rewrite andb_true_iff, !Z.leb_le. lia. }
  split; [exact Hiff|].
  intros Hlt. apply not_true_is_false. intros E. apply Hiff in E. lia.
Qed.

Lemma skip_step cfg t s :
  yolo_frame_skip (fst (update_auto_system cfg t s)) =
    if day_frame cfg t
    then (if yolo_frame_skip s + 1 <? 3 then yolo_frame_skip s + 1 else 0)
    else yolo_frame_skip s.
Proof.
  unfold day_frame.
  destruct s as [on hold nca dl off prev last idx skip].
  unfold_step. simpl.
  destruct (frame_ok t); simpl; [|reflexivity].
  destruct (is_daytime_mode cfg (now t)); simpl.
  - destruct prev as [[|]|]; simpl; step_cases; reflexivity.
  - destruct prev as [[|]|]; simpl; step_cases; reflexivity.
Qed.

Lemma day_frames_snoc cfg ticks t :
  day_frames cfg (ticks ++ [t]) =
  day_frames cfg ticks + (if day_frame cfg t then 1 else 0).
Proof.
  unfold day_frames. rewrite filter_app, length_app. simpl.
  destruct (day_frame cfg t); simpl; lia.
Qed.

Lemma skip_run cfg ticks :
  yolo_frame_skip (final cfg init ticks) = day_frames cfg ticks mod 3.
Proof.
  induction ticks as [|t ticks IH] using rev_ind; [reflexivity|].
  rewrite final_app, day_frames_snoc. simpl. rewrite skip_step, IH.
  pose proof (Z.mod_pos_bound (day_frames cfg ticks) 3 ltac:(lia)) as Hb.
  destruct (day_frame cfg t); [|now rewrite Z.add_0_r].
  rewrite <- (Zplus_mod_idemp_l (day_frames cfg ticks) 1 3).
  destruct (Z.ltb_spec (day_frames cfg ticks mod 3 + 1) 3).
  - symmetry. apply Z.mod_small. lia.
  - replace (day_frames cfg ticks mod 3) with 2 by lia. reflexivity.
Qed.

(** X18. YOLO is run on every third frame read in day mode, counted from
    start-up: night frames and lost frames do not count, and the count is not
    restarted by a new day. *)
Theorem detector_runs_every_third_day_frame (cfg : config) (ticks : list tick)
    (pre post : list event) (e : event) :
  trace cfg init ticks = pre ++ e :: post ->
  (detector_ran cfg e = true <->
   day_frame cfg (input e) = true /\
   day_frames cfg (map input (pre ++ [e])) mod 3 = 0).
Proof.
  intros Htr.
  apply trace_split in Htr as (ticks1 & t & ticks2 & -> & -> & -> & _).
  rewrite map_app, map_input_trace. simpl map.
  rewrite day_frames_snoc.
  unfold detector_ran. simpl. rewrite skip_run. fold (day_frame cfg t).
  pose proof (Z.mod_pos_bound (day_frames cfg ticks1) 3 ltac:(lia)) as Hb.
  destruct (day_frame cfg t); simpl.
  - rewrite Z.leb_le.
    rewrite <- (Zplus_mod_idemp_l (day_frames cfg ticks1) 1 3).
    split.
    + intros H. split; [reflexivity|].
      replace (day_frames cfg ticks1 mod 3) with 2 by lia. reflexivity.
    + intros [_ H].
      destruct (Z.eq_dec (day_frames cfg ticks1 mod 3) 2) as [->|Hne]; [lia|].
      rewrite Z.mod_small in H by lia. lia.
  - split; [discriminate | intros [H _]; discriminate].
Qed.

(** Three day frames after start-up: the detector runs on the third. *)
Lemma detector_runs_every_third_day_frame_witness :
  detector_ran cfg0
    (mk_event (final cfg0 init [frame_at 0 true; frame_at 500 true])
       (frame_at 1000 true) []) = true.
Proof.
  apply (detector_runs_every_third_day_frame cfg0
           [frame_at 0 true; frame_at 500 true; frame_at 1000 true]
           (trace cfg0 init [frame_at 0 true; frame_at 500 true]) []);
    [reflexivity | split; reflexivity].
Defined.

Lemma forced_snapshot_step cfg t s :
  (frame_ok t = true -> is_daytime_mode cfg (now t) = false) ->
  off_triggered_once s = true -> prev_daytime s <> Some true ->
  let s' := fst (update_auto_system cfg t s) in
  off_triggered_once s' = true /\ prev_daytime s' <> Some true /\
  ~ In PowerOff (snd (update_auto_system cfg t s)).
Proof.
  intros Hnight Hoff Hprev.
  destruct (frame_ok t) eqn:Hok;
    [|rewrite (no_frame_step cfg t s Hok); simpl; auto].
  specialize (Hnight eq_refl).
  destruct s as [on hold nca dl off prev last idx skip]. simpl in Hoff, Hprev. subst off.
  unfold_step. rewrite Hok, Hnight. simpl.
  destruct prev as [[|]|]; simpl; [now elim Hprev| |];
    try (destruct nca; simpl);
    try (destruct (person t); simpl);
    try (destruct dl as [d|]; simpl);
    step_cases; (split; [reflexivity|]); (split; [discriminate|]);
    simpl; intuition discriminate.
Qed.

Lemma forced_snapshot_run cfg ticks : forall s,
  night_interval cfg ticks ->
  off_triggered_once s = true -> prev_daytime s <> Some true ->
  emitted PowerOff (trace cfg s ticks) = 0%nat.
Proof.
  induction ticks as [|t ticks IH]; intros s Hnight Hoff Hprev; [reflexivity|].
  inversion Hnight as [|? ? Ht Hrest]; subst.
  pose proof (forced_snapshot_step cfg t s Ht Hoff Hprev) as (H1 & H2 & H3).
  simpl. destruct (update_auto_system cfg t s) as [s' acts] eqn:Hu. simpl in *.
  rewrite emitted_cons, (IH s' Hrest H1 H2). simpl.
  assert (Hf : filter (action_eqb PowerOff) acts = []).
  { clear -H3. induction acts as [|a acts IHa]; [reflexivity|]. simpl.
    destruct a; simpl; try (apply IHa; intros Hin; apply H3; now right).
    elim H3. now left. }
  now rewrite Hf.
Qed.

(** X19. The developer panel's [force_snapshot_mode] button switches the
    OFF message off for the night: pressed at night or before the first
    frame, no OFF is sent on any later frame of that night, whatever the
    frames show. Pressed during a night it also starts the motion stage at
    once: every later frame of the night is handled with
    [night_check_active] false. *)
Theorem force_snapshot_mode_suppresses_power_off (cfg : config) (s : state)
    (ticks : list tick) :
  night_interval cfg ticks -> prev_daytime s <> Some true ->
  emitted PowerOff (trace cfg (force_snapshot_mode s) ticks) = 0%nat /\
  (prev_daytime s = Some false ->
   Forall (fun e => night_check_active (before e) = false)
     (trace cfg (force_snapshot_mode s) ticks)).
Proof.
  intros Hnight Hprev. split.
  - apply forced_snapshot_run; [exact Hnight | reflexivity | exact Hprev].
  - intros Hp.
    apply (proj2 (stage2_run cfg ticks (force_snapshot_mode s) Hnight
                    (conj Hp eq_refl))).
Qed.

(** The night of [night_test] with the button pressed before the first
    frame: the deadline passes at 20:15 and no OFF is sent. *)
Lemma force_snapshot_mode_suppresses_power_off_witness :
  night_interval cfg0 night_test /\
  emitted PowerOff (trace cfg0 (force_snapshot_mode init) night_test) = 0%nat /\
  map actions (trace cfg0 (force_snapshot_mode init) night_test) = [[]; []; []; []; []].
Proof.
  assert (Hn : night_interval cfg0 night_test) by (unfold night_test; repeat constructor).
  split; [exact Hn|].
  split; [|reflexivity].
  apply (proj1 (force_snapshot_mode_suppresses_power_off cfg0 init night_test Hn
                  ltac:(discriminate))).
Defined.

End DetectionGateFacts.

Module PyFormatFacts.

Import PyFormat.

Lemma digit_cases (d : Z) :
  0 <= d <= 9 ->
  d = 0 \/ d = 1 \/ d = 2 \/ d = 3 \/ d = 4 \/ d = 5 \/ d = 6 \/ d = 7 \/ d = 8 \/ d = 9.
Proof. lia. Qed.

Lemma digit_of_digit_char d : 0 <= d <= 9 -> digit_of (digit_char d) = Some d.
Proof.
  intros H. destruct (digit_cases d H) as [-> | [-> | [-> | [-> | [-> | [-> | [-> | [-> | [-> | ->]]]]]]]]];
    reflexivity.
Qed.

Lemma digit_char_not c d :
  0 <= d <= 9 -> digit_of c = None -> Ascii.eqb (digit_char d) c = false.
Proof.
  intros H Hc. destruct (Ascii.eqb (digit_char d) c) eqn:E; [|reflexivity].
  apply Ascii.eqb_eq in E. subst c. rewrite digit_of_digit_char in Hc by exact H.
  discriminate.
Qed.

Lemma mod10_digit n : 0 <= n mod 10 <= 9.
Proof. pose proof (Z.mod_pos_bound n 10). lia. Qed.

Lemma append_assoc (a b c : string) : ((a ++ b) ++ c = a ++ (b ++ c))%string.
Proof. induction a; simpl; congruence. Qed.

Lemma append_empty_r (a : string) : (a ++ "")%string = a.
Proof. induction a; simpl; congruence. Qed.

Lemma parse_digits_digits k : forall n rest acc frac,
  0 <= n < 10 ^ Z.of_nat k ->
  parse_digits (digits k n ++ rest)%string acc frac =
  parse_digits rest (acc * 10 ^ Z.of_nat k + n) (option_map (Nat.add k) frac).
Proof.
  induction k as [|k IH]; intros n rest acc frac Hn.
  - simpl in *. replace n with 0 by lia. rewrite Z.mul_1_r, Z.add_0_r.
    destruct frac; reflexivity.
  - rewrite Nat2Z.inj_succ, Z.pow_succ_r in Hn by lia.
    cbn [digits]. rewrite append_assoc. cbn [append].
    rewrite IH by (split; [apply Z.div_pos; lia | apply Z.div_lt_upper_bound; lia]).
    cbn [parse_digits].
    rewrite (digit_char_not "."%char (n mod 10) (mod10_digit n) eq_refl).
    rewrite (digit_of_digit_char (n mod 10) (mod10_digit n)).
    f_equal.
    + rewrite Nat2Z.inj_succ, Z.pow_succ_r by lia.
      pose proof (Z.div_mod n 10). lia.
    + destruct frac; reflexivity.
Qed.

Lemma ndigits_bound fuel : forall n,
  0 <= n < 2 ^ Z.of_nat fuel -> n < 10 ^ Z.of_nat (ndigits fuel n).
Proof.
  induction fuel as [|fuel IH]; intros n Hn.
  - simpl in *. lia.
  - cbn [ndigits]. destruct (Z.ltb_spec n 10); [simpl; lia|].
    rewrite Nat2Z.inj_succ, Z.pow_succ_r in Hn by lia.
    rewrite Nat2Z.inj_succ, Z.pow_succ_r by lia.
    assert (n / 10 < 10 ^ Z.of_nat (ndigits fuel (n / 10))).
    { apply IH. split; [apply Z.div_pos; lia|].
      apply Z.div_lt_upper_bound; lia. }
    pose proof (Z.div_mod n 10). pose proof (Z.mod_pos_bound n 10). lia.
Qed.

Lemma dec_bound n :
  0 <= n -> n < 10 ^ Z.of_nat (ndigits (Z.to_nat (Z.log2 n + 1)) n).
Proof.
  intros Hn. apply ndigits_bound. split; [exact Hn|].
  rewrite Z2Nat.id by (pose proof (Z.log2_nonneg n); lia).
  destruct (Z.eq_dec n 0) as [->|Hne]; [reflexivity|].
  apply Z.log2_spec. lia.
Qed.

Lemma digits_head k n :
  k <> O -> exists d s, 0 <= d <= 9 /\ digits k n = String (digit_char d) s.
Proof.
  revert n. induction k as [|k IH]; intros n Hk; [contradiction|].
  cbn [digits]. destruct k as [|k'].
  - exists (n mod 10), ""%string. split; [apply mod10_digit | reflexivity].
  - destruct (IH (n / 10)) as (d & s & Hd & ->); [discriminate|].
    exists d, (s ++ String (digit_char (n mod 10)) "")%string. split; [exact Hd | reflexivity].
Qed.

Lemma ndigits_nonzero fuel n : ndigits fuel n <> O.
Proof. destruct fuel; simpl; [|destruct (n <? 10)]; discriminate. Qed.

Lemma scaled_nonneg k x : 0 <= scaled k x.
Proof.
  unfold scaled, round_half_even.
  set (q := (Qabs x * inject_Z (10 ^ Z.of_nat k))%Q).
  assert (Hq : 0 <= Qnum q).
  { unfold q. destruct x as [a b]. simpl.
    pose proof (Z.pow_nonneg 10 (Z.of_nat k)). apply Z.mul_nonneg_nonneg; lia. }
  assert (0 <= Qnum q / Z.pos (Qden q)) by (apply Z.div_pos; lia).
  repeat match goal with |- context [if ?c then _ else _] => destruct c end; lia.
Qed.

(** Reading back what [format_fixed] wrote gives the number it denotes. *)
Lemma parse_format_fixed k x :
  parse_decimal (format_fixed k x) = Some (fixed_value k x).
Proof.
  unfold format_fixed, fixed_value.
  pose proof (scaled_nonneg k x) as Hn.
  set (n := scaled k x) in *.
  set (p := 10 ^ Z.of_nat k).
  assert (Hp : 0 < p) by (apply Z.pow_pos_nonneg; lia).
  assert (Hip : 0 <= n / p) by (apply Z.div_pos; lia).
  assert (Hbody :
            parse_digits (dec (n / p) ++ "." ++ digits k (n mod p))%string 0 None = Some (n, k)).
  { unfold dec.
    rewrite parse_digits_digits by (split; [exact Hip | now apply dec_bound]).
    cbn [append parse_digits option_map]. simpl Ascii.eqb. cbv iota.
    rewrite <- (append_empty_r (digits k (n mod p))) at 1.
    rewrite parse_digits_digits by (apply Z.mod_pos_bound; exact Hp).
    cbn [parse_digits option_map]. rewrite Nat.add_0_r. f_equal. f_equal.
    fold p. pose proof (Z.div_mod n p). lia. }
  destruct (negative x); cbn [append] in *.
  - unfold parse_decimal. simpl Ascii.eqb. cbv iota.
    rewrite Hbody. reflexivity.
  - destruct (digits_head (ndigits (Z.to_nat (Z.log2 (n / p) + 1)) (n / p)) (n / p)
                (ndigits_nonzero _ _)) as (d & s & Hd & Hs).
    pose proof Hbody as Hb. unfold dec in *. rewrite Hs in *. cbn [append] in *.
    unfold parse_decimal.
    rewrite (digit_char_not "-"%char d Hd eq_refl). rewrite Hb. reflexivity.
Qed.

Lemma round_half_even_bound q :
  2 * Z.abs (round_half_even q * Z.pos (Qden q) - Qnum q) <= Z.pos (Qden q).
Proof.
  unfold round_half_even.
  pose proof (Z.div_mod (Qnum q) (Z.pos (Qden q)) ltac:(lia)) as Hdm.
  pose proof (Z.mod_pos_bound (Qnum q) (Z.pos (Qden q)) ltac:(lia)) as Hm.
  set (f := Qnum q / Z.pos (Qden q)) in *.
  set (r := Qnum q mod Z.pos (Qden q)) in *.
  destruct (Z.ltb_spec (2 * r) (Z.pos (Qden q)));
    [|destruct (Z.ltb_spec (Z.pos (Qden q)) (2 * r)); [|destruct (Z.even f)]]; nia.
Qed.

Lemma fixed_value_close k x :
  (Qabs (fixed_value k x - x) <= 1 # Z.to_pos (2 * 10 ^ Z.of_nat k))%Q.
Proof.
  pose proof (round_half_even_bound (Qabs x * inject_Z (10 ^ Z.of_nat k))%Q) as Hb.
  unfold fixed_value, decimal, scaled, negative.
  set (n := round_half_even (Qabs x * inject_Z (10 ^ Z.of_nat k))%Q) in *.
  assert (Hp : 0 < 10 ^ Z.of_nat k) by (apply Z.pow_pos_nonneg; lia).
  set (p := 10 ^ Z.of_nat k) in *.
  destruct x as [a b]. cbn [fst snd Qnum Qden Qabs Qmult inject_Z] in *.
  unfold Qle, Qminus, Qplus, Qopp, Qabs. cbn [Qnum Qden].
  rewrite !Pos2Z.inj_mul in *.
  rewrite !Z2Pos.id by lia.
  fold p.
  assert (Hpb : 0 < Z.pos b) by lia.
  generalize dependent (Z.pos b). intros B Hb HB.
  clearbody n p.
  destruct (Z.ltb_spec a 0).
  - replace (- n * B + - a * p) with (- (n * (B * 1) - Z.abs a * p)) by lia.
    rewrite Z.abs_opp. nia.
  - replace (n * B + - a * p) with (n * (B * 1) - Z.abs a * p) by lia.
    nia.
Qed.

Lemma has_char_append c a b :
  has_char c (a ++ b)%string = has_char c a || has_char c b.
Proof. induction a as [|x a IH]; simpl; [reflexivity|]. now rewrite IH, orb_assoc. Qed.

Lemma has_char_digits c k : forall n,
  digit_of c = None -> has_char c (digits k n) = false.
Proof.
  induction k as [|k IH]; intros n Hc; cbn [digits]; [reflexivity|].
  rewrite has_char_append, IH by exact Hc. cbn [has_char orb].
  now rewrite (digit_char_not c (n mod 10) (mod10_digit n) Hc).
Qed.

(** The text of a number holds digits, a point and a minus sign only. *)
Lemma has_char_format_fixed c k x :
  digit_of c = None -> c <> "."%char -> c <> "-"%char ->
  has_char c (format_fixed k x) = false.
Proof.
  intros Hc Hdot Hminus. unfold format_fixed, dec.
  apply Ascii.eqb_neq in Hdot, Hminus.
  rewrite !has_char_append, !has_char_digits by exact Hc.
  rewrite Ascii.eqb_sym in Hdot, Hminus.
  destruct (negative _); cbn [has_char orb]; rewrite ?Hdot, ?Hminus; reflexivity.
Qed.

Lemma split_on_append c a rest :
  has_char c a = false ->
  split_on c (a ++ String c rest)%string = a :: split_on c rest.
Proof.
  induction a as [|x a IH]; simpl.
  - intros _. now rewrite Ascii.eqb_refl.
  - intros H. apply orb_false_iff in H as [Hx Ha].
    rewrite Hx, (IH Ha). reflexivity.
Qed.

End PyFormatFacts.

Module VibrationFacts.

Import Vibration.
Local Open Scope Q_scope.

Lemma read_write_file {A} path (c : A) fs : read_file path (write_file path c fs) = Some c.
Proof. unfold write_file. simpl. now rewrite String.eqb_refl. Qed.

Lemma truthy_zero x : x == 0 -> truthy x = false.
Proof. intros H. unfold truthy. apply Qeq_bool_iff in H. now rewrite H. Qed.

Lemma truthy_nonzero x : ~ x == 0 -> truthy x = true.
Proof.
  intros H. unfold truthy. destruct (Qeq_bool x 0) eqn:E; [|reflexivity].
  apply Qeq_bool_iff in E. contradiction.
Qed.

(** C9. In the row [_log_reading] writes, a temperature or frequency equal
    to 0.0 is rendered as the empty string, like an absent one (the code
    tests the truth value, not presence), so the row of a reading with a zero
    temperature or frequency is the row of the same reading without it; a
    non-zero value is rendered by [str]. *)
Theorem zero_optional_field_is_empty (fl : floats) :
  (forall x, x == 0 ->
     optional_field fl (Some x) = ""%string /\
     optional_field fl (Some x) = optional_field fl None) /\
  (forall x, ~ x == 0 -> optional_field fl (Some x) = float_str fl x) /\
  (forall start r x, x == 0 ->
     log_row fl start (set_temperature (Some x) r) =
     log_row fl start (set_temperature None r)) /\
  (forall start r x, x == 0 ->
     log_row fl start (set_frequency (Some x) r) =
     log_row fl start (set_frequency None r)).
Proof.
  split; [|split; [|split]].
  - intros x Hx. unfold optional_field. now rewrite (truthy_zero x Hx).
  - intros x Hx. unfold optional_field. now rewrite (truthy_nonzero x Hx).
  - intros start r x Hx. unfold log_row, set_temperature, optional_field.
    cbn [timestamp x_axis y_axis z_axis magnitude temperature frequency].
    now rewrite (truthy_zero x Hx).
  - intros start r x Hx. unfold log_row, set_frequency, optional_field.
    cbn [timestamp x_axis y_axis z_axis magnitude temperature frequency].
    now rewrite (truthy_zero x Hx).
Qed.

(** What [parse_row] reads in a row that [_log_reading] wrote. *)
Lemma parse_log_row fl start r :
  parse_row (log_row fl start r) =
  Some (mk_parsed (PyFormat.fixed_value 3 (timestamp r))
          (PyFormat.fixed_value 6 (x_axis r)) (PyFormat.fixed_value 6 (y_axis r))
          (PyFormat.fixed_value 6 (z_axis r)) (PyFormat.fixed_value 6 (magnitude r))).
Proof.
  unfold parse_row, log_row. cbn [append].
  assert (Hc : forall k x, PyFormat.has_char ","%char (PyFormat.format_fixed k x) = false)
    by (intros k x; apply PyFormatFacts.has_char_format_fixed; [reflexivity | discriminate | discriminate]).
  rewrite !PyFormatFacts.split_on_append by apply Hc.
  cbn [nth]. rewrite !PyFormatFacts.parse_format_fixed. reflexivity.
Qed.

Lemma Q_half_twice k :
  (1 # Z.to_pos (2 * 10 ^ Z.of_nat k)) + (1 # Z.to_pos (2 * 10 ^ Z.of_nat k)) ==
  1 # Z.to_pos (10 ^ Z.of_nat k).
Proof.
  assert (Hp : (0 < 10 ^ Z.of_nat k)%Z) by (apply Z.pow_pos_nonneg; lia).
  unfold Qeq, Qplus. cbn [Qnum Qden].
  rewrite !Pos2Z.inj_mul, !Z2Pos.id by lia. ring.
Qed.

Lemma fixed_value_close_to k x : close_to k (PyFormat.fixed_value k x) x.
Proof.
  pose proof (PyFormatFacts.fixed_value_close k x) as H. split; [exact H|].
  intros y Hy.
  setoid_replace (y - x) with ((y - PyFormat.fixed_value k x) + (PyFormat.fixed_value k x - x))
    by ring.
  eapply Qle_trans; [apply Qabs_triangle|].
  rewrite <- Q_half_twice.
  apply Qplus_le_compat; [|exact H].
  eapply Qle_trans; [exact Hy|]. now rewrite Qabs_Qminus.
Qed.

(** C8 (amended). [_log_reading] appends one row to the session CSV, and
    reading that row back gives x_axis, y_axis, z_axis and magnitude within
    1e-6 of the values written (six fraction digits), and the timestamp
    within 1e-3 (three fraction digits). *)
Theorem csv_row_round_trip (fl : floats) (d : VibrationDetector) (r : VibrationReading)
  (path : string) (start : Q) :
  session_log_file d = Some path -> session_start_time d = Some start ->
  let row := log_row fl start r in
  read_file path (csv_files (_log_reading fl r d)) =
    Some (match read_file path (csv_files d) with
          | Some old => (old ++ row)%string
          | None => row
          end) /\
  exists p, parse_row row = Some p /\
    close_to 3 (row_timestamp p) (timestamp r) /\
    close_to 6 (row_x p) (x_axis r) /\
    close_to 6 (row_y p) (y_axis r) /\
    close_to 6 (row_z p) (z_axis r) /\
    close_to 6 (row_magnitude p) (magnitude r).
Proof.
  intros Hpath Hstart row. split.
  - unfold _log_reading, append_file. rewrite Hpath, Hstart. cbn [csv_files set_files].
    destruct (read_file path (csv_files d)); apply read_write_file.
  - eexists. split; [apply parse_log_row|].
    cbn [row_timestamp row_x row_y row_z row_magnitude].
    repeat split; try apply fixed_value_close_to; apply fixed_value_close_to.
Qed.

Lemma csv_row_round_trip_witness :
  exists p,
    parse_row (log_row sample_floats (inject_Z 1700000000) sample_reading) = Some p /\
    close_to 6 (row_magnitude p) (magnitude sample_reading).
Proof.
  destruct (csv_row_round_trip sample_floats sample_session sample_reading
              "data/vibration_logs/vibration_20231114_221320.csv" (inject_Z 1700000000)
              eq_refl eq_refl) as (_ & p & Hp & _ & _ & _ & _ & Hm).
  exists p. split; [exact Hp | exact Hm].
Defined.

(** C8, as stated, fails for the timestamp: it is written with three
    fraction digits, and the row of [sample_reading] reads back as
    1700000000.063, 0.0004765625 s away; so is every float within 1e-7 of
    that text. *)
Lemma timestamp_round_trip_counterexample :
  log_row sample_floats (inject_Z 1700000000) sample_reading =
    ("1700000000.063,0.063,15.000000,20.000000,0.000000,25.000000,," ++ newline)%string /\
  exists p,
    parse_row (log_row sample_floats (inject_Z 1700000000) sample_reading) = Some p /\
    row_timestamp p = 1700000000063 # 1000 /\
    ~ Qabs (row_timestamp p - timestamp sample_reading) <= 1 # 1000000 /\
    forall y, Qabs (y - row_timestamp p) <= 1 # 10000000 ->
              ~ Qabs (y - timestamp sample_reading) <= 1 # 1000000.
Proof.
  split; [vm_compute; reflexivity|].
  eexists. split; [vm_compute; reflexivity|].
  cbn [row_timestamp timestamp sample_reading].
  split; [reflexivity|]. split.
  - intros H. vm_compute in H. apply H. reflexivity.
  - intros y Hy H.
    apply Qabs_Qle_condition in Hy as [Hy1 Hy2].
    apply Qabs_Qle_condition in H as [H1 H2].
    assert (Hgap : (1700000000063 # 1000) - (1740800000065 # 1024) <=
                   - (4 # 10000)) by (vm_compute; discriminate).
    assert (Hy' : y - (1740800000065 # 1024) <= (1 # 10000000) + - (4 # 10000)).
    { setoid_replace (y - (1740800000065 # 1024))
        with ((y - (1700000000063 # 1000)) +
              ((1700000000063 # 1000) - (1740800000065 # 1024))) by ring.
      now apply Qplus_le_compat. }
    assert (Hcontra : - (1 # 1000000) <= (1 # 10000000) + - (4 # 10000))
      by (eapply Qle_trans; [exact H1 | exact Hy']).
    vm_compute in Hcontra. apply Hcontra. reflexivity.
Qed.

(** C7, as stated, fails: after [stop_monitoring] on a session with one
    reading (magnitude 25, a critical alert) the analyzer still holds the
    reading and the alert. *)
Lemma stop_keeps_analyzer_counterexample :
  let d := stop_monitoring sample_floats true (inject_Z 1700000060) (inject_Z 1700000060)
             (inject_Z 1700000060) sample_session in
  is_monitoring sample_session = true /\
  magnitude_buffer (analyzer d) = [25] /\
  timestamp_buffer (analyzer d) = [1740800000065 # 1024] /\
  total_samples (analyzer d) = 1%Z /\
  map severity (alerts (analyzer d)) = ["critical"%string] /\
  ~ cleared (analyzer d).
Proof.
  repeat split; try (vm_compute; reflexivity).
  intros (H & _). vm_compute in H. discriminate H.
Qed.

(** C7 (amended). [stop_monitoring] on an active session writes the JSON
    summary: the statistics snapshot of the analyzer (overall statistics,
    axis-wise statistics, the up to 10 most recent alerts) and the duration.
    It leaves the analyzer's buffers and counters as they are; they are
    cleared by [reset] when the next [start_monitoring] begins a session. *)
Theorem stop_monitoring_summary (fl : floats) (joined : bool)
  (t_end t_duration t_uptime : Q) (d : VibrationDetector) (sid : string) :
  is_monitoring d = true -> session_id d = Some sid ->
  let d' := stop_monitoring fl joined t_end t_duration t_uptime d in
  (exists summary,
     read_file (summary_path d sid) (json_files d') = Some summary /\
     sum_session_id summary = sid /\
     sum_duration_seconds summary = session_duration t_duration d /\
     sum_statistics summary = export_stats_json fl t_uptime (analyzer d) /\
     js_overall_stats (sum_statistics summary) = get_current_stats fl (analyzer d) /\
     js_axis_stats (sum_statistics summary) = get_axis_stats fl (analyzer d) /\
     js_recent_alerts (sum_statistics summary) = get_recent_alerts 10 (analyzer d)) /\
  analyzer d' = analyzer d /\
  is_running d' = false /\
  (forall name stamp now now_reset,
     sensor_connected d = true -> joined = true ->
     let d'' := snd (start_monitoring name stamp now now_reset d') in
     analyzer d'' = reset now_reset (analyzer d) /\ cleared (analyzer d'')).
Proof.
  intros Hmon Hsid d'. subst d'.
  unfold stop_monitoring, _save_session_summary. rewrite Hmon.
  cbn [negb session_id]. rewrite Hsid.
  cbn [json_files set_files analyzer is_running log_directory session_start_time
       sensor_config csv_files].
  split.
  - eexists. split; [apply read_write_file|]. repeat split.
  - split; [reflexivity|]. split; [reflexivity|].
    intros name stamp now now_reset Hconn ->.
    unfold start_monitoring. cbn [is_monitoring set_files sensor_connected analyzer].
    rewrite Hconn. cbn [negb snd analyzer]. split; [reflexivity|].
    unfold cleared, reset. cbn. repeat split.
Qed.

Lemma stop_monitoring_summary_witness :
  let d := stop_monitoring sample_floats true (inject_Z 1700000060) (inject_Z 1700000060)
             (inject_Z 1700000060) sample_session in
  is_monitoring sample_session = true /\
  session_id sample_session = Some "vibration_20231114_221320"%string /\
  analyzer d = analyzer sample_session /\
  exists summary,
    read_file "data/vibration_logs/vibration_20231114_221320_summary.json"
      (json_files d) = Some summary /\
    sum_duration_seconds summary == 60.
Proof.
  intros d.
  destruct (stop_monitoring_summary sample_floats true (inject_Z 1700000060)
              (inject_Z 1700000060) (inject_Z 1700000060) sample_session
              "vibration_20231114_221320" eq_refl eq_refl)
    as ((summary & Hfile & _ & Hdur & _) & Han & _).
  split; [reflexivity|]. split; [reflexivity|]. split; [exact Han|].
  exists summary. split; [exact Hfile|]. rewrite Hdur. reflexivity.
Defined.

(** *** The analyzer over a run of readings *)

Lemma newest_app_one {A} (n : nat) (x : A) (l : list A) :
  skipn (List.length (newest n l ++ [x]) - n) (newest n l ++ [x]) = newest n (l ++ [x]).
Proof.
  unfold newest. rewrite !length_app, length_skipn. simpl.
  destruct (Nat.le_gt_cases (List.length l) n) as [Hle|Hgt].
  - replace (List.length l - n)%nat with 0%nat by lia. simpl. f_equal. lia.
  - replace (List.length l - (List.length l - n) + 1 - n)%nat with 1%nat by lia.
    replace (List.length l + 1 - n)%nat with (1 + (List.length l - n))%nat by lia.
    rewrite <- skipn_skipn. f_equal. rewrite skipn_app.
    replace (List.length l - n - List.length l)%nat with 0%nat by lia. reflexivity.
Qed.

Lemma Qlt_bool_lt a b : Qlt_bool a b = true -> a < b.
Proof.
  unfold Qlt_bool. intros H. apply Qnot_le_lt. intros Hle.
  apply Qle_bool_iff in Hle. rewrite Hle in H. discriminate.
Qed.

Lemma check_thresholds_cases r a :
  _check_thresholds r a = a \/
  exists al,
    _check_thresholds r a = push_alert al (timestamp r) a /\
    alert_timestamp al = timestamp r /\
    alert_cooldown a < timestamp r - last_alert_time a.
Proof.
  unfold _check_thresholds. cbv zeta.
  destruct (Qlt_bool (alert_cooldown a) (timestamp r - last_alert_time a)) eqn:Hc.
  - apply Qlt_bool_lt in Hc.
    destruct (Qle_bool (critical (alert_thresholds a)) (magnitude r));
      [right; eexists; split; [reflexivity|]; split; [reflexivity | exact Hc]|].
    destruct (Qle_bool (high (alert_thresholds a)) (magnitude r));
      [right; eexists; split; [reflexivity|]; split; [reflexivity | exact Hc]|].
    destruct (Qle_bool (medium (alert_thresholds a)) (magnitude r));
      [right; eexists; split; [reflexivity|]; split; [reflexivity | exact Hc]|].
    destruct (Qle_bool (low (alert_thresholds a)) (magnitude r));
      [right; eexists; split; [reflexivity|]; split; [reflexivity | exact Hc]|].
    now left.
  - left.
    destruct (Qle_bool (critical (alert_thresholds a)) (magnitude r)); [reflexivity|].
    destruct (Qle_bool (high (alert_thresholds a)) (magnitude r)); [reflexivity|].
    destruct (Qle_bool (medium (alert_thresholds a)) (magnitude r)); [reflexivity|].
    destruct (Qle_bool (low (alert_thresholds a)) (magnitude r)); reflexivity.
Qed.

Lemma check_spike_cases fl r a :
  _check_spike fl r a = a \/
  exists al,
    _check_spike fl r a = push_alert al (timestamp r) a /\
    alert_timestamp al = timestamp r /\
    alert_cooldown a < timestamp r - last_alert_time a.
Proof.
  unfold _check_spike. cbv zeta.
  destruct (List.length (magnitude_buffer a) <? 10)%nat; [now left|].
  destruct (Qlt_bool (np_mean fl (removelast (magnitude_buffer a)) * 3) (magnitude r) &&
            Qlt_bool float_0_1 (np_mean fl (removelast (magnitude_buffer a))));
    [|now left].
  destruct (Qlt_bool (alert_cooldown a) (timestamp r - last_alert_time a)) eqn:Hc;
    [|now left].
  apply Qlt_bool_lt in Hc.
  right. eexists. split; [reflexivity|]. split; [reflexivity | exact Hc].
Qed.

(** The analyzer with the reading appended to its buffers, before the alert
    checks. *)
Lemma add_reading_fields fl r a :
  let a' := add_reading fl r a in
  window_size a' = window_size a /\
  alert_thresholds a' = alert_thresholds a /\
  alert_cooldown a' = alert_cooldown a /\
  magnitude_buffer a' = deque_append (window_size a) (magnitude r) (magnitude_buffer a) /\
  x_buffer a' = deque_append (window_size a) (x_axis r) (x_buffer a) /\
  y_buffer a' = deque_append (window_size a) (y_axis r) (y_buffer a) /\
  z_buffer a' = deque_append (window_size a) (z_axis r) (z_buffer a) /\
  timestamp_buffer a' = deque_append (window_size a) (timestamp r) (timestamp_buffer a) /\
  total_samples a' = (total_samples a + 1)%Z.
Proof.
  unfold add_reading. cbv zeta.
  match goal with |- context [_check_thresholds r ?x] => set (a0 := x) end.
  destruct (check_thresholds_cases r a0) as [-> | (al & -> & _)];
    match goal with |- context [_check_spike fl r ?x] => set (a1 := x) end;
    destruct (check_spike_cases fl r a1) as [-> | (al' & -> & _)];
    repeat split; reflexivity.
Qed.

Lemma add_readings_snoc fl rs r a :
  add_readings fl (rs ++ [r]) a = add_reading fl r (add_readings fl rs a).
Proof. unfold add_readings. now rewrite fold_left_app. Qed.

Lemma buffers_run fl window th now rs :
  let a := add_readings fl rs (new_analyzer window th now) in
  window_size a = window /\ alert_thresholds a = th /\ alert_cooldown a = 5 /\
  magnitude_buffer a = newest window (map magnitude rs) /\
  x_buffer a = newest window (map x_axis rs) /\
  y_buffer a = newest window (map y_axis rs) /\
  z_buffer a = newest window (map z_axis rs) /\
  timestamp_buffer a = newest window (map timestamp rs) /\
  total_samples a = Z.of_nat (List.length rs).
Proof.
  induction rs as [|r rs IH] using rev_ind.
  - cbv zeta. simpl. repeat split; reflexivity.
  - cbv zeta in *. rewrite add_readings_snoc.
    destruct IH as (Hw & Hth & Hc & Hm & Hx & Hy & Hz & Ht & Hn).
    destruct (add_reading_fields fl r (add_readings fl rs (new_analyzer window th now)))
      as (Gw & Gth & Gc & Gm & Gx & Gy & Gz & Gt & Gn).
    rewrite Gw, Gth, Gc, Gm, Gx, Gy, Gz, Gt, Gn, Hw, Hth, Hc, Hm, Hx, Hy, Hz, Ht, Hn.
    unfold deque_append. rewrite !map_app. simpl map.
    rewrite !newest_app_one, length_app. simpl.
    repeat split; try reflexivity. lia.
Qed.

Lemma newest_length {A} (n : nat) (l : list A) :
  List.length (newest n l) = Nat.min (List.length l) n.
Proof. unfold newest. rewrite length_skipn. lia. Qed.

(** X20. The analyzer keeps a sliding window: after any run of readings its
    five buffers hold the values of the [window_size] newest readings, oldest
    first and aligned with each other (nothing at all for a window of 0),
    while [total_samples] counts every reading. *)
Theorem buffers_hold_newest_window (fl : floats) (window : nat) (th : thresholds) (now : Q)
    (rs : list VibrationReading) :
  let a := add_readings fl rs (new_analyzer window th now) in
  magnitude_buffer a = newest window (map magnitude rs) /\
  x_buffer a = newest window (map x_axis rs) /\
  y_buffer a = newest window (map y_axis rs) /\
  z_buffer a = newest window (map z_axis rs) /\
  timestamp_buffer a = newest window (map timestamp rs) /\
  List.length (magnitude_buffer a) = Nat.min (List.length rs) window /\
  total_samples a = Z.of_nat (List.length rs).
Proof.
  destruct (buffers_run fl window th now rs) as (_ & _ & _ & Hm & Hx & Hy & Hz & Ht & Hn).
  cbv zeta. rewrite Hm, Hx, Hy, Hz, Ht, Hn, newest_length, length_map.
  repeat split; reflexivity.
Qed.

Lemma last_n_newest {A} (k n : nat) (l : list A) :
  last_n k (newest n l) = newest (Nat.min k n) l.
Proof.
  unfold last_n, newest. rewrite length_skipn, skipn_skipn. f_equal. lia.
Qed.

(** X21. [is_abnormal] looks at the newest five readings only (fewer when
    the window is smaller): it is true exactly when one of them reaches the
    medium threshold, so it is false before the first reading and drops back
    to false once five readings below the threshold have followed. *)
Theorem is_abnormal_spec (fl : floats) (window : nat) (th : thresholds) (now : Q)
    (rs : list VibrationReading) :
  is_abnormal (add_readings fl rs (new_analyzer window th now)) =
  existsb (fun mag => Qle_bool (medium th) mag)
    (newest (Nat.min 5 window) (map magnitude rs)).
Proof.
  destruct (buffers_run fl window th now rs) as (_ & Hth & _ & Hm & _).
  unfold is_abnormal. cbv zeta in *. now rewrite Hth, Hm, last_n_newest.
Qed.

Lemma hd_skipn {A} (d : A) (l : list A) : forall k, hd d (skipn k l) = nth k l d.
Proof.
  induction l as [|x l IH]; intros [|k]; simpl; auto.
Qed.

Lemma last_skipn {A} (d : A) (l : list A) : forall k,
  (k < List.length l)%nat -> last (skipn k l) d = last l d.
Proof.
  induction l as [|x l IH]; intros [|k] Hk; simpl in *; try lia; [reflexivity|].
  rewrite IH by lia. destruct l; [simpl in Hk; lia | reflexivity].
Qed.

(** X22. [get_current_stats] needs two readings in the window: it is [None]
    as long as fewer than two readings were added, and for ever with a window
    below 2. Otherwise the statistics are those of the newest [window_size]
    magnitudes, [sample_count] is their number, and [duration_seconds] is the
    time from the oldest reading still in the window to the newest. *)
Theorem get_current_stats_spec (fl : floats) (window : nat) (th : thresholds) (now : Q)
    (rs : list VibrationReading) :
  let a := add_readings fl rs (new_analyzer window th now) in
  let n := Nat.min (List.length rs) window in
  (get_current_stats fl a = None <-> (n < 2)%nat) /\
  (forall st, get_current_stats fl a = Some st ->
     sample_count st = n /\
     mean_magnitude st = np_mean fl (newest window (map magnitude rs)) /\
     peak_to_peak st = max_magnitude st - min_magnitude st /\
     duration_seconds st =
       last (map timestamp rs) 0 - nth (List.length rs - n) (map timestamp rs) 0).
Proof.
  destruct (buffers_run fl window th now rs) as (_ & _ & _ & Hm & _ & _ & _ & Ht & _).
  cbv zeta in *. unfold get_current_stats. rewrite Hm, Ht, newest_length, length_map.
  destruct (Nat.ltb_spec (Nat.min (List.length rs) window) 2) as [Hlt|Hge].
  - split; [tauto | discriminate].
  - split; [split; [discriminate | lia]|].
    intros st [= <-]. simpl.
    split; [reflexivity|]. split; [reflexivity|]. split; [reflexivity|].
    unfold newest. rewrite hd_skipn, last_skipn, length_map.
    + replace (List.length rs - Nat.min (List.length rs) window)%nat
        with (List.length rs - window)%nat by lia. reflexivity.
    + rewrite length_map. lia.
Qed.

(** *** Alerts *)

Lemma last_cons_default {A} (x d : A) (l : list A) : last (x :: l) d = last l x.
Proof.
  revert x d. induction l as [|y l IH]; intros x d; [reflexivity|].
  change (last (x :: y :: l) d) with (last (y :: l) d). rewrite !IH. reflexivity.
Qed.

Lemma spaced_snoc c al : forall l prev,
  spaced c prev l ->
  c < alert_timestamp al - last (map alert_timestamp l) prev ->
  spaced c prev (l ++ [al]).
Proof.
  induction l as [|a1 l IH]; intros prev Hs Hlt.
  - simpl in *. split; [exact Hlt | exact I].
  - destruct Hs as [H1 Hs]. simpl map in Hlt. rewrite last_cons_default in Hlt.
    simpl. split; [exact H1|]. now apply IH.
Qed.

Lemma spaced_adjacent c al1 al2 post : forall pre prev,
  spaced c prev (pre ++ al1 :: al2 :: post) ->
  c < alert_timestamp al2 - alert_timestamp al1.
Proof.
  induction pre as [|a0 pre IH]; intros prev Hs.
  - simpl in Hs. tauto.
  - destruct Hs as [_ Hs]. now apply IH with (alert_timestamp a0).
Qed.

(** The alert list and the time of the last alert go together. *)
Lemma alerts_step fl r a :
  alert_cooldown a = 5 ->
  last_alert_time a = last (map alert_timestamp (alerts a)) 0 ->
  spaced 5 0 (alerts a) ->
  let a' := add_reading fl r a in
  last_alert_time a' = last (map alert_timestamp (alerts a')) 0 /\
  spaced 5 0 (alerts a') /\
  (alerts a' = alerts a \/
   exists al, alerts a' = alerts a ++ [al] /\ alert_timestamp al = timestamp r).
Proof.
  intros Hc Hlast Hs. unfold add_reading. cbv zeta.
  match goal with |- context [_check_thresholds r ?x] => set (a0 := x) end.
  assert (H0 : alert_cooldown a0 = 5 /\ last_alert_time a0 = last_alert_time a /\
               alerts a0 = alerts a) by (repeat split; assumption).
  destruct H0 as (Hc0 & Hl0 & Ha0). clearbody a0.
  destruct (check_thresholds_cases r a0) as [-> | (al & -> & Hts & Hlt)].
  - destruct (check_spike_cases fl r a0) as [-> | (al' & -> & Hts' & Hlt')].
    + rewrite Ha0, Hl0. auto.
    + rewrite Hc0, Hl0, Hlast in Hlt'. simpl. rewrite Ha0, map_app. simpl map. rewrite last_last.
      split; [now rewrite Hts'|]. split; [|right; exists al'; auto].
      apply spaced_snoc; [exact Hs | now rewrite Hts'].
  - rewrite Hc0, Hl0, Hlast in Hlt.
    assert (Hsp : spaced 5 0 (alerts a ++ [al]))
      by (apply spaced_snoc; [exact Hs | now rewrite Hts]).
    destruct (check_spike_cases fl r (push_alert al (timestamp r) a0))
      as [-> | (al' & _ & _ & Hlt')].
    + simpl. rewrite Ha0, map_app. simpl map. rewrite last_last.
      split; [now rewrite Hts|]. split; [exact Hsp | right; exists al; auto].
    + exfalso. simpl in Hlt'. rewrite Hc0 in Hlt'.
      assert (Hz : timestamp r - timestamp r == 0) by ring.
      rewrite Hz in Hlt'. discriminate Hlt'.
Qed.

Lemma alerts_run fl rs : forall a,
  alert_cooldown a = 5 ->
  last_alert_time a = last (map alert_timestamp (alerts a)) 0 ->
  spaced 5 0 (alerts a) ->
  let a' := add_readings fl rs a in
  alert_cooldown a' = 5 /\
  last_alert_time a' = last (map alert_timestamp (alerts a')) 0 /\
  spaced 5 0 (alerts a') /\
  (List.length (alerts a') <= List.length (alerts a) + List.length rs)%nat.
Proof.
  induction rs as [|r rs IH]; intros a Hc Hlast Hs; simpl;
    [split; [exact Hc | split; [exact Hlast | split; [exact Hs | lia]]]|].
  destruct (alerts_step fl r a Hc Hlast Hs) as (Hlast' & Hs' & Hal).
  destruct (add_reading_fields fl r a) as (_ & _ & Hc' & _).
  destruct (IH (add_reading fl r a)) as (IH0 & IH1 & IH2 & IH3);
    [congruence | exact Hlast' | exact Hs' |].
  split; [exact IH0|]. split; [exact IH1|]. split; [exact IH2|].
  destruct Hal as [Heq | (al & Heq & _)]; rewrite Heq in IH3;
    [|rewrite length_app in IH3; simpl in IH3]; lia.
Qed.

(** X23. Alerts are rate-limited by the cooldown of 5 s, for threshold and
    spike alerts together: a reading raises at most one alert (a spike is not
    reported on a reading that raised a threshold alert), and each alert of
    the list comes more than 5 s, by the readings' timestamps, after the one
    before it; the first one only for a timestamp above 5. *)
Theorem alerts_respect_cooldown (fl : floats) (window : nat) (th : thresholds) (now : Q)
    (rs : list VibrationReading) :
  let a := add_readings fl rs (new_analyzer window th now) in
  (forall r,
     alerts (add_reading fl r a) = alerts a \/
     exists al, alerts (add_reading fl r a) = alerts a ++ [al] /\
                alert_timestamp al = timestamp r) /\
  (List.length (alerts a) <= List.length rs)%nat /\
  (forall al rest, alerts a = al :: rest -> 5 < alert_timestamp al) /\
  (forall pre al1 al2 post,
     alerts a = pre ++ al1 :: al2 :: post ->
     5 < alert_timestamp al2 - alert_timestamp al1).
Proof.
  destruct (alerts_run fl rs (new_analyzer window th now)) as (Hc & Hl & Hs & Hn);
    [reflexivity | reflexivity | exact I |].
  cbv zeta in *. split; [|split; [exact Hn | split]].
  - intros r. apply (alerts_step fl r _ Hc Hl Hs).
  - intros al rest Heq. rewrite Heq in Hs. destruct Hs as [Hlt _].
    assert (Hz : alert_timestamp al - 0 == alert_timestamp al) by ring.
    now rewrite Hz in Hlt.
  - intros pre al1 al2 post Heq. rewrite Heq in Hs.
    now apply spaced_adjacent in Hs.
Qed.

(** *** The session log *)

Lemma read_file_filter_other {A} (p path : string) (fs : list (string * A)) :
  p <> path ->
  read_file p (filter (fun pc => negb (String.eqb (fst pc) path)) fs) = read_file p fs.
Proof.
  intros Hne. induction fs as [|[q c] fs IH]; simpl; [reflexivity|].
  destruct (String.eqb q path) eqn:E; simpl.
  - apply String.eqb_eq in E. subst q.
    destruct (String.eqb path p) eqn:E'; [|exact IH].
    apply String.eqb_eq in E'. now elim Hne.
  - destruct (String.eqb q p); [reflexivity | exact IH].
Qed.

Lemma read_write_file_other {A} (p path : string) (c : A) (fs : list (string * A)) :
  p <> path -> read_file p (write_file path c fs) = read_file p fs.
Proof.
  intros Hne. unfold write_file. simpl.
  destruct (String.eqb path p) eqn:E; [apply String.eqb_eq in E; now elim Hne|].
  now apply read_file_filter_other.
Qed.

Lemma log_rows_snoc fl start rs r :
  log_rows fl start (rs ++ [r]) = (log_rows fl start rs ++ log_row fl start r)%string.
Proof.
  unfold log_rows. induction rs as [|r0 rs IH]; simpl.
  - now rewrite PyFormatFacts.append_empty_r.
  - now rewrite IH, PyFormatFacts.append_assoc.
Qed.

Lemma monitoring_steps_snoc fl rs r d :
  monitoring_steps fl (rs ++ [r]) d = monitoring_step fl r (monitoring_steps fl rs d).
Proof. unfold monitoring_steps. now rewrite fold_left_app. Qed.

Lemma monitoring_steps_log fl path start text0 rs : forall d,
  session_log_file d = Some path -> session_start_time d = Some start ->
  read_file path (csv_files d) = Some text0 ->
  let d' := monitoring_steps fl rs d in
  session_log_file d' = Some path /\ session_start_time d' = Some start /\
  read_file path (csv_files d') = Some (text0 ++ log_rows fl start rs)%string /\
  (forall p, p <> path -> read_file p (csv_files d') = read_file p (csv_files d)) /\
  json_files d' = json_files d /\
  analyzer d' = add_readings fl rs (analyzer d) /\
  latest_reading d' = last (map Some rs) (latest_reading d) /\
  is_monitoring d' = is_monitoring d.
Proof.
  intros d Hf Hst Hrd. induction rs as [|r rs IH] using rev_ind.
  - cbv zeta. simpl. rewrite PyFormatFacts.append_empty_r. repeat split; auto.
  - cbv zeta in *. rewrite monitoring_steps_snoc.
    destruct IH as (IHf & IHst & IHrd & IHo & IHj & IHa & IHl & IHm).
    set (d1 := monitoring_steps fl rs d) in *.
    unfold monitoring_step, _log_reading. simpl. rewrite IHf, IHst.
    unfold set_files. simpl. unfold append_file. rewrite IHrd.
    rewrite read_write_file, log_rows_snoc, PyFormatFacts.append_assoc.
    rewrite map_app. simpl map. rewrite last_last, add_readings_snoc, IHa.
    repeat split; auto.
    intros p Hp. rewrite read_write_file_other by exact Hp. now apply IHo.
Qed.

(** X24. A session log is the header followed by one row per reading, in
    the order the readings were taken: [start_monitoring] creates the file of
    the session (replacing an older file of that name) with the header line,
    and every pass of the monitoring loop appends the row of its reading.
    Other files of the log directory are not touched, and the analyzer has
    seen exactly these readings since its reset. *)
Theorem session_log_is_header_and_rows (fl : floats) (name : option string)
    (stamp : string) (now now_reset : Q) (d d1 : VibrationDetector)
    (rs : list VibrationReading) :
  start_monitoring name stamp now now_reset d = (true, d1) ->
  let d' := monitoring_steps fl rs d1 in
  exists path,
    session_log_file d' = Some path /\
    read_file path (csv_files d') = Some (csv_header ++ log_rows fl now rs)%string /\
    (forall p, p <> path -> read_file p (csv_files d') = read_file p (csv_files d)) /\
    json_files d' = json_files d /\
    analyzer d' = add_readings fl rs (reset now_reset (analyzer d)) /\
    latest_reading d' = last (map Some rs) (latest_reading d).
Proof.
  unfold start_monitoring.
  destruct (is_monitoring d); [discriminate|].
  destruct (negb (sensor_connected d)); [discriminate|].
  intros [= <-]. cbv zeta.
  match goal with
  | |- context [mk_detector _ _ _ _ _ _ _ (Some ?f) _ _ _ _] => set (file := f)
  end.
  match goal with |- context [monitoring_steps fl rs ?x] => set (d0 := x) end.
  destruct (monitoring_steps_log fl file now csv_header rs d0)
    as (Hf & _ & Hrd & Ho & Hj & Ha & Hl & _);
    [reflexivity | reflexivity | apply read_write_file |].
  exists file. split; [exact Hf|]. split; [exact Hrd|].
  split; [|split; [exact Hj | split; [exact Ha | exact Hl]]].
  intros p Hp. rewrite (Ho p Hp). simpl. now apply read_write_file_other.
Qed.

Lemma session_log_is_header_and_rows_witness :
  exists path,
    session_log_file sample_session = Some path /\
    read_file path (csv_files sample_session) =
      Some (csv_header ++
            log_rows sample_floats (inject_Z 1700000000) [sample_reading])%string.
Proof.
  destruct (session_log_is_header_and_rows sample_floats None "20231114_221320"
              (inject_Z 1700000000) (inject_Z 1700000000) fresh_detector
              (snd (start_monitoring None "20231114_221320" (inject_Z 1700000000)
                      (inject_Z 1700000000) fresh_detector))
              [sample_reading] eq_refl)
    as (path & Hf & Hrd & _).
  exists path. split; [exact Hf | exact Hrd].
Defined.

(** X25. A detector whose monitoring thread has not ended within the 2 s of
    the join in [stop_monitoring] still counts as monitoring: the summary is
    written and [is_running] is cleared, but [is_monitoring] stays true and
    [start_monitoring] is refused, returning [False] and changing nothing.
    When the thread has ended, a detector with a connected sensor can be
    started again. *)
Theorem restart_refused_until_thread_ends (fl : floats) (t_end t_duration t_uptime : Q)
    (d : VibrationDetector) :
  is_monitoring d = true ->
  (let d' := stop_monitoring fl false t_end t_duration t_uptime d in
   is_monitoring d' = true /\ is_running d' = false /\
   forall name stamp now now_reset,
     start_monitoring name stamp now now_reset d' = (false, d')) /\
  (let d' := stop_monitoring fl true t_end t_duration t_uptime d in
   is_monitoring d' = false /\
   stop_monitoring fl true t_end t_duration t_uptime d' = d' /\
   forall name stamp now now_reset,
     fst (start_monitoring name stamp now now_reset d') = sensor_connected d).
Proof.
  intros Hm. destruct d as [cfg dir sc an run mon sid file st lr csv js].
  simpl in Hm. subst mon.
  unfold stop_monitoring, _save_session_summary. simpl.
  split.
  - destruct sid; simpl;
      (split; [reflexivity|]); (split; [reflexivity|]); intros; reflexivity.
  - destruct sid; simpl;
      (split; [reflexivity|]); (split; [reflexivity|]);
      intros; unfold start_monitoring; simpl; destruct sc; reflexivity.
Qed.

Lemma restart_refused_until_thread_ends_witness :
  fst (start_monitoring None "20231114_221500" (inject_Z 1700000090) (inject_Z 1700000090)
         (stop_monitoring sample_floats false (inject_Z 1700000060) (inject_Z 1700000060)
            (inject_Z 1700000060) sample_session)) = false.
Proof.
  destruct (restart_refused_until_thread_ends sample_floats (inject_Z 1700000060)
              (inject_Z 1700000060) (inject_Z 1700000060) sample_session eq_refl)
    as [(_ & _ & H) _].
  now rewrite H.
Defined.

End VibrationFacts.

Module ModbusFacts.

Import Modbus.

(** *** Bytes and the CRC *)

Lemma byte_val_bound b : 0 <= byte_val b <= 255.
Proof. unfold byte_val. pose proof (Byte.to_N_bounded b). lia. Qed.

Lemma byte_val_of n : 0 <= n <= 255 -> byte_val (byte_of n) = n.
Proof.
  intros Hn. unfold byte_val, byte_of.
  destruct (Byte.of_N (Z.to_N n)) as [b|] eqn:E.
  - apply Byte.to_of_N in E. rewrite E. lia.
  - apply Byte.of_N_None_iff in E. lia.
Qed.

Lemma byte_of_val b : byte_of (byte_val b) = b.
Proof. unfold byte_val, byte_of. now rewrite N2Z.id, Byte.of_to_N. Qed.

Lemma lxor_bound n a b :
  0 < n -> 0 <= a < 2 ^ n -> 0 <= b < 2 ^ n -> 0 <= Z.lxor a b < 2 ^ n.
Proof.
  intros Hn Ha Hb.
  assert (H0 : 0 <= Z.lxor a b) by (apply Z.lxor_nonneg; lia).
  split; [exact H0|].
  destruct (Z.eq_dec (Z.lxor a b) 0) as [->|Hne]; [apply Z.pow_pos_nonneg; lia|].
  apply Z.log2_lt_pow2; [lia|].
  pose proof (Z.log2_lxor a b (proj1 Ha) (proj1 Hb)) as Hl.
  assert (Hla : Z.log2 a < n).
  { destruct (Z.eq_dec a 0) as [->|Hna]; [simpl; lia | apply Z.log2_lt_pow2; lia]. }
  assert (Hlb : Z.log2 b < n).
  { destruct (Z.eq_dec b 0) as [->|Hnb]; [simpl; lia | apply Z.log2_lt_pow2; lia]. }
  lia.
Qed.

Lemma crc_shift_bound c : 0 <= c < 2 ^ 16 -> 0 <= crc_shift c < 2 ^ 16.
Proof.
  intros Hc. unfold crc_shift.
  assert (Hs : 0 <= Z.shiftr c 1 < 2 ^ 15).
  { rewrite Z.shiftr_div_pow2 by lia. change (2 ^ 1) with 2.
    split; [apply Z.div_pos; lia | apply Z.div_lt_upper_bound; lia]. }
  destruct (negb (Z.land c 1 =? 0)).
  - apply lxor_bound; lia.
  - lia.
Qed.

Lemma crc_byte_bound c b : 0 <= c < 2 ^ 16 -> 0 <= crc_byte c b < 2 ^ 16.
Proof.
  intros Hc. unfold crc_byte.
  assert (H0 : 0 <= Z.lxor c (byte_val b) < 2 ^ 16)
    by (apply lxor_bound; [lia | exact Hc | pose proof (byte_val_bound b); lia]).
  simpl. repeat apply crc_shift_bound. exact H0.
Qed.

Lemma fold_crc_bound data : forall c,
  0 <= c < 2 ^ 16 -> 0 <= fold_left crc_byte data c < 2 ^ 16.
Proof.
  induction data as [|b data IH]; intros c Hc; simpl; [exact Hc|].
  apply IH. now apply crc_byte_bound.
Qed.

Lemma crc_bound data : 0 <= _calculate_crc data < 2 ^ 16.
Proof. unfold _calculate_crc. apply fold_crc_bound. lia. Qed.

Lemma crc_shift_even k : crc_shift (2 * k) = k.
Proof.
  unfold crc_shift.
  assert (Hl : Z.land (2 * k) 1 = 0).
  { change 1 with (Z.ones 1). rewrite Z.land_ones by lia.
    change (2 ^ 1) with 2. rewrite Z.mul_comm. apply Z.mod_mul. lia. }
  rewrite Hl. simpl negb. cbv iota.
  rewrite Z.shiftr_div_pow2 by lia. change (2 ^ 1) with 2.
  rewrite Z.mul_comm. apply Z.div_mul. lia.
Qed.

Lemma lxor_low_byte c : Z.lxor c (c mod 256) = 256 * (c / 256).
Proof.
  apply Z.bits_inj'. intros i Hi.
  rewrite Z.lxor_spec. change 256 with (2 ^ 8).
  rewrite Z.testbit_mod_pow2 by lia.
  rewrite (Z.mul_comm (2 ^ 8)), Z.mul_pow2_bits by lia.
  destruct (Z.ltb_spec i 8) as [Hlt|Hge].
  - rewrite (Z.testbit_neg_r _ (i - 8)) by lia. simpl. apply xorb_nilpotent.
  - rewrite Z.div_pow2_bits by lia. replace (i - 8 + 8) with i by lia.
    simpl. apply xorb_false_r.
Qed.

Lemma iter_8 {A} (f : A -> A) (x : A) :
  Nat.iter 8 f x = f (f (f (f (f (f (f (f x))))))).
Proof. reflexivity. Qed.

Lemma crc_byte_low c : 0 <= c < 2 ^ 16 -> crc_byte c (byte_of (c mod 256)) = c / 256.
Proof.
  intros Hc. unfold crc_byte.
  rewrite byte_val_of by (pose proof (Z.mod_pos_bound c 256); lia).
  rewrite lxor_low_byte.
  replace (256 * (c / 256)) with (2 * (2 * (2 * (2 * (2 * (2 * (2 * (2 * (c / 256))))))))) by lia.
  rewrite iter_8. now rewrite !crc_shift_even.
Qed.

Lemma crc_byte_same h : 0 <= h <= 255 -> crc_byte h (byte_of h) = 0.
Proof.
  intros Hh. unfold crc_byte. rewrite byte_val_of by exact Hh.
  rewrite Z.lxor_nilpotent. reflexivity.
Qed.

Lemma pack_crc data : pack_H_le (_calculate_crc data) = Py.Returned (crc_bytes data).
Proof.
  unfold pack_H_le, crc_bytes. pose proof (crc_bound data) as Hb.
  destruct (Z.leb_spec 0 (_calculate_crc data)); [|lia].
  destruct (Z.leb_spec (_calculate_crc data) 65535); [reflexivity | lia].
Qed.

Lemma unpack_crc data : unpack_H_le (crc_bytes data) = Py.Returned (_calculate_crc data).
Proof.
  unfold unpack_H_le, crc_bytes. pose proof (crc_bound data) as Hb.
  rewrite !byte_val_of.
  - f_equal. rewrite (Z.div_mod (_calculate_crc data) 256) at 3 by lia. lia.
  - split; [apply Z.div_pos; lia | apply Z.lt_succ_r, Z.div_lt_upper_bound; lia].
  - pose proof (Z.mod_pos_bound (_calculate_crc data) 256). lia.
Qed.

Lemma crc_residue data : _calculate_crc (data ++ crc_bytes data) = 0.
Proof.
  pose proof (crc_bound data) as Hb.
  unfold _calculate_crc, crc_bytes in *. rewrite fold_left_app. cbn [fold_left].
  rewrite crc_byte_low by exact Hb.
  apply crc_byte_same. pose proof (crc_bound data) as Hc.
  split; [apply Z.div_pos; lia | apply Z.lt_succ_r, Z.div_lt_upper_bound; lia].
Qed.

(** X26. The Modbus CRC is a 16-bit value, so packing it as [<H] never
    fails; and a frame followed by its CRC, low byte first, has CRC 0, which
    is the check a Modbus device applies to the request it receives. *)
Theorem crc_appended_gives_zero (data : list Byte.byte) :
  0 <= _calculate_crc data <= 0xFFFF /\
  pack_H_le (_calculate_crc data) = Py.Returned (crc_bytes data) /\
  _calculate_crc (data ++ crc_bytes data) = 0.
Proof.
  pose proof (crc_bound data) as Hb.
  split; [change 0xFFFF with 65535; lia|]. split; [apply pack_crc | apply crc_residue].
Qed.

(** *** Requests and responses *)

Lemma pack_in_range slave start count :
  in_range slave start count ->
  pack_BBHH slave 0x03 start count =
    Py.Returned [byte_of slave; Byte.x03; byte_of (start / 256); byte_of (start mod 256);
                 byte_of (count / 256); byte_of (count mod 256)].
Proof.
  intros (Hs & Ha & Hc). unfold pack_BBHH, pack_B, pack_H_be.
  repeat match goal with
         | |- context [?a <=? ?b] =>
             destruct (Z.leb_spec a b); [|lia]
         end.
  reflexivity.
Qed.

Lemma pack_out_of_range slave start count :
  ~ in_range slave start count ->
  pack_BBHH slave 0x03 start count = Py.Raised struct_error.
Proof.
  intros Hn. unfold pack_BBHH, pack_B, pack_H_be.
  destruct (Z.leb_spec 0 slave), (Z.leb_spec slave 255),
    (Z.leb_spec 0 start), (Z.leb_spec start 65535),
    (Z.leb_spec 0 count), (Z.leb_spec count 65535); simpl; try reflexivity.
  elim Hn. unfold in_range. lia.
Qed.

Lemma last_two_app {A} (body : list A) (x y : A) : last_two (body ++ [x; y]) = [x; y].
Proof.
  unfold last_two. rewrite length_app. simpl.
  replace (List.length body + 2 - 2)%nat with (List.length body + 0)%nat by lia.
  rewrite skipn_app, Nat.add_0_r, skipn_all.
  replace (List.length body - List.length body)%nat with 0%nat by lia. reflexivity.
Qed.

Lemma but_last_two_app {A} (body : list A) (x y : A) :
  but_last_two (body ++ [x; y]) = body.
Proof.
  unfold but_last_two. rewrite length_app. simpl.
  replace (List.length body + 2 - 2)%nat with (List.length body) by lia.
  rewrite firstn_app, firstn_all.
  replace (List.length body - List.length body)%nat with 0%nat by lia.
  simpl. apply app_nil_r.
Qed.

Lemma split_last_two {A} (l : list A) :
  (2 <= List.length l)%nat -> l = but_last_two l ++ last_two l.
Proof. intros _. unfold but_last_two, last_two. symmetry. apply firstn_skipn. Qed.

Lemma last_two_length {A} (l : list A) :
  (2 <= List.length l)%nat -> exists x y, last_two l = [x; y].
Proof.
  intros Hl. unfold last_two.
  assert (Hlen : List.length (skipn (List.length l - 2) l) = 2%nat)
    by (rewrite length_skipn; lia).
  destruct (skipn (List.length l - 2) l) as [|x [|y [|z r]]]; try discriminate.
  now exists x, y.
Qed.

Lemma unpack_crc_inv lo hi c :
  0 <= c < 2 ^ 16 -> byte_val lo + 256 * byte_val hi = c ->
  [lo; hi] = [byte_of (c mod 256); byte_of (c / 256)].
Proof.
  intros Hc Heq. pose proof (byte_val_bound lo). pose proof (byte_val_bound hi).
  assert (Hm : c mod 256 = byte_val lo).
  { rewrite <- Heq, (Z.mul_comm 256), Z.mod_add by lia. apply Z.mod_small. lia. }
  assert (Hd : c / 256 = byte_val hi).
  { rewrite <- Heq, (Z.mul_comm 256), Z.div_add by lia.
    rewrite Z.div_small by lia. lia. }
  now rewrite Hm, Hd, !byte_of_val.
Qed.

(** What a call of [_read_holding_registers] can do. *)
Lemma read_cases connected slave port start count written :
  exists r w',
    _read_holding_registers connected slave port start count written = (r, w') /\
    ((r = Py.Returned None /\
      (w' = written \/ w' = written ++ [request_frame slave start count])) \/
     (exists e, r = Py.Raised e /\ e <> SerialException) \/
     (exists arrived,
        connected = true /\ in_range slave start count /\
        incoming port = Py.Returned arrived /\
        let response := firstn (Z.to_nat (5 + count * 2)) arrived in
        (5 <= List.length response)%nat /\
        response = but_last_two response ++ crc_bytes (but_last_two response) /\
        r = Py.Returned
              (Some (firstn (Z.to_nat (byte_val (nth 2 response Byte.x00)))
                       (skipn 3 response))) /\
        w' = written ++ [request_frame slave start count])).
Proof.
  unfold _read_holding_registers. cbv zeta.
  destruct connected;
    [|do 2 eexists; split; [reflexivity|]; left; split; [reflexivity | now left]].
  simpl negb. cbv iota.
  unfold Py.bind at 1. unfold Py.call at 1.
  destruct (in_range_dec slave start count) as [Hr|Hr].
  2:{ rewrite (pack_out_of_range _ _ _ Hr).
      do 2 eexists. split; [reflexivity|]. right; left.
      exists struct_error. split; [reflexivity | discriminate]. }
  rewrite (pack_in_range _ _ _ Hr).
  unfold Py.bind at 1. unfold Py.call at 1. rewrite pack_crc.
  fold (request_frame slave start count).
  unfold try_except_kind, Py.bind, Py.call, Py.modify, Py.ret.
  destruct (reset_input_buffer port) as [[]|e1].
  2:{ destruct (String.eqb e1 SerialException) eqn:E1;
        do 2 eexists; (split; [reflexivity|]).
      - left. split; [reflexivity | now left].
      - right; left. exists e1. split; [reflexivity|]. now apply String.eqb_neq. }
  destruct (write port) as [[]|e2].
  2:{ destruct (String.eqb e2 SerialException) eqn:E2;
        do 2 eexists; (split; [reflexivity|]).
      - left. split; [reflexivity | now left].
      - right; left. exists e2. split; [reflexivity|]. now apply String.eqb_neq. }
  destruct (incoming port) as [arrived|e3].
  2:{ destruct (String.eqb e3 SerialException) eqn:E3;
        do 2 eexists; (split; [reflexivity|]).
      - left. split; [reflexivity | now right].
      - right; left. exists e3. split; [reflexivity|]. now apply String.eqb_neq. }
  set (response := firstn (Z.to_nat (5 + count * 2)) arrived).
  destruct (Nat.ltb_spec (List.length response) 5) as [Hlt|Hge];
    [do 2 eexists; split; [reflexivity|]; left; split; [reflexivity | now right]|].
  destruct (last_two_length response ltac:(lia)) as (lo & hi & Hl2).
  rewrite Hl2. cbn [unpack_H_le].
  destruct (Z.eqb_spec (byte_val lo + 256 * byte_val hi)
              (_calculate_crc (but_last_two response))) as [Heq|Hne]; simpl negb; cbv iota;
    (do 2 eexists; split; [reflexivity|]);
    [|left; split; [reflexivity | now right]].
  right; right. exists arrived. split; [reflexivity|]. split; [exact Hr|].
  split; [reflexivity|]. fold response. cbv zeta.
  split; [exact Hge|]. split; [|split; reflexivity].
  unfold crc_bytes.
  rewrite <- (unpack_crc_inv lo hi _ (crc_bound _) Heq), <- Hl2.
  apply split_last_two. lia.
Qed.

Lemma read_delivers slave start count arrived written :
  in_range slave start count ->
  _read_holding_registers true slave (delivers arrived) start count written =
    (let response := firstn (Z.to_nat (5 + count * 2)) arrived in
     if (List.length response <? 5)%nat then Py.Returned None
     else
       match unpack_H_le (last_two response) with
       | Py.Returned received_crc =>
           if negb (received_crc =? _calculate_crc (but_last_two response))
           then Py.Returned None
           else Py.Returned
                  (Some (firstn (Z.to_nat (byte_val (nth 2 response Byte.x00)))
                           (skipn 3 response)))
       | Py.Raised e =>
           if String.eqb e SerialException then Py.Returned None else Py.Raised e
       end,
     written ++ [request_frame slave start count]).
Proof.
  intros Hr.
  assert (H1 : reset_input_buffer (delivers arrived) = Py.Returned tt) by reflexivity.
  assert (H2 : write (delivers arrived) = Py.Returned tt) by reflexivity.
  assert (H3 : incoming (delivers arrived) = Py.Returned arrived) by reflexivity.
  set (port := delivers arrived) in *. clearbody port.
  unfold _read_holding_registers. cbv zeta. cbn [negb].
  unfold Py.bind at 1. unfold Py.call at 1. rewrite (pack_in_range _ _ _ Hr).
  unfold Py.bind at 1. unfold Py.call at 1. rewrite pack_crc.
  fold (request_frame slave start count).
  unfold try_except_kind, Py.bind, Py.call, Py.modify, Py.ret.
  rewrite H1, H2, H3.
  destruct (List.length (firstn (Z.to_nat (5 + count * 2)) arrived) <? 5)%nat;
    [reflexivity|].
  destruct (unpack_H_le (last_two (firstn (Z.to_nat (5 + count * 2)) arrived)))
    as [rc|e]; [|destruct (String.eqb e SerialException); reflexivity].
  destruct (negb (rc =? _calculate_crc
                          (but_last_two (firstn (Z.to_nat (5 + count * 2)) arrived))));
    reflexivity.
Qed.

Lemma response_frame_length a f payload :
  List.length (response_frame a f payload) = (5 + List.length payload)%nat.
Proof.
  unfold response_frame, crc_bytes. cbv zeta. rewrite !length_app. simpl. lia.
Qed.

Lemma read_response_frame slave start count a f payload written :
  in_range slave start count ->
  (List.length payload <= 255)%nat -> Z.of_nat (List.length payload) <= count * 2 ->
  _read_holding_registers true slave (delivers (response_frame a f payload))
    start count written =
  (Py.Returned (Some payload), written ++ [request_frame slave start count]).
Proof.
  intros Hr Hlen Hfit. rewrite read_delivers by exact Hr. cbv zeta.
  rewrite firstn_all2 by (rewrite response_frame_length; lia).
  rewrite response_frame_length.
  destruct (Nat.ltb_spec (5 + List.length payload) 5) as [Hlt|_]; [lia|].
  unfold response_frame at 1 2. cbv zeta. unfold crc_bytes at 1 2.
  rewrite last_two_app, but_last_two_app.
  fold (crc_bytes ([a; f; byte_of (Z.of_nat (List.length payload))] ++ payload)).
  rewrite unpack_crc, Z.eqb_refl. cbn [negb].
  unfold response_frame. cbv zeta. simpl nth. simpl skipn.
  rewrite byte_val_of by lia. rewrite Nat2Z.id.
  rewrite firstn_app, firstn_all, Nat.sub_diag. simpl. now rewrite app_nil_r.
Qed.

(** X27. A request is built before the port is touched: when the sensor is
    not connected the call returns [None] at once; when it is connected and a
    parameter does not fit its field (address above 255, register or count
    above 65535, or negative) [struct.error] propagates and nothing is
    written. Otherwise the frame written is 8 bytes long, address, function 3,
    start and count high byte first, CRC low byte first, and has CRC 0; a
    [SerialException] of the port gives [None]. *)
Theorem request_is_built_or_refused (slave start count : Z) (port : serial)
    (written : list (list Byte.byte)) :
  _read_holding_registers false slave port start count written =
    (Py.Returned None, written) /\
  (~ in_range slave start count ->
   _read_holding_registers true slave port start count written =
     (Py.Raised struct_error, written)) /\
  (in_range slave start count ->
   List.length (request_frame slave start count) = 8%nat /\
   _calculate_crc (request_frame slave start count) = 0 /\
   (reset_input_buffer port = Py.Returned tt -> write port = Py.Returned tt ->
    snd (_read_holding_registers true slave port start count written) =
      written ++ [request_frame slave start count]) /\
   (reset_input_buffer port = Py.Raised SerialException ->
    _read_holding_registers true slave port start count written =
      (Py.Returned None, written)) /\
   (reset_input_buffer port = Py.Returned tt ->
    write port = Py.Raised SerialException ->
    _read_holding_registers true slave port start count written =
      (Py.Returned None, written)) /\
   (reset_input_buffer port = Py.Returned tt -> write port = Py.Returned tt ->
    incoming port = Py.Raised SerialException ->
    _read_holding_registers true slave port start count written =
      (Py.Returned None, written ++ [request_frame slave start count]))).
Proof.
  split; [reflexivity|]. split.
  - intros Hr. unfold _read_holding_registers. cbn [negb].
    unfold Py.bind at 1. unfold Py.call at 1. now rewrite (pack_out_of_range _ _ _ Hr).
  - intros Hr. split; [reflexivity|]. split; [apply crc_residue|].
    destruct (read_cases true slave port start count written)
      as (r & w' & Hrun & Hcases).
    split.
    + intros Hreset Hwrite. clear Hrun Hcases r w'.
      unfold _read_holding_registers. cbn [negb].
      unfold Py.bind at 1. unfold Py.call at 1. rewrite (pack_in_range _ _ _ Hr).
      unfold Py.bind at 1. unfold Py.call at 1. rewrite pack_crc.
      fold (request_frame slave start count).
      unfold try_except_kind, Py.bind, Py.call, Py.modify, Py.ret.
      rewrite Hreset, Hwrite.
      destruct (incoming port) as [arrived|e];
        [|destruct (String.eqb e SerialException); reflexivity].
      destruct (List.length (firstn (Z.to_nat (5 + count * 2)) arrived) <? 5)%nat;
        [reflexivity|].
      destruct (unpack_H_le (last_two (firstn (Z.to_nat (5 + count * 2)) arrived)))
        as [rc|e]; [|destruct (String.eqb e SerialException); reflexivity].
      destruct (negb (rc =? _calculate_crc
                           (but_last_two (firstn (Z.to_nat (5 + count * 2)) arrived))));
        reflexivity.
    + clear Hrun Hcases r w'.
      split; [|split]; intros Hreset; [|intros Hwrite|intros Hwrite Hin];
        unfold _read_holding_registers; cbn [negb];
        unfold Py.bind at 1; unfold Py.call at 1; rewrite (pack_in_range _ _ _ Hr);
        unfold Py.bind at 1; unfold Py.call at 1; rewrite pack_crc;
        fold (request_frame slave start count);
        unfold try_except_kind, Py.bind, Py.call, Py.modify, Py.ret;
        rewrite Hreset, ?Hwrite, ?Hin; reflexivity.
Qed.

(** X28. A response in the layout the source describes, address, function,
    byte count, data, CRC, is decoded to its data bytes, whatever its address
    and function bytes are (they are not compared with the request): the data
    are returned as they were sent, provided they fit the [5 + 2 * count]
    bytes that are read. *)
Theorem well_formed_response_is_decoded (slave start count : Z) (a f : Byte.byte)
    (payload : list Byte.byte) (written : list (list Byte.byte)) :
  in_range slave start count ->
  (List.length payload <= 255)%nat -> Z.of_nat (List.length payload) <= count * 2 ->
  _read_holding_registers true slave (delivers (response_frame a f payload))
    start count written =
  (Py.Returned (Some payload), written ++ [request_frame slave start count]).
Proof. apply read_response_frame. Qed.

Lemma well_formed_response_is_decoded_witness :
  _read_holding_registers true 1 (delivers (response_frame Byte.x01 Byte.x03 sample_payload))
    6 2 [] =
  (Py.Returned (Some sample_payload), [request_frame 1 6 2]).
Proof.
  apply (well_formed_response_is_decoded 1 6 2 Byte.x01 Byte.x03 sample_payload []);
    [unfold in_range; lia | simpl; lia | simpl; lia].
Defined.

(** X29. Data are returned only from a frame whose CRC is right: when
    [_read_holding_registers] returns data, at least 5 bytes were read, their
    last two are the CRC (low byte first) of the bytes before them, so that
    the CRC of the whole frame is 0, and the data are the [response[2]] bytes
    that follow the third byte, as far as they exist; they may include the
    CRC bytes. The request was written. *)
Theorem accepted_response_has_valid_crc (connected : bool) (slave start count : Z)
    (port : serial) (written w' : list (list Byte.byte)) (data : list Byte.byte) :
  _read_holding_registers connected slave port start count written =
    (Py.Returned (Some data), w') ->
  exists arrived,
    incoming port = Py.Returned arrived /\
    let response := firstn (Z.to_nat (5 + count * 2)) arrived in
    (5 <= List.length response)%nat /\
    response = but_last_two response ++ crc_bytes (but_last_two response) /\
    _calculate_crc response = 0 /\
    data = firstn (Z.to_nat (byte_val (nth 2 response Byte.x00))) (skipn 3 response) /\
    (List.length data <= List.length response - 3)%nat /\
    w' = written ++ [request_frame slave start count].
Proof.
  intros Hrun.
  destruct (read_cases connected slave port start count written)
    as (r & w0 & Hrun' & [[Hr _] | [(e & Hr & _) | (arrived & _ & _ & Hin & Hacc)]]);
    rewrite Hrun in Hrun'; injection Hrun' as <- <-; try discriminate Hr.
  cbv zeta in Hacc. destruct Hacc as (Hlen & Hcrc & Hr & Hw).
  exists arrived. split; [exact Hin|]. cbv zeta.
  set (response := firstn (Z.to_nat (5 + count * 2)) arrived) in *. clearbody response.
  split; [exact Hlen|]. split; [exact Hcrc|].
  split; [rewrite Hcrc; apply crc_residue|].
  assert (Hd : data = firstn (Z.to_nat (byte_val (nth 2 response Byte.x00)))
                        (skipn 3 response)) by congruence.
  split; [exact Hd|]. split; [|exact Hw].
  rewrite Hd, length_firstn, length_skipn. lia.
Qed.

Lemma accepted_response_has_valid_crc_witness :
  exists arrived,
    incoming (delivers (response_frame Byte.x01 Byte.x03 sample_payload)) =
      Py.Returned arrived /\
    _calculate_crc (firstn (Z.to_nat (5 + 2 * 2)) arrived) = 0.
Proof.
  destruct (accepted_response_has_valid_crc true 1 6 2
              (delivers (response_frame Byte.x01 Byte.x03 sample_payload))
              [] [request_frame 1 6 2] sample_payload)
    as (arrived & Hin & _ & _ & Hz & _).
  - apply read_response_frame; [unfold in_range; lia | simpl; lia | simpl; lia].
  - exists arrived. split; [exact Hin | exact Hz].
Defined.

Lemma main_in_range slave start count :
  0 <= slave <= 255 -> 0 <= start <= 65535 -> 0 <= count <= 65535 ->
  in_range slave start count.
Proof. unfold in_range. tauto. Qed.

Ltac twelve_bytes payload H :=
  destruct payload as [|? [|? [|? [|? [|? [|? [|? [|? [|? [|? [|? [|? [|? ?]]]]]]]]]]]]];
  try discriminate H.

Ltac four_bytes p H :=
  destruct p as [|? [|? [|? [|? [|? ?]]]]]; try discriminate H.

(** X30. One reading takes three requests. When the twelve bytes of the axes
    have arrived, the reading is built from them, and the two optional
    requests decide its last two fields: each gives the decoded float when
    its four bytes arrive, and [None] when nothing arrives. But an optional
    response that carries one to three data bytes loses the whole reading:
    [read_vibration] returns [None]. *)
Theorem optional_registers_of_a_reading (cd : codec) (slave : Z) (a f : Byte.byte)
    (payload : list Byte.byte) (now : Q) (written : list (list Byte.byte)) :
  0 <= slave <= 255 -> List.length payload = 12%nat ->
  let main := delivers (response_frame a f payload) in
  let x := float32 cd (firstn 4 payload) in
  let y := float32 cd (firstn 4 (skipn 4 payload)) in
  let z := float32 cd (firstn 4 (skipn 8 payload)) in
  (forall pt pf, List.length pt = 4%nat -> List.length pf = 4%nat ->
     fst (read_vibration cd true slave main (delivers (response_frame a f pt))
            (delivers (response_frame a f pf)) now written) =
     Py.Returned (Some (Vibration.mk_reading now x y z (norm cd x y z)
                          (Some (float32 cd pt)) (Some (float32 cd pf))))) /\
  fst (read_vibration cd true slave main (delivers []) (delivers []) now written) =
    Py.Returned (Some (Vibration.mk_reading now x y z (norm cd x y z) None None)) /\
  (forall pt port_freq, (1 <= List.length pt <= 3)%nat ->
     fst (read_vibration cd true slave main (delivers (response_frame a f pt))
            port_freq now written) = Py.Returned None).
Proof.
  intros Hs Hlen. cbv zeta.
  assert (Hmain : forall w,
            _read_holding_registers true slave (delivers (response_frame a f payload)) 0 6 w =
            (Py.Returned (Some payload), w ++ [request_frame slave 0 6]))
    by (intros w; apply read_response_frame; [apply main_in_range; lia | lia | lia]).
  assert (Hnone : forall start w,
            0 <= start <= 65535 ->
            _read_holding_registers true slave (delivers []) start 2 w =
            (Py.Returned None, w ++ [request_frame slave start 2])).
  { intros start w Hst. rewrite read_delivers by (apply main_in_range; lia).
    reflexivity. }
  split; [|split].
  - intros pt pf Hpt Hpf.
    assert (Ht : forall w,
              _read_holding_registers true slave (delivers (response_frame a f pt)) 6 2 w =
              (Py.Returned (Some pt), w ++ [request_frame slave 6 2]))
      by (intros w; apply read_response_frame; [apply main_in_range; lia | lia | lia]).
    assert (Hf : forall w,
              _read_holding_registers true slave (delivers (response_frame a f pf)) 8 2 w =
              (Py.Returned (Some pf), w ++ [request_frame slave 8 2]))
      by (intros w; apply read_response_frame; [apply main_in_range; lia | lia | lia]).
    unfold read_vibration. unfold Py.bind at 1. rewrite Hmain.
    twelve_bytes payload Hlen. four_bytes pt Hpt. four_bytes pf Hpf.
    cbn [List.length Nat.ltb Nat.leb firstn skipn].
    unfold try_except_kind, Py.bind, Py.call, Py.ret, unpack_f, optional_float.
    cbn [List.length Nat.eqb firstn skipn]. rewrite Ht.
    unfold Py.bind, Py.call, Py.ret, unpack_f. cbn [List.length Nat.eqb]. rewrite Hf.
    cbn [List.length Nat.eqb]. reflexivity.
  - unfold read_vibration. unfold Py.bind at 1. rewrite Hmain.
    twelve_bytes payload Hlen.
    cbn [List.length Nat.ltb Nat.leb firstn skipn].
    unfold try_except_kind, Py.bind, Py.call, Py.ret, unpack_f, optional_float.
    cbn [List.length Nat.eqb firstn skipn].
    rewrite (Hnone 6 _ ltac:(lia)). cbv beta iota. unfold Py.ret at 1.
    rewrite (Hnone 8 _ ltac:(lia)). reflexivity.
  - intros pt port_freq Hpt.
    assert (Ht : forall w,
              _read_holding_registers true slave (delivers (response_frame a f pt)) 6 2 w =
              (Py.Returned (Some pt), w ++ [request_frame slave 6 2]))
      by (intros w; apply read_response_frame; [apply main_in_range; lia | lia | lia]).
    unfold read_vibration. unfold Py.bind at 1. rewrite Hmain.
    twelve_bytes payload Hlen.
    cbn [List.length Nat.ltb Nat.leb firstn skipn].
    unfold try_except_kind, Py.bind, Py.call, Py.ret, unpack_f, optional_float.
    cbn [List.length Nat.eqb firstn skipn]. rewrite Ht.
    destruct pt as [|? [|? [|? [|? ?]]]]; simpl in Hpt; try lia; reflexivity.
Qed.

Lemma optional_registers_of_a_reading_witness :
  fst (read_vibration sample_codec true 1
         (delivers (response_frame Byte.x01 Byte.x03
                      (sample_payload ++ sample_payload ++ sample_payload)))
         (delivers (response_frame Byte.x01 Byte.x03 [Byte.x41]))
         (delivers []) 0%Q []) = Py.Returned None.
Proof.
  apply (optional_registers_of_a_reading sample_codec 1 Byte.x01 Byte.x03
           (sample_payload ++ sample_payload ++ sample_payload) 0%Q []);
    [lia | reflexivity | simpl; lia].
Defined.

End ModbusFacts.
